(** * hass_components: Home Assistant custom components

    A shallow embedding of the pure logic of three custom components
    (lutron_hwqsx, mcintosh, screenlogic) and the properties their
    documentation states about them.

    Python objects are modelled as follows:
    - [str] as [string]; the device names handled here are split on the
      ASCII underscore only, so the byte view and the code-point view agree;
    - [dict] with string keys as [gmap string _];
    - an exception as the [Raise] constructor of [result];
    - services of the host platform and of vendor libraries as variables of
      a [Section]. *)

From Stdlib Require Import ZArith Ascii String List Bool Lia.
From stdpp Require Import base option list gmap strings pretty.

Local Open Scope Z_scope.

(** ** Python values, exceptions, results *)

(** The values stored in the vendor libraries' device dicts: [None], [int]
    and [str].  On these, structural equality is Python's [==]. *)
Inductive pyval : Type :=
  | PNone
  | PInt (z : Z)
  | PStr (s : string).

Global Instance pyval_eq_dec : EqDecision pyval.
Proof. solve_decision. Defined.

Global Instance pyval_countable : Countable pyval.
Proof.
  refine (inj_countable'
    (λ v, match v with
          | PNone => inl ()
          | PInt z => inr (inl z)
          | PStr s => inr (inr s)
          end)
    (λ x, match x with
          | inl _ => PNone
          | inr (inl z) => PInt z
          | inr (inr s) => PStr s
          end) _).
  by intros [].
Defined.

(** A device as the vendor library hands it over: a dict with string keys. *)
Abbreviation pydict := (gmap string pyval).

Inductive exn : Type :=
  | KeyError
  | IndexError
  | ValueError
  | TypeError
  | AttributeError
  | StructError        (* struct.error *)
  | VendorError.       (* an exception of a vendor client library *)

Global Instance exn_eq_dec : EqDecision exn.
Proof. solve_decision. Defined.

Inductive result (A : Type) : Type :=
  | Ok (a : A)
  | Raise (e : exn).
Global Arguments Ok {A} a.
Global Arguments Raise {A} e.

Definition rbind {A B : Type} (m : result A) (k : A → result B) : result B :=
  match m with
  | Ok a => k a
  | Raise e => Raise e
  end.

Notation "x <- m ;; k" := (rbind m (λ x, k))
  (at level 100, m at next level, right associativity, only parsing).

(** [d[key]] on a dict: [KeyError] when the key is absent. *)
Definition getitem `{Countable K} {V : Type} (d : gmap K V) (key : K) : result V :=
  match d !! key with
  | Some v => Ok v
  | None => Raise KeyError
  end.

(** [l[i]] on a list: [IndexError] when out of range. *)
Definition list_getitem {A : Type} (l : list A) (i : nat) : result A :=
  match l !! i with
  | Some v => Ok v
  | None => Raise IndexError
  end.

(** A value that must be a [str] (it is searched, split or sliced). *)
Definition as_str (v : pyval) : result string :=
  match v with
  | PStr s => Ok s
  | _ => Raise TypeError
  end.

(** [str(v)], also what an f-string puts for [{v}]. *)
Definition py_str (v : pyval) : string :=
  match v with
  | PNone => "None"
  | PInt z => pretty z
  | PStr s => s
  end.

(** ** Python string primitives *)

(** [sub in s] for two [str]. *)
Fixpoint str_in (sub s : string) : bool :=
  String.prefix sub s ||
  match s with
  | EmptyString => false
  | String _ s' => str_in sub s'
  end.

(** [s.startswith(p)]. *)
Definition startswith (s p : string) : bool := String.prefix p s.

(** [s[i:j]] for [0 <= i <= j]; like Python it clips at the end of [s]. *)
Definition slice (i j : nat) (s : string) : string :=
  String.substring i (j - i) s.

(** [s.split(c, maxsplit)] for a one-character separator; [limit = None]
    is the unbounded [s.split(c)]. *)
Fixpoint str_split (c : ascii) (limit : option nat) (s : string) : list string :=
  match s with
  | EmptyString => [EmptyString]
  | String a s' =>
      match limit with
      | Some O => [s]
      | _ =>
          if Ascii.eqb a c then EmptyString :: str_split c (Nat.pred <$> limit) s'
          else match str_split c limit s' with
               | hd :: tl => String a hd :: tl
               | [] => [String a EmptyString]
               end
      end
  end.

(** The character [c] occurs in [s]. *)
Fixpoint has_char (c : ascii) (s : string) : Prop :=
  match s with
  | EmptyString => False
  | String a s' => a = c ∨ has_char c s'
  end.

(** [sub] occurs in [s] as a contiguous piece. *)
Definition substring_of (sub s : string) : Prop :=
  ∃ before after, s = before +:+ sub +:+ after.

(** [c.join(l)] for a one-character [c]. *)
Fixpoint str_join (c : ascii) (l : list string) : string :=
  match l with
  | [] => EmptyString
  | [x] => x
  | x :: rest => x +:+ String c (str_join c rest)
  end.

(** *** [int(s)] on ASCII text

    Base ten: surrounding white space (tab, line feed, vertical tab, form
    feed, carriage return, space) is dropped, one sign is allowed, the
    digits may be grouped by single underscores, and anything else is a
    [ValueError]; the separators 28-31 are no white space here.  (On code
    points above 127 Python also accepts the other Unicode decimal digits
    and spaces; the texts parsed here are ASCII.) *)

Definition is_space (a : ascii) : bool :=
  let n := nat_of_ascii a in
  ((9 <=? n)%nat && (n <=? 13)%nat) || (n =? 32)%nat.

Definition digit_val (a : ascii) : option Z :=
  let n := Z.of_nat (nat_of_ascii a) in
  if (48 <=? n) && (n <=? 57) then Some (n - 48) else None.

Fixpoint lstrip (s : string) : string :=
  match s with
  | EmptyString => EmptyString
  | String a s' => if is_space a then lstrip s' else s
  end.

Fixpoint all_space (s : string) : bool :=
  match s with
  | EmptyString => true
  | String a s' => is_space a && all_space s'
  end.

(** The rest of a numeral, [acc] being the value of the digits read so far
    (at least one). *)
Fixpoint digits_from (acc : Z) (s : string) : option Z :=
  match s with
  | EmptyString => Some acc
  | String a s' =>
      match digit_val a with
      | Some d => digits_from (10 * acc + d) s'
      | None =>
          if Ascii.eqb a "_" then
            match s' with
            | String b s'' =>
                match digit_val b with
                | Some d => digits_from (10 * acc + d) s''
                | None => None
                end
            | EmptyString => None
            end
          else if all_space s then Some acc else None
      end
  end.

Definition unsigned_int (s : string) : option Z :=
  match s with
  | String a s' =>
      match digit_val a with
      | Some d => digits_from d s'
      | None => None
      end
  | EmptyString => None
  end.

Definition int_of_str (s : string) : result Z :=
  let r :=
    match lstrip s with
    | String "+" s' => unsigned_int s'
    | String "-" s' => Z.opp <$> unsigned_int s'
    | s' => unsigned_int s'
    end in
  match r with
  | Some z => Ok z
  | None => Raise ValueError
  end.

(** [int(v)]. *)
Definition py_int (v : pyval) : result Z :=
  match v with
  | PInt z => Ok z
  | PStr s => int_of_str s
  | PNone => Raise TypeError
  end.

(** ** Constants of the host platform ([homeassistant.const]) *)

Definition ATTR_DEVICE_ID : string := "device_id".
Definition ATTR_NAME : string := "name".
Definition ATTR_MODEL : string := "model".
Definition ATTR_ENTITY_ID : string := "entity_id".

(** ** lutron_hwqsx/const.py *)

Definition DOMAIN : string := "lutron_hwqsx".
Definition MANUFACTURER : string := "Lutron Electronics Co., Inc".
Definition ATTR_SERIAL : string := "serial".
Definition ATTR_TYPE : string := "type".
Definition UNASSIGNED_AREA : string := "Unassigned".
Definition CONFIG_URL : string := "https://device-login.lutron.com".
Definition ATTR_LEAP_BUTTON_NUMBER : string := "leap_button_number".
Definition ATTR_BUTTON_NUMBER : string := "button_number".
Definition ATTR_DEVICE_NAME : string := "device_name".
Definition ATTR_AREA_NAME : string := "area_name".
Definition ATTR_ACTION : string := "action".
Definition ACTION_PRESSED : string := "pressed".
Definition ACTION_RELEASED : string := "released".
Definition BRIDGE_DEVICE_ID : string := "1".

(** Constants repeated at the head of [__init__.py], [button.py] and
    [binary_sensor.py]. *)
Definition ATTR_CONTROL_STATION_NAME : string := "control_station_name".
Definition ATTR_BUTTON_GROUP : string := "button_group".
Definition ATTR_BUTTON_NAME : string := "button_name".
Definition SEETOUCH_BUTTON_NAME_DEFAULT_PATTERN : string := "Button ".
Definition SEETOUCH_BUTTON_NAME_LOWER : string := "Button 18".
Definition SEETOUCH_BUTTON_NAME_RAISE : string := "Button 19".

Definition QSX_KEYPADS : gset string :=
  {[ "SeeTouchHybridKeypad"; "HomeownerKeypad"; "SeeTouchTabletopKeypad";
     "Pico3ButtonRaiseLower" ]}.

(** [v in QSX_KEYPADS]: only a [str] can be a member. *)
Definition in_QSX_KEYPADS (v : pyval) : bool :=
  match v with
  | PStr s => bool_decide (s ∈ QSX_KEYPADS)
  | _ => false
  end.

(** What the device registry is told about a device ([DeviceInfo], or the
    keyword arguments of [async_get_or_create]).  An identifier is the pair
    [(DOMAIN, id)]. *)
Record device_info : Type := DeviceInfo {
  di_name : string;
  di_manufacturer : string;
  di_config_entry_id : option string;
  di_identifiers : string * pyval;
  di_model : string;
  di_via_device : option (string * pyval);
  di_configuration_url : option string;
  di_suggested_area : option string;
}.

(** [info["suggested_area"] = area], guarded by [area != UNASSIGNED_AREA]. *)
Definition suggest_area (area : string) : option string :=
  if bool_decide (area ≠ UNASSIGNED_AREA) then Some area else None.

(** [f"{device['model']} ({device['type']})"]. *)
Definition model_label (device : pydict) : result string :=
  model <- getitem device ATTR_MODEL ;;
  type <- getitem device ATTR_TYPE ;;
  Ok (py_str model +:+ " (" +:+ py_str type +:+ ")").

(** ** Helpers for dicts kept in insertion order *)

(** [d.get(k)] on a dict given as the list of its items. *)
Fixpoint assoc_get {K V : Type} `{EqDecision K} (items : list (K * V)) (k : K)
  : option V :=
  match items with
  | [] => None
  | (k', v) :: rest => if decide (k' = k) then Some v else assoc_get rest k
  end.

(** A comprehension whose element expression may raise: the first
    exception ends it. *)
Fixpoint rmap {A B : Type} (f : A → result B) (l : list A) : result (list B) :=
  match l with
  | [] => Ok []
  | a :: rest =>
      b <- f a ;;
      bs <- rmap f rest ;;
      Ok (b :: bs)
  end.

(** ** The map from button group to control station

    The same loop builds it in [__init__.py] (lines 191-196), [button.py]
    (lines 54-59) and [binary_sensor.py] (lines 68-73). *)

(** The ["button_groups"] entry of a device of the bridge. *)
Inductive button_groups_entry : Type :=
  | NoGroups                      (* no such entry *)
  | GroupsScalar (v : pyval)      (* None, an int or a str *)
  | GroupsList (l : list pyval).

(** A device of [bridge.get_devices()]: its scalar entries and its
    ["button_groups"] entry. *)
Record station : Type := Station {
  st_fields : pydict;
  st_button_groups : button_groups_entry;
}.

(** What the inner [for] runs over when the guard lets it run: the items
    of a list, the characters of a [str]; [None] and [int] are not
    [Iterable]. *)
Definition iterable_groups (device : station) : option (list pyval) :=
  match st_button_groups device with
  | NoGroups => None
  | GroupsScalar (PStr s) =>
      Some ((λ c, PStr (String c EmptyString)) <$> list_ascii_of_string s)
  | GroupsScalar _ => None
  | GroupsList l => Some l
  end.

(** The inner loop: a group already in the map keeps its device. *)
Definition add_button_groups (device : station) (groups : list pyval)
    (button_group_to_device_map : gmap pyval station) : gmap pyval station :=
  foldl (λ m g, match m !! g with
                | None => <[g := device]> m
                | Some _ => m
                end)
    button_group_to_device_map groups.

(** The body of the outer loop. *)
Definition group_step (m : gmap pyval station) (d : station)
  : gmap pyval station :=
  match iterable_groups d with
  | Some groups => add_button_groups d groups m
  | None => m
  end.

(** The outer loop over [devices.values()]. *)
Definition build_button_group_to_device_map (devices : list station)
  : gmap pyval station :=
  foldl (λ m device, match iterable_groups device with
                     | Some groups => add_button_groups device groups m
                     | None => m
                     end)
    ∅ devices.

(** [device] is the first of [devices], in iteration order, to list [g]. *)
Definition first_listing (devices : list station) (g : pyval)
    (device : station) : Prop :=
  ∃ before after groups,
    devices = before ++ device :: after
    ∧ iterable_groups device = Some groups ∧ g ∈ groups
    ∧ ∀ earlier groups', earlier ∈ before →
        iterable_groups earlier = Some groups' → g ∉ groups'.

(** ** lutron_hwqsx/__init__.py *)

Module Init.

(** [_area_and_name_from_name]. *)
Definition _area_and_name_from_name (device_name : string)
  : result (string * string) :=
  if str_in "_" device_name then
    let area_device_name := str_split "_" (Some 1%nat) device_name in
    a0 <- list_getitem area_device_name 0 ;;
    a1 <- list_getitem area_device_name 1 ;;
    Ok (a0, a1)
  else Ok (UNASSIGNED_AREA, device_name).

(** *** [_async_migrate_unique_ids] *)

(** Calls received by the host's device registry during a migration. *)
Inductive dr_event : Type :=
  | GetDevice (identifier : string * string)
  | UpdateDevice (id : string) (new_identifier : string * string).

Section migrate.
(** The device registry is the host's: [async_get_device] answers with
    the id of the device entry it finds, if any, as a function of the
    calls it has received so far. *)
Variable async_get_device : list dr_event → string * string → option string.

(** The closure [_async_migrator]; [bridge_unique_id] is
    [entry.unique_id], which may still be [None].  The returned
    [Some u] stands for the dict [{"new_unique_id": u}]. *)
Definition _async_migrator (bridge_unique_id : pyval)
    (dev_reg : list dr_event) (unique_id : string)
  : list dr_event * result (option string) :=
  if bool_decide (unique_id = EmptyString) then (dev_reg, Ok None)
  else if negb (startswith unique_id "occupancygroup_")
          || startswith unique_id
               ("occupancygroup_" +:+ py_str bridge_unique_id)
  then (dev_reg, Ok None)
  else
    match list_getitem (str_split "_" None unique_id) 1 with
    | Raise e => (dev_reg, Raise e)
    | Ok sensor_id =>
        let new_unique_id :=
          "occupancygroup_" +:+ py_str bridge_unique_id +:+ "_" +:+ sensor_id in
        let asked := dev_reg ++ [GetDevice (DOMAIN, unique_id)] in
        let dev_reg' :=
          match async_get_device dev_reg (DOMAIN, unique_id) with
          | Some id => asked ++ [UpdateDevice id (DOMAIN, new_unique_id)]
          | None => asked
          end in
        (dev_reg',
         Ok (Some ("occupancygroup_" +:+ py_str bridge_unique_id
                   +:+ "_" +:+ sensor_id)))
    end.

(** One entry of the host's [er.async_migrate_entries]: the entry gets
    the new unique id when the migrator returns one and is left alone
    when it returns [None]. *)
Definition migrate_entry (bridge_unique_id : pyval)
    (dev_reg : list dr_event) (unique_id : string)
  : list dr_event * result string :=
  match _async_migrator bridge_unique_id dev_reg unique_id with
  | (dev_reg', Ok (Some new_unique_id)) => (dev_reg', Ok new_unique_id)
  | (dev_reg', Ok None) => (dev_reg', Ok unique_id)
  | (dev_reg', Raise e) => (dev_reg', Raise e)
  end.
End migrate.

(** *** [_async_register_button_devices] *)

(** Lines 248-249: a device without serial takes its button group, read
    as an integer, for serial.  The dict is changed in place. *)
Definition default_serial (device : pydict) : result pydict :=
  if bool_decide (device !! ATTR_SERIAL = None)
     && bool_decide (is_Some (device !! ATTR_BUTTON_GROUP))
  then
    button_group <- getitem device ATTR_BUTTON_GROUP ;;
    serial <- py_int button_group ;;
    Ok (<[ATTR_SERIAL := PInt serial]> device)
  else Ok device.

(** Lines 256-274: the keyword arguments for [async_get_or_create]. *)
Definition button_device_args (config_entry_id : string)
    (bridge_device : pydict) (button_group_to_device_map : gmap pyval pydict)
    (device : pydict) : result device_info :=
  type <- getitem device "type" ;;
  hass_device_id <-
    (if in_QSX_KEYPADS type then
       button_group <- getitem device ATTR_BUTTON_GROUP ;;
       parent_device <- getitem button_group_to_device_map button_group ;;
       getitem parent_device ATTR_DEVICE_ID
     else getitem device ATTR_SERIAL) ;;
  device_name <- getitem device "name" ;;
  device_name <- as_str device_name ;;
  area_name <- _area_and_name_from_name device_name ;;
  let '(area, name) := area_name in
  model <- model_label device ;;
  bridge_serial <- getitem bridge_device ATTR_SERIAL ;;
  Ok {| di_name := area +:+ " " +:+ name;
        di_manufacturer := MANUFACTURER;
        di_config_entry_id := Some config_entry_id;
        di_identifiers := (DOMAIN, hass_device_id);
        di_model := model;
        di_via_device := Some (DOMAIN, bridge_serial);
        di_configuration_url := None;
        di_suggested_area := suggest_area area |}.

(** The registration the documentation promises for [device]: nested
    under the bridge, and identified by the parent control station's
    [device_id] for a keypad type, by its own serial otherwise. *)
Definition registered_as (bridge_device : pydict)
    (button_group_to_device_map : gmap pyval pydict)
    (device : pydict) (device_args : device_info) : Prop :=
  (∃ bridge_serial,
     bridge_device !! ATTR_SERIAL = Some bridge_serial
     ∧ di_via_device device_args = Some (DOMAIN, bridge_serial))
  ∧ ∃ type,
      device !! "type" = Some type
      ∧ if in_QSX_KEYPADS type then
          ∃ button_group parent_device parent_id,
            device !! ATTR_BUTTON_GROUP = Some button_group
            ∧ button_group_to_device_map !! button_group = Some parent_device
            ∧ parent_device !! ATTR_DEVICE_ID = Some parent_id
            ∧ di_identifiers device_args = (DOMAIN, parent_id)
        else
          ∃ serial,
            device !! ATTR_SERIAL = Some serial
            ∧ di_identifiers device_args = (DOMAIN, serial).

(** The four keypad types of [QSX_KEYPADS], spelled out. *)
Definition is_keypad_type (type : pyval) : Prop :=
  type = PStr "SeeTouchHybridKeypad" ∨ type = PStr "HomeownerKeypad"
  ∨ type = PStr "SeeTouchTabletopKeypad" ∨ type = PStr "Pico3ButtonRaiseLower".

(** The documented registration of [device], with every name written
    out: nested under the bridge, identified by the device_id of the
    control station of its button group when its type is a keypad type,
    and by its own serial otherwise. *)
Definition registered_under (bridge_device : pydict)
    (button_group_to_device_map : gmap pyval pydict)
    (device : pydict) (device_args : device_info) : Prop :=
  (∃ bridge_serial,
     bridge_device !! "serial" = Some bridge_serial
     ∧ di_via_device device_args = Some ("lutron_hwqsx"%string, bridge_serial))
  ∧ ∃ type,
      device !! "type" = Some type
      ∧ (is_keypad_type type →
         ∃ button_group parent_device parent_id,
           device !! "button_group" = Some button_group
           ∧ button_group_to_device_map !! button_group = Some parent_device
           ∧ parent_device !! "device_id" = Some parent_id
           ∧ di_identifiers device_args = ("lutron_hwqsx"%string, parent_id))
      ∧ (¬ is_keypad_type type →
         ∃ serial,
           device !! "serial" = Some serial
           ∧ di_identifiers device_args = ("lutron_hwqsx"%string, serial)).

(** The display name the documentation gives a dict: parsed area, a
    space, parsed name; "Unassigned " and the whole name when the name has
    no underscore. *)
Definition named_after (device : pydict) (display : string) : Prop :=
  ∃ device_name area name,
    device !! "name" = Some (PStr device_name)
    ∧ _area_and_name_from_name device_name = Ok (area, name)
    ∧ display = area +:+ " " +:+ name
    ∧ (¬ has_char "_" device_name → display = "Unassigned " +:+ device_name).

(** The dicts that get registered: each one whose serial is not the
    serial of an earlier one. *)
Fixpoint first_of_each_serial (seen : gset pyval) (devices : list pydict)
  : list pydict :=
  match devices with
  | [] => []
  | device :: rest =>
      match device !! "serial" with
      | Some serial =>
          if bool_decide (serial ∈ seen) then first_of_each_serial seen rest
          else device :: first_of_each_serial ({[serial]} ∪ seen) rest
      | None => first_of_each_serial seen rest
      end
  end.

(** A button dict the loop can register: it has a serial or a button
    group that reads as an integer, a type, a name that is a [str] and a
    model; when its type is a keypad type its button group is a key of the
    map, and the device found there has a device_id. *)
Definition registrable (button_group_to_device_map : gmap pyval pydict)
    (device : pydict) : Prop :=
  (is_Some (device !! "serial")
   ∨ ∃ button_group n,
       device !! "button_group" = Some button_group
       ∧ py_int button_group = Ok n)
  ∧ ∃ type name model,
      device !! "type" = Some type
      ∧ device !! "name" = Some (PStr name)
      ∧ device !! "model" = Some model
      ∧ (is_keypad_type type →
         ∃ button_group parent_device,
           device !! "button_group" = Some button_group
           ∧ button_group_to_device_map !! button_group = Some parent_device
           ∧ is_Some (parent_device !! "device_id")).

(** All the loop may do to a button dict: give it the serial it lacked,
    read off its button group. *)
Definition gains_serial (before after : pydict) : Prop :=
  after = before
  ∨ (before !! ATTR_SERIAL = None
     ∧ ∃ button_group n,
         before !! ATTR_BUTTON_GROUP = Some button_group
         ∧ py_int button_group = Ok n
         ∧ after = <[ATTR_SERIAL := PInt n]> before).

Section register.
(** [async_get_or_create] is the host's: the id of the entry it returns
    is a function of the calls received so far and of the arguments. *)
Variable dr_device_id : list device_info → device_info → string.

Variable config_entry_id : string.
Variable bridge_device : pydict.
Variable button_group_to_device_map : gmap pyval pydict.

(** What the call leaves behind: the button dicts (changed in place),
    the calls the device registry received, and the returned
    [button_devices_by_dr_id] or the exception. *)
Record registered : Type := Registered {
  buttons_after : list (Z * pydict);
  registry_calls : list device_info;
  returned : result (gmap string pydict);
}.

Definition keep (entry : Z * pydict) (r : registered) : registered :=
  {| buttons_after := entry :: buttons_after r;
     registry_calls := registry_calls r;
     returned := returned r |}.

(** The [for] loop over [button_devices_by_id.values()], in insertion
    order. *)
Fixpoint register_loop (todo : list (Z * pydict)) (seen : gset pyval)
    (calls : list device_info) (button_devices_by_dr_id : gmap string pydict)
  : registered :=
  match todo with
  | [] => Registered [] calls (Ok button_devices_by_dr_id)
  | (button_id, device) :: rest =>
      match default_serial device with
      | Raise e => Registered todo calls (Raise e)
      | Ok device =>
          match getitem device ATTR_SERIAL with
          | Raise e => Registered ((button_id, device) :: rest) calls (Raise e)
          | Ok serial =>
              if bool_decide (serial ∈ seen) then
                keep (button_id, device)
                  (register_loop rest seen calls button_devices_by_dr_id)
              else
                match button_device_args config_entry_id bridge_device
                        button_group_to_device_map device with
                | Raise e =>
                    Registered ((button_id, device) :: rest) calls (Raise e)
                | Ok device_args =>
                    let dr_id := dr_device_id calls device_args in
                    keep (button_id, device)
                      (register_loop rest ({[serial]} ∪ seen)
                         (calls ++ [device_args])
                         (<[dr_id := device]> button_devices_by_dr_id))
                end
          end
      end
  end.

Definition _async_register_button_devices
    (calls : list device_info) (button_devices_by_id : list (Z * pydict))
  : registered :=
  register_loop button_devices_by_id ∅ calls ∅.
End register.

(** *** [async_get_lip_button] *)

Section lip_button.
(** The two tables of [device_trigger.py]. *)
Variable DEVICE_TYPE_SUBTYPE_MAP_TO_LIP : gmap string (gmap string Z).
Variable LEAP_TO_DEVICE_TYPE_SUBTYPE_MAP : gmap string (gmap Z string).

Definition async_get_lip_button (device_type : string) (leap_button : Z)
  : result (option Z) :=
  match DEVICE_TYPE_SUBTYPE_MAP_TO_LIP !! device_type with
  | None => Ok None
  | Some lip_buttons_name_to_num =>
      match LEAP_TO_DEVICE_TYPE_SUBTYPE_MAP !! device_type with
      | None => Ok None
      | Some leap_button_num_to_name =>
          name <- getitem leap_button_num_to_name leap_button ;;
          num <- getitem lip_buttons_name_to_num name ;;
          Ok (Some num)
      end
  end.
End lip_button.

(** *** [LutronCasetaDevice] *)

(** The attributes [__init__] sets; [None] for one it has not set.  The
    handle [_smartbridge] of the vendor library is left out. *)
Record LutronCasetaDevice : Type := {
  _device : pydict;
  _bridge_device : pydict;
  _bridge_unique_id : option string;
  display_name : option string;
  _attr_name : option string;
  _attr_unique_id : option pyval;
  _attr_device_info : option device_info;
}.

(** ['-' + v], then [sret += ...]: both operands must be [str]. *)
Definition str_add (a b : pyval) : result pyval :=
  match a, b with
  | PStr x, PStr y => Ok (PStr (x +:+ y))
  | _, _ => Raise TypeError
  end.

(** [_handle_none_serial], with [self._bridge_unique_id] and
    [self._device] passed in. *)
Definition _handle_none_serial (bridge_unique_id : string) (device : pydict)
    (serial : pyval) : result pyval :=
  sret <-
    (match serial with
     | PNone =>
         device_id <- getitem device "device_id" ;;
         Ok (PStr (bridge_unique_id +:+ "_" +:+ py_str device_id))
     | _ => Ok serial
     end) ;;
  match device !! "button_number" with
  | None | Some PNone => Ok sret
  | Some button_number =>
      suffix <- str_add (PStr "-") button_number ;;
      str_add sret suffix
  end.

Section device.
(** [serial_to_unique_id] of [util.py]. *)
Variable serial_to_unique_id : pyval → result string.

Definition LutronCasetaDevice__init__ (device bridge_device : pydict)
  : result LutronCasetaDevice :=
  if bool_decide (device !! "serial" = None) then
    Ok {| _device := device; _bridge_device := bridge_device;
          _bridge_unique_id := None; display_name := None;
          _attr_name := None; _attr_unique_id := None;
          _attr_device_info := None |}
  else
    bridge_serial <- getitem bridge_device "serial" ;;
    bridge_unique_id <- serial_to_unique_id bridge_serial ;;
    device_name <- getitem device "name" ;;
    device_name <- as_str device_name ;;
    area_name <- _area_and_name_from_name device_name ;;
    let '(area, name) := area_name in
    let display := area +:+ " " +:+ name in
    serial <- getitem device "serial" ;;
    identifier <- _handle_none_serial bridge_unique_id device serial ;;
    model <- model_label device ;;
    via <- getitem bridge_device "serial" ;;
    Ok {| _device := device; _bridge_device := bridge_device;
          _bridge_unique_id := Some bridge_unique_id;
          display_name := Some display;
          _attr_name := Some display;
          _attr_unique_id := Some serial;
          _attr_device_info :=
            Some {| di_name := display;
                    di_manufacturer := MANUFACTURER;
                    di_config_entry_id := None;
                    di_identifiers := (DOMAIN, identifier);
                    di_model := model;
                    di_via_device := Some (DOMAIN, via);
                    di_configuration_url := Some CONFIG_URL;
                    di_suggested_area := suggest_area area |} |}.
End device.

(** *** [_async_subscribe_pico_remote_events] *)

Section button_event.
(** The two tables and [_lutron_model_to_device_type] of
    [device_trigger.py]; the constant of the vendor library; the host's
    device and entity registries, each answering with the id it finds. *)
Variable DEVICE_TYPE_SUBTYPE_MAP_TO_LIP : gmap string (gmap string Z).
Variable LEAP_TO_DEVICE_TYPE_SUBTYPE_MAP : gmap string (gmap Z string).
Variable _lutron_model_to_device_type : pyval → pyval → result string.
Variable BUTTON_STATUS_PRESSED : pyval.
Variable async_get_device : string * pyval → option string.
Variable async_get_entity_id : Z → option string.

(** [async_get_lip_button(type_, leap_button_number)] on whatever
    [device["button_number"]] holds: only an [int] can be a key of the
    inner table. *)
Definition lip_button_for (type_ : string) (leap_button_number : pyval)
  : result (option Z) :=
  match leap_button_number with
  | PInt n =>
      async_get_lip_button DEVICE_TYPE_SUBTYPE_MAP_TO_LIP
        LEAP_TO_DEVICE_TYPE_SUBTYPE_MAP type_ n
  | _ =>
      match DEVICE_TYPE_SUBTYPE_MAP_TO_LIP !! type_,
            LEAP_TO_DEVICE_TYPE_SUBTYPE_MAP !! type_ with
      | Some _, Some _ => Raise KeyError
      | _, _ => Ok None
      end
  end.

(** The closure [_async_button_event]: the data of the event it fires on
    the bus, or [None] when it returns without firing. *)
Definition _async_button_event
    (button_devices_by_id : list (Z * pydict))
    (button_group_to_device_map : gmap pyval pydict)
    (button_id : Z) (event_type : pyval) : result (option pydict) :=
  match assoc_get button_devices_by_id button_id with
  | None => Ok None
  | Some device =>
      if bool_decide (device = ∅) then Ok None
      else
        let action :=
          if bool_decide (event_type = BUTTON_STATUS_PRESSED)
          then ACTION_PRESSED else ACTION_RELEASED in
        model <- getitem device "model" ;;
        type <- getitem device "type" ;;
        type_ <- _lutron_model_to_device_type model type ;;
        device_name <- getitem device "name" ;;
        device_name <- as_str device_name ;;
        area_name <- _area_and_name_from_name device_name ;;
        leap_button_number <- getitem device "button_number" ;;
        lip_button_number <- lip_button_for type_ leap_button_number ;;
        type <- getitem device "type" ;;
        described <-
          (if in_QSX_KEYPADS type then
             button_group <- getitem device ATTR_BUTTON_GROUP ;;
             parent_device <- getitem button_group_to_device_map button_group ;;
             hass_device_id <- getitem parent_device ATTR_DEVICE_ID ;;
             station_name <- getitem parent_device ATTR_CONTROL_STATION_NAME ;;
             station_name <- as_str station_name ;;
             area_name <- _area_and_name_from_name station_name ;;
             button_name <- getitem device ATTR_BUTTON_NAME ;;
             let button_name :=
               if bool_decide (button_name = PStr SEETOUCH_BUTTON_NAME_LOWER)
               then PStr "Lower"
               else if bool_decide (button_name = PStr SEETOUCH_BUTTON_NAME_RAISE)
               then PStr "Raise"
               else button_name in
             Ok (hass_device_id, area_name, button_name)
           else
             hass_device_id <- getitem device "serial" ;;
             Ok (hass_device_id, area_name,
                 PStr ("button_" +:+ py_str leap_button_number))) ;;
        let '(hass_device_id, (area, name), button_name) := described in
        let hass_device := async_get_device (DOMAIN, hass_device_id) in
        let hass_entity_id := async_get_entity_id button_id in
        match hass_device with
        | None => Raise AttributeError
        | Some hass_device_dot_id =>
            Ok (Some
              (<[ATTR_SERIAL := hass_device_id]>
               (<[ATTR_TYPE := PStr type_]>
               (<[ATTR_BUTTON_NUMBER :=
                    match lip_button_number with
                    | Some n => PInt n
                    | None => PNone
                    end]>
               (<[ATTR_BUTTON_NAME := button_name]>
               (<[ATTR_LEAP_BUTTON_NUMBER := leap_button_number]>
               (<[ATTR_DEVICE_NAME := PStr name]>
               (<[ATTR_DEVICE_ID := PStr hass_device_dot_id]>
               (<[ATTR_AREA_NAME := PStr area]>
               (<[ATTR_ACTION := PStr action]>
               (<[ATTR_ENTITY_ID :=
                    match hass_entity_id with
                    | Some e => PStr e
                    | None => PNone
                    end]> ∅)))))))))))
        end
  end.
End button_event.

(** *** [LutronCasetaDevice.unique_id] *)

(** The property [unique_id]: [str(self._handle_none_serial(self.serial))].
    [self._bridge_unique_id] is only read for a serial that is [None]. *)
Definition unique_id (self : LutronCasetaDevice) : result string :=
  serial <- getitem (_device self) "serial" ;;
  match serial, _bridge_unique_id self with
  | PNone, None => Raise AttributeError
  | _, bridge_unique_id =>
      sret <- _handle_none_serial (default EmptyString bridge_unique_id)
                (_device self) serial ;;
      Ok (py_str sret)
  end.

(** *** [async_remove_config_entry_device] *)

Section remove_device.
(** [serial_to_unique_id] of [util.py]. *)
Variable serial_to_unique_id : pyval → result string.

(** The set [all_identifiers], in the order its display is evaluated. *)
Definition all_identifiers (devices : list (string * pydict))
    (buttons : list (Z * pydict)) (occupancy_groups : list (pyval * pydict))
  : result (list (string * pyval)) :=
  match assoc_get devices BRIDGE_DEVICE_ID with
  | None => Raise KeyError
  | Some bridge_device =>
      bridge_serial <- getitem bridge_device "serial" ;;
      bridge_unique_id <- serial_to_unique_id bridge_serial ;;
      groups <-
        rmap (λ device : pydict,
                group_id <- getitem device "occupancy_group_id" ;;
                Ok (DOMAIN,
                    PStr ("occupancygroup_" +:+ bridge_unique_id +:+ "_"
                          +:+ py_str group_id)))
          (occupancy_groups.*2) ;;
      serials <-
        rmap (λ device : pydict,
                serial <- getitem device "serial" ;;
                Ok (DOMAIN, serial))
          (devices.*2 ++ buttons.*2) ;;
      Ok ((DOMAIN, PStr bridge_unique_id) :: groups ++ serials)
  end.

(** The returned flag: [True] lets the host remove the device entry whose
    identifiers are [identifiers]. *)
Definition async_remove_config_entry_device
    (devices : list (string * pydict)) (buttons : list (Z * pydict))
    (occupancy_groups : list (pyval * pydict))
    (identifiers : list (string * pyval)) : result bool :=
  known <- all_identifiers devices buttons occupancy_groups ;;
  Ok (negb (existsb (λ identifier, bool_decide (identifier ∈ known))
              identifiers)).
End remove_device.

End Init.

(** ** lutron_hwqsx/binary_sensor.py *)

Module BinarySensor.

(** [_button_area_and_name_from_name]. *)
Definition _button_area_and_name_from_name (device_name : string)
  : result (string * string) :=
  if str_in "_" device_name then
    let area_device_name := str_split "_" (Some 1%nat) device_name in
    a0 <- list_getitem area_device_name 0 ;;
    a1 <- list_getitem area_device_name 1 ;;
    Ok (a0, a1)
  else Ok (UNASSIGNED_AREA, device_name).

Section occupancy.
(** The constant of the vendor library [pylutron_caseta]. *)
Variable OCCUPANCY_GROUP_OCCUPIED : pyval.

(** [LutronOccupancySensor.is_on], on [self._device]. *)
Definition is_on (device : pydict) : result bool :=
  status <- getitem device "status" ;;
  Ok (bool_decide (status = OCCUPANCY_GROUP_OCCUPIED)).
End occupancy.

(** *** [LutronOccupancySensor.__init__] *)

(** [_handle_none_serial] as it runs on a [LutronOccupancySensor]: there
    [self.device_id] is the subclass's property, which reads
    ["occupancy_group_id"]. *)
Definition _handle_none_serial (bridge_unique_id : string) (device : pydict)
    (serial : pyval) : result pyval :=
  sret <-
    (match serial with
     | PNone =>
         device_id <- getitem device "occupancy_group_id" ;;
         Ok (PStr (bridge_unique_id +:+ "_" +:+ py_str device_id))
     | _ => Ok serial
     end) ;;
  match device !! "button_number" with
  | None | Some PNone => Ok sret
  | Some button_number =>
      suffix <- Init.str_add (PStr "-") button_number ;;
      Init.str_add sret suffix
  end.

Section occupancy_sensor.
(** [serial_to_unique_id] of [util.py]. *)
Variable serial_to_unique_id : pyval → result string.

(** [super().__init__(device, bridge, bridge_device)]: the body of
    [LutronCasetaDevice.__init__] with [self] a [LutronOccupancySensor]. *)
Definition super__init__ (device bridge_device : pydict)
  : result Init.LutronCasetaDevice :=
  if bool_decide (device !! "serial" = None) then
    Ok {| Init._device := device; Init._bridge_device := bridge_device;
          Init._bridge_unique_id := None; Init.display_name := None;
          Init._attr_name := None; Init._attr_unique_id := None;
          Init._attr_device_info := None |}
  else
    bridge_serial <- getitem bridge_device "serial" ;;
    bridge_unique_id <- serial_to_unique_id bridge_serial ;;
    device_name <- getitem device "name" ;;
    device_name <- as_str device_name ;;
    area_name <- Init._area_and_name_from_name device_name ;;
    let '(area, name) := area_name in
    let display := area +:+ " " +:+ name in
    serial <- getitem device "serial" ;;
    identifier <- _handle_none_serial bridge_unique_id device serial ;;
    model <- model_label device ;;
    via <- getitem bridge_device "serial" ;;
    Ok {| Init._device := device; Init._bridge_device := bridge_device;
          Init._bridge_unique_id := Some bridge_unique_id;
          Init.display_name := Some display;
          Init._attr_name := Some display;
          Init._attr_unique_id := Some serial;
          Init._attr_device_info :=
            Some {| di_name := display;
                    di_manufacturer := MANUFACTURER;
                    di_config_entry_id := None;
                    di_identifiers := (DOMAIN, identifier);
                    di_model := model;
                    di_via_device := Some (DOMAIN, via);
                    di_configuration_url := Some CONFIG_URL;
                    di_suggested_area := suggest_area area |} |}.

(** The property [unique_id] of the sensor; an attribute that was never
    assigned is an [AttributeError]. *)
Definition occupancy_unique_id (self : Init.LutronCasetaDevice)
  : result string :=
  match Init._bridge_unique_id self with
  | None => Raise AttributeError
  | Some bridge_unique_id =>
      device_id <- getitem (Init._device self) "occupancy_group_id" ;;
      Ok ("occupancygroup_" +:+ bridge_unique_id +:+ "_" +:+ py_str device_id)
  end.

(** The sensor after [__init__]: the attributes of the base class, with
    [_attr_name] and [_attr_device_info] assigned anew, and the
    [entry_type] given to [DeviceInfo]. *)
Record LutronOccupancySensor : Type := {
  os_entity : Init.LutronCasetaDevice;
  os_entry_type : string;
}.

Definition LutronOccupancySensor__init__ (device bridge_device : pydict)
  : result LutronOccupancySensor :=
  self <- super__init__ device bridge_device ;;
  device_name <- getitem device "name" ;;
  device_name <- as_str device_name ;;
  area_name <- Init._area_and_name_from_name device_name ;;
  let '(_, name) := area_name in
  unique_id <- occupancy_unique_id self ;;
  display <- (match Init.display_name self with
              | Some d => Ok d
              | None => Raise AttributeError
              end) ;;
  via <- getitem bridge_device "serial" ;;
  Ok {| os_entity :=
          {| Init._device := Init._device self;
             Init._bridge_device := Init._bridge_device self;
             Init._bridge_unique_id := Init._bridge_unique_id self;
             Init.display_name := Init.display_name self;
             Init._attr_name := Some name;
             Init._attr_unique_id := Init._attr_unique_id self;
             Init._attr_device_info :=
               Some {| di_name := display;
                       di_manufacturer := MANUFACTURER;
                       di_config_entry_id := None;
                       di_identifiers := (DOMAIN, PStr unique_id);
                       di_model := "Lutron Occupancy";
                       di_via_device := Some (DOMAIN, via);
                       di_configuration_url := Some CONFIG_URL;
                       di_suggested_area := None |} |};
        os_entry_type := "service" |}.
End occupancy_sensor.

(** *** [LutronCasetaButtonLED] *)

(** The attributes set by [LutronCasetaButtonLED.__init__]; the handle
    [_smartbridge] of the vendor library is left out. *)
Record LutronCasetaButtonLED : Type := {
  _device : pydict;
  _button_device : pydict;
  _bridge_device : pydict;
  device_id : string;
  _attr_entity_registry_enabled_default : bool;
  display_name : string;
  _attr_name : string;
  _attr_unique_id : string;
  _attr_device_info : device_info;
}.

Definition LutronCasetaButtonLED__init__
    (led_device button_device bridge_device parent_device : pydict)
  : result LutronCasetaButtonLED :=
  id <- getitem led_device ATTR_DEVICE_ID ;;
  let device_id := py_str id in
  button_name <- getitem button_device ATTR_BUTTON_NAME ;;
  searched <- as_str button_name ;;
  let enabled_default :=
    if str_in SEETOUCH_BUTTON_NAME_DEFAULT_PATTERN searched then false else true in
  button_device_name <- getitem button_device ATTR_NAME ;;
  button_device_name <- as_str button_device_name ;;
  area_rest <- _button_area_and_name_from_name button_device_name ;;
  let '(area, _) := area_rest in
  let display := area +:+ " " +:+ py_str button_name +:+ " LED" in
  station_name <- getitem parent_device ATTR_CONTROL_STATION_NAME ;;
  station_name <- as_str station_name ;;
  parent <- _button_area_and_name_from_name station_name ;;
  let '(parent_area, parent_name) := parent in
  parent_id <- getitem parent_device ATTR_DEVICE_ID ;;
  model <- model_label button_device ;;
  Ok {| _device := led_device;
        _button_device := button_device;
        _bridge_device := bridge_device;
        device_id := device_id;
        _attr_entity_registry_enabled_default := enabled_default;
        display_name := display;
        _attr_name := display;
        _attr_unique_id := device_id;
        _attr_device_info :=
          {| di_name := parent_area +:+ " " +:+ parent_name;
             di_manufacturer := MANUFACTURER;
             di_config_entry_id := None;
             di_identifiers := (DOMAIN, parent_id);
             di_model := model;
             di_via_device := None;
             di_configuration_url := None;
             di_suggested_area := suggest_area parent_area |} |}.

(** [LutronCasetaButtonLED.is_on]: [self._device["current_state"] > 0];
    only an [int] can be compared with 0. *)
Definition led_is_on (self : LutronCasetaButtonLED) : result bool :=
  current_state <- getitem (_device self) "current_state" ;;
  match current_state with
  | PInt n => Ok (0 <? n)
  | _ => Raise TypeError
  end.

(** [LutronCasetaButtonLED.icon]. *)
Definition icon (self : LutronCasetaButtonLED) : result string :=
  on <- led_is_on self ;;
  Ok (if on then "mdi:led-on" else "mdi:led-off").

(** *** [async_setup_entry], the keypad LEDs (lines 65-94) *)

Definition ATTR_BUTTON_LED : string := "button_led".

(** The loop over [buttons] that fills [led_entities]. *)
Fixpoint led_entities (devices : list (pyval * station))
    (button_group_to_device_map : gmap pyval station)
    (bridge_device : pydict) (buttons : list (Z * pydict))
  : result (list LutronCasetaButtonLED) :=
  match buttons with
  | [] => Ok []
  | (device_id, button_data) :: rest =>
      match button_data !! ATTR_BUTTON_LED with
      | None | Some PNone =>
          led_entities devices button_group_to_device_map bridge_device rest
      | Some keypad_led_device_id =>
          match assoc_get devices keypad_led_device_id with
          | None => Raise KeyError
          | Some keypad_led_device =>
              button_name <- getitem button_data ATTR_BUTTON_NAME ;;
              if bool_decide (button_name = PStr SEETOUCH_BUTTON_NAME_LOWER)
                 || bool_decide (button_name = PStr SEETOUCH_BUTTON_NAME_RAISE)
              then
                led_entities devices button_group_to_device_map bridge_device rest
              else
                button_group <- getitem button_data ATTR_BUTTON_GROUP ;;
                parent_device <- getitem button_group_to_device_map button_group ;;
                button <- LutronCasetaButtonLED__init__
                            (st_fields keypad_led_device) button_data
                            bridge_device (st_fields parent_device) ;;
                more <- led_entities devices button_group_to_device_map
                          bridge_device rest ;;
                Ok (button :: more)
          end
      end
  end.

(** The map is built from [devices.values()] just before the loop. *)
Definition setup_led_entities (devices : list (pyval * station))
    (bridge_device : pydict) (buttons : list (Z * pydict))
  : result (list LutronCasetaButtonLED) :=
  led_entities devices (build_button_group_to_device_map (devices.*2))
    bridge_device buttons.

End BinarySensor.

(** ** lutron_hwqsx/button.py *)

Module Button.

(** [_area_and_name_from_name]. *)
Definition _area_and_name_from_name (device_name : string)
  : result (string * string) :=
  if str_in "_" device_name then
    let area_device_name := str_split "_" (Some 1%nat) device_name in
    a0 <- list_getitem area_device_name 0 ;;
    a1 <- list_getitem area_device_name 1 ;;
    Ok (a0, a1)
  else Ok (UNASSIGNED_AREA, device_name).

(** The attributes set by [LutronCasetaButton.__init__]; the handle
    [_smartbridge] of the vendor library is left out. *)
Record LutronCasetaButton : Type := {
  _device : pydict;
  _bridge_device : pydict;
  device_id : string;
  _attr_entity_registry_enabled_default : bool;
  display_name : string;
  _attr_name : string;
  _attr_unique_id : string;
  _attr_device_info : device_info;
}.

(** Lines 92-96: the two raise/lower buttons of a keypad are renamed.
    Comparing with [==] is defined for every value. *)
Definition rename_button (button_name : pyval) : pyval :=
  if bool_decide (button_name = PStr SEETOUCH_BUTTON_NAME_LOWER) then PStr "Lower"
  else if bool_decide (button_name = PStr SEETOUCH_BUTTON_NAME_RAISE) then PStr "Raise"
  else button_name.

Definition LutronCasetaButton__init__
    (device bridge_device parent_device : pydict) : result LutronCasetaButton :=
  id <- getitem device ATTR_DEVICE_ID ;;
  let device_id := py_str id in
  button_name <- getitem device ATTR_BUTTON_NAME ;;
  let button_name := rename_button button_name in
  searched <- as_str button_name ;;
  let enabled_default :=
    if str_in SEETOUCH_BUTTON_NAME_DEFAULT_PATTERN searched then false else true in
  device_name <- getitem device ATTR_NAME ;;
  device_name <- as_str device_name ;;
  area_rest <- _area_and_name_from_name device_name ;;
  let '(area, _) := area_rest in
  let display := area +:+ " " +:+ py_str button_name in
  station <- getitem parent_device ATTR_CONTROL_STATION_NAME ;;
  station <- as_str station ;;
  parent <- _area_and_name_from_name station ;;
  let '(parent_area, parent_name) := parent in
  parent_id <- getitem parent_device ATTR_DEVICE_ID ;;
  model <- model_label device ;;
  Ok {| _device := device;
        _bridge_device := bridge_device;
        device_id := device_id;
        _attr_entity_registry_enabled_default := enabled_default;
        display_name := display;
        _attr_name := display;
        _attr_unique_id := device_id;
        _attr_device_info :=
          {| di_name := parent_area +:+ " " +:+ parent_name;
             di_manufacturer := MANUFACTURER;
             di_config_entry_id := None;
             di_identifiers := (DOMAIN, parent_id);
             di_model := model;
             di_via_device := None;
             di_configuration_url := None;
             di_suggested_area := suggest_area parent_area |} |}.

(** *** [async_setup_entry] (lines 49-72) *)

(** The loop over [buttons] that fills [button_entities]. *)
Fixpoint button_entities (button_group_to_device_map : gmap pyval station)
    (bridge_device : pydict) (buttons : list (Z * pydict))
  : result (list LutronCasetaButton) :=
  match buttons with
  | [] => Ok []
  | (device_id, button_data) :: rest =>
      match button_data !! ATTR_BUTTON_GROUP with
      | None => button_entities button_group_to_device_map bridge_device rest
      | Some button_group =>
          parent_device <- getitem button_group_to_device_map button_group ;;
          button <- LutronCasetaButton__init__ button_data bridge_device
                      (st_fields parent_device) ;;
          more <- button_entities button_group_to_device_map bridge_device rest ;;
          Ok (button :: more)
      end
  end.

(** The map is built from [bridge.devices.values()] just before the loop. *)
Definition setup_button_entities (devices : list station)
    (bridge_device : pydict) (buttons : list (Z * pydict))
  : result (list LutronCasetaButton) :=
  button_entities (build_button_group_to_device_map devices)
    bridge_device buttons.

End Button.

(** ** lutron_hwqsx/logbook.py *)

Module Logbook.

Section describe.
(** The table of [device_trigger.py]. *)
Variable LEAP_TO_DEVICE_TYPE_SUBTYPE_MAP : gmap string (gmap Z string).

(** [async_describe_button_event], on [event.data]: the logbook entry's
    name and message. *)
Definition async_describe_button_event (data : pydict)
  : result (string * string) :=
  device_type <- getitem data ATTR_TYPE ;;
  button_description <-
    (if in_QSX_KEYPADS device_type then
       leap_button_number <- getitem data ATTR_LEAP_BUTTON_NUMBER ;;
       let fallback := PStr ("button " +:+ py_str leap_button_number) in
       Ok (default fallback (data !! ATTR_BUTTON_NAME))
     else
       leap_button_number <- getitem data ATTR_LEAP_BUTTON_NUMBER ;;
       button_map <-
         (match device_type with
          | PStr t => getitem LEAP_TO_DEVICE_TYPE_SUBTYPE_MAP t
          | _ => Raise KeyError
          end) ;;
       match leap_button_number with
       | PInt n => name <- getitem button_map n ;; Ok (PStr name)
       | _ => Raise KeyError
       end) ;;
  area_name <- getitem data ATTR_AREA_NAME ;;
  device_name <- getitem data ATTR_DEVICE_NAME ;;
  action <- getitem data ATTR_ACTION ;;
  Ok (py_str area_name +:+ " " +:+ py_str device_name,
      py_str action +:+ " " +:+ py_str button_description).
End describe.

End Logbook.

(** ** mcintosh/media_player.py *)


Module MediaPlayer.

(** The fields of [McIntoshDevice] that hold the receiver's state. *)
Record McIntoshDevice : Type := {
  _name : string;
  _host : string;
  _pwstate : string;
  _volume : Z;
  _volume_max : Z;
  _muted : bool;
  _mediasource : string;
  _mediainfo : string;
}.

Definition set_volume (v : Z) (self : McIntoshDevice) : McIntoshDevice :=
  {| _name := _name self; _host := _host self; _pwstate := _pwstate self;
     _volume := v; _volume_max := _volume_max self; _muted := _muted self;
     _mediasource := _mediasource self; _mediainfo := _mediainfo self |}.

Definition set_volume_max (v : Z) (self : McIntoshDevice) : McIntoshDevice :=
  {| _name := _name self; _host := _host self; _pwstate := _pwstate self;
     _volume := _volume self; _volume_max := v; _muted := _muted self;
     _mediasource := _mediasource self; _mediainfo := _mediainfo self |}.

(** The body of the [for] loop of [handle_volume_response]. *)
Definition handle_line (self : McIntoshDevice) (line : string)
  : result McIntoshDevice :=
  if startswith line "MVMAX " then
    v <- int_of_str (slice (String.length "MVMAX ") (String.length "MVMAX XX") line) ;;
    Ok (set_volume_max v self)
  else if startswith line "MV" then
    v <- int_of_str (slice (String.length "MV") (String.length "MVXX") line) ;;
    Ok (set_volume v self)
  else Ok self.

(** [handle_volume_response]: the object after the call (fields assigned
    before an exception stay assigned) and the returned [self._volume]. *)
Fixpoint handle_volume_response (self : McIntoshDevice) (response : list string)
  : McIntoshDevice * result Z :=
  match response with
  | [] => (self, Ok (_volume self))
  | line :: rest =>
      match handle_line self line with
      | Ok self' => handle_volume_response self' rest
      | Raise e => (self, Raise e)
      end
  end.

(** *** The documented reading of a response *)

(** A line reporting the maximum volume, and a line reporting the volume
    (any other line starting with MV). *)
Definition is_max_line (line : string) : bool := startswith line "MVMAX ".
Definition is_volume_line (line : string) : bool :=
  negb (startswith line "MVMAX ") && startswith line "MV".

(** The integer written in the two characters that follow the first
    [skip] characters of [line]. *)
Definition reading (skip : nat) (line : string) : option Z :=
  match int_of_str (slice skip (skip + 2) line) with
  | Ok z => Some z
  | Raise _ => None
  end.

(** The reading of the last line of a kind, or [current] when the
    response has no line of that kind. *)
Definition last_reading (kind : string → bool) (skip : nat)
    (response : list string) (current : Z) : Z :=
  default current (last (List.filter kind response) ≫= reading skip).

(** Both kinds of line carry a number where it is looked for. *)
Definition readable (line : string) : Prop :=
  (is_max_line line = true → is_Some (reading 6 line))
  ∧ (is_volume_line line = true → is_Some (reading 2 line)).

(** *** Replies of the receiver *)

Definition DEFAULT_NAME : string := "DEFAULT AVR".

(** [s[n:]]. *)
Fixpoint str_drop (n : nat) (s : string) : string :=
  match n, s with
  | O, _ => s
  | S n', String _ s' => str_drop n' s'
  | S _, EmptyString => EmptyString
  end.

(** What [telnet_request] returns without [all_lines], from the lines it
    has read, decoded and stripped: [lines[0] if lines else ""]. *)
Definition first_line (lines : list string) : string :=
  match lines with
  | line :: _ => line
  | [] => EmptyString
  end.

(** [get_telnet_response], given the lines read in answer to [f"{cmd}?"]:
    the response ([inl]) or the caller's default ([inr]). *)
Definition get_telnet_response {D : Type} (lines : list string) (cmd : string)
    (is_prefixed : bool) (default_value : D) : string + D :=
  let response := first_line lines in
  if negb (bool_decide (response = EmptyString)) && startswith response cmd
  then inl (if is_prefixed then str_drop (String.length cmd) response
            else response)
  else inr default_value.

(** Line 215 of [do_update]:
    [self._muted = self.get_telnet_response(telnet, "MU", False, self._muted) == "MUON"].
    A [bool] never equals a [str]. *)
Definition update_muted (lines : list string) (self : McIntoshDevice) : bool :=
  match get_telnet_response lines "MU" false (_muted self) with
  | inl response => bool_decide (response = "MUON"%string)
  | inr _ => false
  end.

(** *** [_setup_sources] *)

(** [d[k] = v] on a dict given by its items in insertion order. *)
Fixpoint dict_set (k v : string) (items : list (string * string))
  : list (string * string) :=
  match items with
  | [] => [(k, v)]
  | (k', v') :: rest =>
      if bool_decide (k' = k) then (k, v) :: rest
      else (k', v') :: dict_set k v rest
  end.

(** The inner loop over [items()]: the first entry whose value is
    [source] is deleted, and the loop is left. *)
Fixpoint delete_source (source : string) (items : list (string * string))
  : list (string * string) :=
  match items with
  | [] => []
  | (pretty_name, name) :: rest =>
      if bool_decide (source = name) then rest
      else (pretty_name, name) :: delete_source source rest
  end.

(** The body of the loop over the SSFUN lines. *)
Definition ssfun_line (source_list : list (string * string)) (line : string)
  : result (list (string * string)) :=
  let ssfun := str_split " " (Some 1%nat) (str_drop (String.length "SSFUN") line) in
  source <- list_getitem ssfun 0 ;;
  configured_name <-
    (if bool_decide (length ssfun = 2%nat) then
       name <- list_getitem ssfun 1 ;;
       Ok (if bool_decide (name = EmptyString) then source else name)
     else Ok source) ;;
  if bool_decide (configured_name = "END"%string) then Ok source_list
  else Ok (dict_set configured_name source source_list).

(** The loop over the SSFUN lines, from the empty dict. *)
Fixpoint ssfun_lines (source_list : list (string * string)) (lines : list string)
  : result (list (string * string)) :=
  match lines with
  | [] => Ok source_list
  | line :: rest =>
      source_list' <- ssfun_line source_list line ;;
      ssfun_lines source_list' rest
  end.

(** The body of the loop over the SSSOD lines: unpacking into
    [source, status] needs exactly two pieces. *)
Definition sssod_line (source_list : list (string * string)) (line : string)
  : result (list (string * string)) :=
  match str_split " " (Some 1%nat) (str_drop (String.length "SSSOD") line) with
  | [source; status] =>
      if bool_decide (status = "DEL"%string)
      then Ok (delete_source source source_list)
      else Ok source_list
  | _ => Raise ValueError
  end.

(** The loop over the SSSOD lines: the source list as the loop leaves it,
    also when a line ends it with an exception. *)
Fixpoint sssod_lines (source_list : list (string * string)) (lines : list string)
  : list (string * string) * result unit :=
  match lines with
  | [] => (source_list, Ok ())
  | line :: rest =>
      match sssod_line source_list line with
      | Ok source_list' => sssod_lines source_list' rest
      | Raise e => (source_list, Raise e)
      end
  end.

(** *** The media information of [do_update] (lines 220-233) *)

Definition answer_codes : list string :=
  ["NSE0"; "NSE1X"; "NSE2X"; "NSE3X"; "NSE4"; "NSE5"; "NSE6"; "NSE7"; "NSE8"]%string.

(** The loop over the NSE lines; [codes] is what is left of
    [answer_codes], and [pop(0)] on an empty list is an [IndexError]. *)
Fixpoint mediainfo_lines (mediainfo : string) (codes : list string)
    (lines : list string) : string * result unit :=
  match lines with
  | [] => (mediainfo, Ok ())
  | line :: rest =>
      match codes with
      | [] => (mediainfo, Raise IndexError)
      | code :: codes' =>
          mediainfo_lines
            (mediainfo +:+ str_drop (String.length code) line +:+ String "010" EmptyString)
            codes' rest
      end
  end.

End MediaPlayer.

(** ** screenlogic/number.py *)

Module Number.

Definition SETPUMPFLOW_QUERY : Z := 12586.
Definition PUMP_DATA_PRESETS_KEY : string := "presets".

(** One pump of [coordinator.data[KEY_PUMPS]]: its scalar entries, and
    its ["presets"] entry when it has one. *)
Record pump : Type := Pump {
  pump_fields : pydict;
  pump_presets : option (gmap pyval pydict);
}.

(** [ScreenLogicPumpPreset]: what the methods below read of it. *)
Record ScreenLogicPumpPreset : Type := {
  coordinator_pumps : gmap pyval pump;
  _pump_id : pyval;
  _preset_id : pyval;
  isRPMs : bool;
}.

(** The property [pump_data]. *)
Definition pump_data (self : ScreenLogicPumpPreset) : result pump :=
  getitem (coordinator_pumps self) (_pump_id self).

Definition _is_valid_pumpflow (flow : Z) (isRPMs : bool) : bool :=
  let '(min_flow, max_flow) := if isRPMs then (1000, 3450) else (20, 90) in
  (min_flow <=? flow) && (flow <=? max_flow).

Definition _is_valid_preset (self : ScreenLogicPumpPreset) (preset : Z)
  : result bool :=
  data <- pump_data self ;;
  match pump_presets data with
  | None => Raise KeyError
  | Some presets =>
      match presets !! PInt preset with
      | None => Ok false
      | Some preset_data =>
          cid <- getitem preset_data "cid" ;;
          Ok (bool_decide (cid ≠ PInt 0))
      end
  end.

(** [struct.pack("<I", n)]: four bytes, least significant first. *)
Definition pack_u32 (n : Z) : result (list Z) :=
  if (0 <=? n) && (n <? 2 ^ 32) then
    Ok [Z.land n 255; Z.land (Z.shiftr n 8) 255;
        Z.land (Z.shiftr n 16) 255; Z.land (Z.shiftr n 24) 255]
  else Raise StructError.

(** [struct.pack("<IIIII", 0, pumpID, body, flow, isRPMs)]. *)
Definition pack_set_pump_flow (body pumpID flow : Z) (isRPMs : bool)
  : result (list Z) :=
  a <- pack_u32 0 ;;
  b <- pack_u32 pumpID ;;
  c <- pack_u32 body ;;
  d <- pack_u32 flow ;;
  e <- pack_u32 (if isRPMs then 1 else 0) ;;
  Ok (a ++ b ++ c ++ d ++ e).

(** The documented range of a flow: revolutions per minute when
    [isRPMs], gallons per minute otherwise. *)
Definition flow_in_range (flow : Z) (isRPMs : bool) : Prop :=
  if isRPMs then 1000 ≤ flow ≤ 3450 else 20 ≤ flow ≤ 90.

(** What the gateway was asked to do. *)
Inductive gateway_event : Type :=
  | Connect
  | Request (code : Z) (payload : list Z).

Section gateway.
(** The gateway and [async_make_request] belong to the vendor client:
    each call answers as a function of the calls made before it, or
    fails with an exception of the client ([None]). *)
Variable async_connect : list gateway_event → option bool.
Variable async_make_request :
  list gateway_event → Z → list Z → option (list Z).

Definition vendor {A : Type} (reply : option A) : result A :=
  match reply with
  | Some a => Ok a
  | None => Raise VendorError
  end.

(** [async_request_set_pump_flow]. *)
Definition async_request_set_pump_flow (sent : list gateway_event)
    (body pumpID flow : Z) (isRPMs : bool)
  : list gateway_event * result bool :=
  match pack_set_pump_flow body pumpID flow isRPMs with
  | Raise e => (sent, Raise e)
  | Ok payload =>
      (sent ++ [Request SETPUMPFLOW_QUERY payload],
       reply <- vendor (async_make_request sent SETPUMPFLOW_QUERY payload) ;;
       Ok (bool_decide (reply = [])))
  end.

(** [async_set_preset]: the requests made of the gateway after the
    call, and the returned flag or the exception. *)
Definition async_set_preset (self : ScreenLogicPumpPreset)
    (sent : list gateway_event)
    (preset_id : pyval) (pumpID flow : Z) (isRPMs : bool)
  : list gateway_event * result bool :=
  match py_int preset_id with
  | Raise e => (sent, Raise e)
  | Ok preset =>
      match _is_valid_preset self preset with
      | Raise e => (sent, Raise e)
      | Ok false => (sent, Raise ValueError)
      | Ok true =>
          if negb (_is_valid_pumpflow flow isRPMs) then (sent, Raise ValueError)
          else
            match vendor (async_connect sent) with
            | Raise e => (sent ++ [Connect], Raise e)
            | Ok false => (sent ++ [Connect], Ok false)
            | Ok true =>
                match async_request_set_pump_flow (sent ++ [Connect])
                        preset pumpID flow isRPMs with
                | (sent', Raise e) => (sent', Raise e)
                | (sent', Ok true) => (sent', Ok true)
                | (sent', Ok false) => (sent', Ok false)
                end
            end
      end
  end.
End gateway.

(** *** [ScreenLogicPumpPreset.__init__] *)

(** The attributes [__init__] sets besides those of
    [ScreenLogicPumpPreset] above. *)
Record pump_preset_entity : Type := {
  pe_self : ScreenLogicPumpPreset;
  pe_data_key : string;
  _attr_native_min_value : Z;
  _attr_native_max_value : Z;
  _attr_native_step : Z;
  _attr_name : string;
  _attr_native_unit_of_measurement : string;
  _flow_type : string;
}.

(** [device_name_mapping[device_id] if device_id in device_name_mapping
    else "Unknown"]. *)
Definition preset_name (device_id : pyval) : string :=
  match device_id with
  | PInt 1 => "Spa"
  | PInt 6 => "Pool"
  | PInt 129 => "Heater"
  | PInt 132 => "Freeze Protect"
  | _ => "Unknown"
  end.

Section preset_init.
(** [self.gateway_name], a property of the base class [ScreenlogicEntity]. *)
Variable gateway_name : string.

Definition ScreenLogicPumpPreset__init__ (pumps : gmap pyval pump)
    (pump_id : pyval) (flow_type : string) (preset_id : pyval)
    (preset_data : pydict) : result pump_preset_entity :=
  let data_key :=
    "pump_" +:+ py_str pump_id +:+ "_preset_" +:+ py_str preset_id
    +:+ "_" +:+ flow_type in
  pump_data <- getitem pumps pump_id ;;
  device_id <- getitem preset_data "cid" ;;
  pump_name <- getitem (pump_fields pump_data) "name" ;;
  let full_preset_name :=
    gateway_name +:+ " " +:+ py_str pump_name +:+ " "
    +:+ preset_name device_id +:+ " Preset" in
  let self isRPMs :=
    {| coordinator_pumps := pumps; _pump_id := pump_id;
       _preset_id := preset_id; isRPMs := isRPMs |} in
  if bool_decide (flow_type = "gpm"%string) then
    Ok {| pe_self := self false; pe_data_key := data_key;
          _attr_native_min_value := 20; _attr_native_max_value := 90;
          _attr_native_step := 1;
          _attr_name := full_preset_name +:+ " (GPM)";
          _attr_native_unit_of_measurement := "gal/min";
          _flow_type := flow_type |}
  else
    Ok {| pe_self := self true; pe_data_key := data_key;
          _attr_native_min_value := 1000; _attr_native_max_value := 3450;
          _attr_native_step := 10;
          _attr_name := full_preset_name +:+ " (RPM)";
          _attr_native_unit_of_measurement := "rpm";
          _flow_type := flow_type |}.

(** The presets of one pump in [async_setup_entry] (lines 78-85): each
    preset whose cid is not 0 becomes an entity. *)
Fixpoint preset_entities (pumps : gmap pyval pump) (pump_num : pyval)
    (presets : list (pyval * pydict)) : result (list pump_preset_entity) :=
  match presets with
  | [] => Ok []
  | (preset_id, preset_data) :: rest =>
      cid <- getitem preset_data "cid" ;;
      if bool_decide (cid = PInt 0) then preset_entities pumps pump_num rest
      else
        isRPM <- getitem preset_data "isRPM" ;;
        let flow_type := if bool_decide (isRPM = PInt 1) then "rpm" else "gpm" in
        entity <- ScreenLogicPumpPreset__init__ pumps pump_num flow_type
                    preset_id preset_data ;;
        more <- preset_entities pumps pump_num rest ;;
        Ok (entity :: more)
  end.
End preset_init.

(** *** Reading a request back *)

(** [struct.unpack("<I", b)[0]] on four bytes. *)
Definition unpack_u32 (bytes : list Z) : option Z :=
  match bytes with
  | [b0; b1; b2; b3] =>
      Some (b0 + Z.shiftl b1 8 + Z.shiftl b2 16 + Z.shiftl b3 24)
  | _ => None
  end.

(** [struct.unpack("<IIIII", payload)]. *)
Definition unpack_set_pump_flow (payload : list Z) : option (list Z) :=
  if bool_decide (length payload = 20%nat) then
    mapM (λ i, unpack_u32 (take 4 (drop (4 * i) payload))) (seq 0 5)
  else None.

End Number.

(** * Properties *)

(** ** The primitives on small inputs *)

Example int_45 : int_of_str "45" = Ok 45. Proof. reflexivity. Qed.
Example int_padded : int_of_str " -1_000 " = Ok (-1000). Proof. reflexivity. Qed.
Example int_empty : int_of_str "" = Raise ValueError. Proof. reflexivity. Qed.
Example int_trailing_underscore : int_of_str "1_" = Raise ValueError.
Proof. reflexivity. Qed.
Example int_letters : int_of_str "MA" = Raise ValueError. Proof. reflexivity. Qed.
Example int_separator : int_of_str (String "028" "5") = Raise ValueError.
Proof. reflexivity. Qed.
Example int_tab : int_of_str (String "009" "5") = Ok 5.
Proof. reflexivity. Qed.
Example slice_clips : slice 2 4 "MV5" = "5"%string. Proof. reflexivity. Qed.
Example split_all : str_split "_" None "a__b_" = ["a"; ""; "b"; ""]%string.
Proof. reflexivity. Qed.
Example split_once : str_split "_" (Some 1%nat) "a_b_c" = ["a"; "b_c"]%string.
Proof. reflexivity. Qed.
Example parse_kitchen :
  Init._area_and_name_from_name "Kitchen_Main_Lights"
  = Ok ("Kitchen"%string, "Main_Lights"%string).
Proof. reflexivity. Qed.
Example parse_plain :
  Init._area_and_name_from_name "Pico" = Ok ("Unassigned"%string, "Pico"%string).
Proof. reflexivity. Qed.

(** ** Facts about the string primitives *)

Section string_facts.
Implicit Types (s t : string) (c : ascii).

Lemma prefix_empty s : String.prefix "" s = true.
Proof. by destruct s. Qed.

Lemma str_in_char c s : str_in (String c "") s = true ↔ has_char c s.
Proof.
  induction s as [|a s IH]; simpl.
  - split; [discriminate | tauto].
  - destruct (ascii_dec c a) as [->|Hne].
    + rewrite prefix_empty. simpl. tauto.
    + simpl. rewrite IH. split; [tauto | intros [?|?]; congruence].
Qed.

Lemma str_in_char_false c s : str_in (String c "") s = false ↔ ¬ has_char c s.
Proof. rewrite <- str_in_char. by destruct (str_in _ s). Qed.

Lemma has_char_dec c s : {has_char c s} + {¬ has_char c s}.
Proof.
  destruct (str_in (String c "") s) eqn:E.
  - left. by apply str_in_char.
  - right. by apply str_in_char_false.
Defined.

Lemma has_char_app c s t : has_char c (s +:+ t) ↔ has_char c s ∨ has_char c t.
Proof. induction s as [|a s IH]; simpl; [tauto | rewrite IH; tauto]. Qed.

(** Cutting at the first occurrence of [c]. *)
Lemma has_char_first c s :
  has_char c s →
  ∃ before after, s = before +:+ String c after ∧ ¬ has_char c before.
Proof.
  induction s as [|a s IH]; simpl; [tauto|].
  destruct (ascii_dec a c) as [->|Hne].
  - intros _. exists EmptyString, s. simpl. tauto.
  - intros [?|H]; [done|].
    destruct (IH H) as (b & r & -> & Hb).
    exists (String a b), r. split; [done|]. simpl. tauto.
Qed.

Lemma first_cut_unique c b1 r1 b2 r2 :
  ¬ has_char c b1 → ¬ has_char c b2 →
  b1 +:+ String c r1 = b2 +:+ String c r2 → b1 = b2 ∧ r1 = r2.
Proof.
  revert b2. induction b1 as [|a b1 IH]; intros [|a2 b2]; simpl; intros H1 H2 E.
  - by inversion E.
  - inversion E; subst. tauto.
  - inversion E; subst. tauto.
  - inversion E; subst. destruct (IH b2) as [-> ->]; auto.
Qed.

Lemma str_split_once c before after :
  ¬ has_char c before →
  str_split c (Some 1%nat) (before +:+ String c after) = [before; after].
Proof.
  induction before as [|a b IH]; simpl; intros Hb.
  - rewrite Ascii.eqb_refl. simpl. by destruct after.
  - destruct (Ascii.eqb_spec a c) as [->|Hne]; [tauto|].
    rewrite IH; [done | tauto].
Qed.

Lemma str_split_head c limit s : ∃ hd tl, str_split c limit s = hd :: tl.
Proof.
  revert limit. induction s as [|a s IH]; intros limit; simpl; [eauto|].
  destruct limit as [[|n]|]; [eauto | |].
  - destruct (Ascii.eqb a c); [eauto|].
    destruct (IH (Some (S n))) as (hd & tl & ->). eauto.
  - destruct (Ascii.eqb a c); [eauto|].
    destruct (IH None) as (hd & tl & ->). eauto.
Qed.

(** Splitting at every [c] loses nothing: joining the segments with [c]
    gives the text back, and no segment contains [c]. *)
Lemma str_join_split c s : str_join c (str_split c None s) = s.
Proof.
  induction s as [|a s IH]; [done|]. simpl.
  destruct (str_split_head c None s) as (hd & tl & Hsplit).
  rewrite Hsplit in IH |- *.
  destruct (Ascii.eqb_spec a c) as [->|Hne].
  - rewrite <- IH. reflexivity.
  - rewrite <- IH. by destruct tl.
Qed.

Lemma str_split_segments c s :
  Forall (λ segment, ¬ has_char c segment) (str_split c None s).
Proof.
  induction s as [|a s IH]; simpl.
  { apply Forall_cons_2; [intros [] | apply Forall_nil_2]. }
  destruct (Ascii.eqb_spec a c) as [->|Hne].
  - apply Forall_cons_2; [intros [] | exact IH].
  - destruct (str_split c None s) as [|hd tl].
    + apply Forall_cons_2; [|apply Forall_nil_2]. simpl. tauto.
    + apply Forall_cons in IH as [Hhd Htl].
      apply Forall_cons_2; [simpl; tauto | done].
Qed.
End string_facts.

(** ** The parser: what it returns *)

Section parser_facts.
Local Ltac parser_unfold :=
  unfold Init._area_and_name_from_name,
    BinarySensor._button_area_and_name_from_name,
    Button._area_and_name_from_name.

Lemma init_parse_cut before after :
  ¬ has_char "_" before →
  Init._area_and_name_from_name (before +:+ String "_" after)
  = Ok (before, after).
Proof.
  intros Hb. parser_unfold.
  assert (str_in "_" (before +:+ String "_" after) = true) as ->.
  { apply str_in_char, has_char_app. right. simpl. tauto. }
  by rewrite str_split_once.
Qed.

Lemma init_parse_plain s :
  ¬ has_char "_" s →
  Init._area_and_name_from_name s = Ok (UNASSIGNED_AREA, s).
Proof.
  intros Hs. parser_unfold.
  by apply str_in_char_false in Hs as ->.
Qed.

Lemma binary_sensor_parse_eq s :
  BinarySensor._button_area_and_name_from_name s
  = Init._area_and_name_from_name s.
Proof. reflexivity. Qed.

Lemma button_parse_eq s :
  Button._area_and_name_from_name s
  = Init._area_and_name_from_name s.
Proof. reflexivity. Qed.

(** The parser never raises. *)
Lemma init_parse_total s :
  ∃ area name, Init._area_and_name_from_name s = Ok (area, name).
Proof.
  destruct (has_char_dec "_" s) as [H|H].
  - destruct (has_char_first _ _ H) as (b & r & -> & Hb).
    exists b, r. by apply init_parse_cut.
  - eexists _, _. by apply init_parse_plain.
Qed.
End parser_facts.

(** C1.  On a device name containing an underscore, each of the three
    area/name parsers returns the text before the first underscore and the
    text after it (later underscores stay in the name); on a device name
    without underscore each returns ("Unassigned", s). *)
Theorem area_and_name_from_name_spec (s : string) :
  let returns r :=
    Init._area_and_name_from_name s = r
    ∧ BinarySensor._button_area_and_name_from_name s = r
    ∧ Button._area_and_name_from_name s = r in
  (has_char "_" s →
     ∃ area name,
       s = area +:+ "_" +:+ name ∧ ¬ has_char "_" area
       ∧ returns (Ok (area, name)))
  ∧ (¬ has_char "_" s → returns (Ok ("Unassigned"%string, s))).
Proof.
  intros returns. subst returns. split.
  - intros H. destruct (has_char_first _ _ H) as (area & name & -> & Harea).
    exists area, name. split; [done|]. split; [done|].
    repeat split; exact (init_parse_cut area name Harea).
  - intros H. repeat split; exact (init_parse_plain s H).
Qed.

Lemma area_and_name_from_name_spec_witness :
  (∃ area name,
     "Kitchen_Main_Lights"%string = area +:+ "_" +:+ name
     ∧ ¬ has_char "_" area
     ∧ Init._area_and_name_from_name "Kitchen_Main_Lights" = Ok (area, name)
     ∧ BinarySensor._button_area_and_name_from_name "Kitchen_Main_Lights"
       = Ok (area, name)
     ∧ Button._area_and_name_from_name "Kitchen_Main_Lights" = Ok (area, name))
  ∧ Init._area_and_name_from_name "Pico" = Ok ("Unassigned"%string, "Pico"%string).
Proof.
  split.
  - apply (proj1 (area_and_name_from_name_spec "Kitchen_Main_Lights")).
    simpl. tauto.
  - apply (proj2 (area_and_name_from_name_spec "Pico")).
    simpl. intros H.
    repeat (destruct H as [H|H]; [discriminate H|]). exact H.
Defined.

(** C2.  The three copies of the parser are extensionally equal. *)
Theorem parsers_extensionally_equal (s : string) :
  Init._area_and_name_from_name s
    = BinarySensor._button_area_and_name_from_name s
  ∧ BinarySensor._button_area_and_name_from_name s
    = Button._area_and_name_from_name s.
Proof.
  unfold Init._area_and_name_from_name,
    BinarySensor._button_area_and_name_from_name,
    Button._area_and_name_from_name.
  destruct (str_in "_" s); split; reflexivity.
Qed.

(** ** Registering the button devices *)

Section result_facts.
Context {A B : Type}.

Lemma rbind_ok (m : result A) (k : A → result B) (b : B) :
  rbind m k = Ok b → ∃ a, m = Ok a ∧ k a = Ok b.
Proof. destruct m as [a|e]; simpl; [eauto | discriminate]. Qed.

Lemma getitem_ok `{Countable K} (d : gmap K A) (key : K) (v : A) :
  getitem d key = Ok v ↔ d !! key = Some v.
Proof. unfold getitem. destruct (d !! key); split; congruence. Qed.
End result_facts.

Ltac bind_ok H :=
  let a := fresh "x" in
  let E := fresh "E" in
  apply rbind_ok in H as (a & E & H).

Section register_facts.
Variable dr_device_id : list device_info → device_info → string.
Variable config_entry_id : string.
Variable bridge_device : pydict.
Variable button_group_to_device_map : gmap pyval pydict.

Lemma button_device_args_sound device device_args :
  Init.button_device_args config_entry_id bridge_device
    button_group_to_device_map device = Ok device_args →
  Init.registered_as bridge_device button_group_to_device_map device device_args.
Proof.
  unfold Init.button_device_args. intros H.
  bind_ok H. apply getitem_ok in E. rename x into type.
  bind_ok H. rename x into hass_device_id, E0 into Hid.
  bind_ok H. bind_ok H. bind_ok H. destruct x1 as [area name].
  bind_ok H. bind_ok H. apply getitem_ok in E4.
  injection H as <-. split; [eauto|].
  exists type. split; [done|]. simpl.
  destruct (in_QSX_KEYPADS type).
  - bind_ok Hid. bind_ok Hid.
    apply getitem_ok in E5, E6, Hid. eauto 10.
  - apply getitem_ok in Hid. eauto.
Qed.

Lemma register_loop_calls todo :
  ∀ seen calls by_dr_id,
    let r := Init.register_loop dr_device_id config_entry_id bridge_device
               button_group_to_device_map todo seen calls by_dr_id in
    ∃ new,
      Init.registry_calls r = calls ++ new
      ∧ ∀ device_args, device_args ∈ new →
          ∃ button_id device,
            (button_id, device) ∈ Init.buttons_after r
            ∧ Init.button_device_args config_entry_id bridge_device
                button_group_to_device_map device = Ok device_args.
Proof.
  induction todo as [|[button_id device] rest IH]; intros seen calls by_dr_id; simpl.
  - exists []. rewrite app_nil_r. split; [done|]. intros ? []%elem_of_nil.
  - destruct (Init.default_serial device) as [device'|e]; simpl;
      [|exists []; rewrite app_nil_r; split; [done|]; intros ? []%elem_of_nil].
    destruct (getitem device' ATTR_SERIAL) as [serial|e]; simpl;
      [|exists []; rewrite app_nil_r; split; [done|]; intros ? []%elem_of_nil].
    case_bool_decide.
    + destruct (IH seen calls by_dr_id) as (new & Hcalls & Hnew).
      exists new. split; [done|]. intros a Ha.
      destruct (Hnew a Ha) as (k & d & Hin & Hargs).
      exists k, d. split; [apply elem_of_cons; by right | done].
    + destruct (Init.button_device_args _ _ _ device') as [device_args|e] eqn:Hargs;
        simpl; [|exists []; rewrite app_nil_r; split; [done|]; intros ? []%elem_of_nil].
      destruct (IH ({[serial]} ∪ seen) (calls ++ [device_args])
                  (<[dr_device_id calls device_args := device']> by_dr_id))
        as (new & Hcalls & Hnew).
      exists (device_args :: new). split.
      { rewrite Hcalls, <- app_assoc. done. }
      intros a [->|Ha]%elem_of_cons.
      * exists button_id, device'. split; [apply elem_of_cons; by left | done].
      * destruct (Hnew a Ha) as (k & d & Hin & Hd).
        exists k, d. split; [apply elem_of_cons; by right | done].
Qed.
End register_facts.

Section register_progress.
Variable dr_device_id : list device_info → device_info → string.
Variable config_entry_id : string.
Variable bridge_device : pydict.
Variable button_group_to_device_map : gmap pyval pydict.

Lemma button_device_args_complete device type name model bridge_serial :
  device !! "type" = Some type →
  device !! "name" = Some (PStr name) →
  device !! "model" = Some model →
  bridge_device !! ATTR_SERIAL = Some bridge_serial →
  (if in_QSX_KEYPADS type then
     ∃ button_group parent_device,
       device !! ATTR_BUTTON_GROUP = Some button_group
       ∧ button_group_to_device_map !! button_group = Some parent_device
       ∧ is_Some (parent_device !! ATTR_DEVICE_ID)
   else is_Some (device !! ATTR_SERIAL)) →
  ∃ device_args,
    Init.button_device_args config_entry_id bridge_device
      button_group_to_device_map device = Ok device_args.
Proof.
  intros Htype Hname Hmodel Hbridge Hid.
  unfold Init.button_device_args, model_label, getitem.
  unfold ATTR_TYPE, ATTR_NAME, ATTR_MODEL in *.
  rewrite Htype. simpl.
  assert (∃ hid,
    (if in_QSX_KEYPADS type
     then button_group <- getitem device ATTR_BUTTON_GROUP ;;
          parent_device <- getitem button_group_to_device_map button_group ;;
          getitem parent_device ATTR_DEVICE_ID
     else getitem device ATTR_SERIAL) = Ok hid) as [hid Hhid].
  { unfold getitem. destruct (in_QSX_KEYPADS type).
    - destruct Hid as (bg & parent & -> & Hp & [hid Hh]). simpl.
      rewrite Hp. simpl. rewrite Hh. eauto.
    - destruct Hid as [hid ->]. eauto. }
  unfold getitem in Hhid. rewrite Hhid. simpl.
  rewrite Hname. simpl.
  destruct (init_parse_total name) as (area & rest & ->). simpl.
  rewrite Hmodel. simpl. rewrite Hbridge. simpl. eauto.
Qed.
End register_progress.

(** ** What the registration loop does to the button dicts *)

Section register_invariants.
Variable dr_device_id : list device_info → device_info → string.
Variable config_entry_id : string.
Variable bridge_device : pydict.
Variable button_group_to_device_map : gmap pyval pydict.

Local Abbreviation loop :=
  (Init.register_loop dr_device_id config_entry_id bridge_device
     button_group_to_device_map).

Lemma default_serial_gains device device' :
  Init.default_serial device = Ok device' → Init.gains_serial device device'.
Proof.
  unfold Init.default_serial, Init.gains_serial.
  destruct (bool_decide (device !! ATTR_SERIAL = None)) eqn:Hserial; simpl;
    [|intros [= <-]; by left].
  destruct (bool_decide (is_Some (device !! ATTR_BUTTON_GROUP))) eqn:Hgroup;
    simpl; [|intros [= <-]; by left].
  apply bool_decide_eq_true in Hserial.
  intros H. bind_ok H. bind_ok H. injection H as <-.
  apply getitem_ok in E. right. eauto 10.
Qed.

Lemma register_loop_buttons todo :
  ∀ seen calls by_dr_id,
    let r := loop todo seen calls by_dr_id in
    Forall2 (λ before after,
               after.1 = before.1 ∧ Init.gains_serial before.2 after.2)
      todo (Init.buttons_after r)
    ∧ (∀ m, Init.returned r = Ok m →
         Forall (λ after, is_Some (after.2 !! ATTR_SERIAL))
           (Init.buttons_after r)).
Proof.
  assert (∀ l : list (Z * pydict),
            Forall2 (λ before after,
                       after.1 = before.1 ∧ Init.gains_serial before.2 after.2)
              l l) as Hrefl.
  { intros l. apply Forall2_same_length_lookup_2; [done|].
    intros i x y Hx Hy. simplify_eq. split; [done | by left]. }
  induction todo as [|[button_id device] rest IH];
    intros seen calls by_dr_id r; subst r; simpl.
  { split; [constructor | intros; constructor]. }
  destruct (Init.default_serial device) as [device'|e] eqn:Hdefault; simpl.
  2:{ split; [apply Hrefl | discriminate]. }
  apply default_serial_gains in Hdefault.
  assert (Forall2 (λ before after,
                     after.1 = before.1 ∧ Init.gains_serial before.2 after.2)
            ((button_id, device) :: rest) ((button_id, device') :: rest))
    as Hstopped.
  { apply Forall2_cons; split; [done | apply Hrefl]. }
  destruct (getitem device' ATTR_SERIAL) as [serial|e] eqn:Hserial; simpl.
  2:{ split; [done | discriminate]. }
  apply getitem_ok in Hserial.
  case_bool_decide.
  - destruct (IH seen calls by_dr_id) as [Hall Hok]. simpl. split.
    + apply Forall2_cons; split; [done | apply Hall].
    + intros m Hm. apply Forall_cons_2; [by eexists | by eapply Hok].
  - destruct (Init.button_device_args _ _ _ device') as [device_args|e]; simpl.
    2:{ split; [done | discriminate]. }
    destruct (IH ({[serial]} ∪ seen) (calls ++ [device_args])
                (<[dr_device_id calls device_args := device']> by_dr_id))
      as [Hall Hok].
    split.
    + apply Forall2_cons; split; [done | apply Hall].
    + intros m Hm. apply Forall_cons_2; [by eexists | by eapply Hok].
Qed.

Lemma register_loop_count todo :
  ∀ seen calls by_dr_id m,
    let r := loop todo seen calls by_dr_id in
    Init.returned r = Ok m →
    ∃ new,
      Init.registry_calls r = calls ++ new
      ∧ length new
        = size ((list_to_set
                   (omap (λ after : Z * pydict, after.2 !! ATTR_SERIAL)
                      (Init.buttons_after r)) : gset pyval) ∖ seen).
Proof.
  induction todo as [|[button_id device] rest IH];
    intros seen calls by_dr_id m r; subst r; simpl.
  { intros _. exists []. rewrite app_nil_r. split; [done|].
    simpl. by rewrite difference_disjoint_L, size_empty by set_solver. }
  destruct (Init.default_serial device) as [device'|e]; simpl; [|discriminate].
  destruct (getitem device' ATTR_SERIAL) as [serial|e] eqn:Hserial; simpl;
    [|discriminate].
  apply getitem_ok in Hserial.
  case_bool_decide as Hseen; simpl.
  - intros Hm. destruct (IH seen calls by_dr_id m Hm) as (new & Hcalls & Hlen).
    exists new. split; [done|]. rewrite Hserial. simpl. rewrite Hlen.
    f_equal. set_solver.
  - destruct (Init.button_device_args _ _ _ device') as [device_args|e]; simpl;
      [|discriminate].
    intros Hm.
    destruct (IH ({[serial]} ∪ seen) (calls ++ [device_args])
                (<[dr_device_id calls device_args := device']> by_dr_id) m Hm)
      as (new & Hcalls & Hlen).
    exists (device_args :: new). split.
    { rewrite Hcalls, <- app_assoc. done. }
    rewrite Hserial. simpl. rewrite Hlen.
    set (S := list_to_set _ : gset pyval).
    replace (({[serial]} ∪ S) ∖ seen) with ({[serial]} ∪ S ∖ ({[serial]} ∪ seen)).
    + rewrite (size_union ({[serial]} : gset pyval)
                 (S ∖ ({[serial]} ∪ seen))) by set_solver.
      by rewrite size_singleton.
    + apply set_eq. intros x. rewrite !elem_of_union, !elem_of_difference,
        !elem_of_union, !elem_of_singleton.
      destruct (decide (x = serial)) as [->|]; naive_solver.
Qed.
End register_invariants.

Section register_success.
Variable dr_device_id : list device_info → device_info → string.
Variable config_entry_id : string.
Variable bridge_device : pydict.
Variable button_group_to_device_map : gmap pyval pydict.

Local Abbreviation loop :=
  (Init.register_loop dr_device_id config_entry_id bridge_device
     button_group_to_device_map).
Local Abbreviation args_of :=
  (Init.button_device_args config_entry_id bridge_device
     button_group_to_device_map).

Lemma in_QSX_KEYPADS_spec type :
  in_QSX_KEYPADS type = true ↔ Init.is_keypad_type type.
Proof.
  unfold Init.is_keypad_type. destruct type as [|n|t]; simpl.
  - split; [discriminate | intros [?|[?|[?|?]]]; discriminate].
  - split; [discriminate | intros [?|[?|[?|?]]]; discriminate].
  - rewrite bool_decide_eq_true. unfold QSX_KEYPADS.
    rewrite !elem_of_union, !elem_of_singleton. split.
    + intros [[[->| ->]| ->]| ->]; tauto.
    + intros [[= ->]|[[= ->]|[[= ->]|[= ->]]]]; tauto.
Qed.

Lemma button_device_args_under device device_args :
  args_of device = Ok device_args →
  Init.registered_under bridge_device button_group_to_device_map device
    device_args.
Proof.
  intros [Hvia (type & Htype & Hid)]%button_device_args_sound.
  split; [exact Hvia|]. exists type. split; [exact Htype|].
  destruct (in_QSX_KEYPADS type) eqn:Hkeypad.
  - split; [intros _; exact Hid|].
    intros Hno. destruct Hno. by apply in_QSX_KEYPADS_spec.
  - split; [|intros _; exact Hid].
    intros Hyes%in_QSX_KEYPADS_spec. congruence.
Qed.

Lemma register_loop_success todo :
  ∀ seen calls by_dr_id m,
    let r := loop todo seen calls by_dr_id in
    Init.returned r = Ok m →
    ∃ new,
      Init.registry_calls r = calls ++ new
      ∧ Forall2 (λ device device_args, args_of device = Ok device_args)
          (Init.first_of_each_serial seen (Init.buttons_after r).*2) new.
Proof.
  induction todo as [|[button_id device] rest IH];
    intros seen calls by_dr_id m r; subst r; simpl.
  { intros _. exists []. rewrite app_nil_r. split; [done | constructor]. }
  destruct (Init.default_serial device) as [device'|e]; simpl; [|discriminate].
  destruct (getitem device' ATTR_SERIAL) as [serial|e] eqn:Hserial; simpl;
    [|discriminate].
  apply getitem_ok in Hserial. unfold ATTR_SERIAL in Hserial.
  case_bool_decide as Hseen; simpl.
  - intros Hm. destruct (IH seen calls by_dr_id m Hm) as (new & Hcalls & Hall).
    exists new. split; [done|]. rewrite Hserial.
    by rewrite bool_decide_eq_true_2.
  - destruct (args_of device') as [device_args|e] eqn:Hargs; simpl;
      [|discriminate].
    intros Hm.
    destruct (IH ({[serial]} ∪ seen) (calls ++ [device_args])
                (<[dr_device_id calls device_args := device']> by_dr_id) m Hm)
      as (new & Hcalls & Hall).
    exists (device_args :: new). split.
    { rewrite Hcalls, <- app_assoc. done. }
    rewrite Hserial. rewrite bool_decide_eq_false_2 by done.
    apply Forall2_cons. split; [done | exact Hall].
Qed.

Lemma registrable_default_serial device :
  Init.registrable button_group_to_device_map device →
  ∃ device',
    Init.default_serial device = Ok device'
    ∧ is_Some (device' !! "serial")
    ∧ device' !! "type" = device !! "type"
    ∧ device' !! "name" = device !! "name"
    ∧ device' !! "model" = device !! "model"
    ∧ device' !! "button_group" = device !! "button_group".
Proof.
  intros [Hserial _]. unfold Init.default_serial, ATTR_SERIAL, ATTR_BUTTON_GROUP.
  destruct (device !! "serial") as [serial|] eqn:Hs.
  { rewrite bool_decide_eq_false_2 by done. simpl.
    exists device. rewrite Hs. repeat split; eauto. }
  destruct Hserial as [[? [=]]|(bg & n & Hbg & Hint)].
  rewrite bool_decide_eq_true_2 by done.
  rewrite bool_decide_eq_true_2 by (rewrite Hbg; eauto). simpl.
  unfold getitem. rewrite Hbg. simpl. rewrite Hint. simpl.
  exists (<["serial" := PInt n]> device). split; [done|].
  rewrite lookup_insert_eq. split; [eauto|].
  by rewrite !lookup_insert_ne by discriminate.
Qed.

Lemma register_loop_progress bridge_serial todo :
  bridge_device !! "serial" = Some bridge_serial →
  Forall (Init.registrable button_group_to_device_map) (todo.*2) →
  ∀ seen calls by_dr_id,
    ∃ m, Init.returned (loop todo seen calls by_dr_id) = Ok m.
Proof.
  intros Hbridge.
  induction todo as [|[button_id device] rest IH]; simpl;
    intros Hall seen calls by_dr_id; [eauto|].
  apply Forall_cons in Hall as [Hdevice Hrest].
  destruct (registrable_default_serial device Hdevice)
    as (device' & -> & [serial Hserial] & Htype & Hname & Hmodel & Hgroup).
  unfold getitem, ATTR_SERIAL. rewrite Hserial.
  case_bool_decide; simpl; [by apply IH|].
  destruct Hdevice as [_ (type & name & model & Ht & Hn & Hm & Hkeypad)].
  destruct (button_device_args_complete config_entry_id bridge_device
              button_group_to_device_map device' type name model bridge_serial)
    as [device_args ->]; try congruence.
  - exact Hbridge.
  - destruct (in_QSX_KEYPADS type) eqn:Hq.
    + apply in_QSX_KEYPADS_spec in Hq.
      destruct (Hkeypad Hq) as (bg & parent & Hbg & Hparent & Hid).
      exists bg, parent. unfold ATTR_BUTTON_GROUP. rewrite Hgroup. done.
    + by exists serial.
  - simpl. by apply IH.
Qed.
End register_success.

(** C3.  When the registration loop returns, the calls it made to the
    device registry are, in order, one for each button dict whose serial
    is not that of an earlier dict.  Each such call nests the device under
    the bridge (via_device is the bridge's serial) and identifies it by
    the device_id of the parent found in the map under the dict's button
    group when the dict's type is SeeTouchHybridKeypad, HomeownerKeypad,
    SeeTouchTabletopKeypad or Pico3ButtonRaiseLower, and by the dict's own
    serial otherwise.  The same holds of every call made before an
    exception.  The loop does return when the bridge has a serial and every
    button dict has what the loop reads. *)
Theorem button_devices_registered
    (dr_device_id : list device_info → device_info → string)
    (config_entry_id : string) (bridge_device : pydict)
    (button_group_to_device_map : gmap pyval pydict)
    (calls : list device_info) (button_devices_by_id : list (Z * pydict)) :
  let r := Init._async_register_button_devices dr_device_id config_entry_id
             bridge_device button_group_to_device_map calls button_devices_by_id in
  (∃ new,
     Init.registry_calls r = calls ++ new
     ∧ (∀ device_args, device_args ∈ new →
          ∃ button_id device,
            (button_id, device) ∈ Init.buttons_after r
            ∧ Init.registered_under bridge_device button_group_to_device_map
                device device_args)
     ∧ (∀ m, Init.returned r = Ok m →
          Forall2 (Init.registered_under bridge_device
                     button_group_to_device_map)
            (Init.first_of_each_serial ∅ (Init.buttons_after r).*2) new))
  ∧ Forall2 (λ before after,
               after.1 = before.1 ∧ Init.gains_serial before.2 after.2)
      button_devices_by_id (Init.buttons_after r)
  ∧ (∀ bridge_serial,
       bridge_device !! "serial" = Some bridge_serial →
       Forall (Init.registrable button_group_to_device_map)
         (button_devices_by_id.*2) →
       ∃ m, Init.returned r = Ok m).
Proof.
  intros r. subst r. unfold Init._async_register_button_devices.
  split; [|split].
  - destruct (register_loop_calls dr_device_id config_entry_id bridge_device
                button_group_to_device_map button_devices_by_id ∅ calls ∅)
      as (new & Hcalls & Hnew).
    exists new. split; [done|]. split.
    + intros a Ha. destruct (Hnew a Ha) as (k & d & Hin & Hargs).
      exists k, d. split; [done|]. by eapply button_device_args_under.
    + intros m Hm.
      destruct (register_loop_success dr_device_id config_entry_id
                  bridge_device button_group_to_device_map
                  button_devices_by_id ∅ calls ∅ m Hm)
        as (new' & Hcalls' & Hall).
      assert (new' = new) as -> by (apply (app_inv_head calls); congruence).
      eapply Forall2_impl; [exact Hall|].
      intros d a Hda. simpl in Hda.
      exact (button_device_args_under _ _ _ _ _ Hda).
  - apply register_loop_buttons.
  - intros bridge_serial Hbridge Hall.
    by eapply register_loop_progress.
Qed.

Lemma button_devices_registered_witness :
  let bridge_device : pydict := {[ "serial" := PInt 1234 ]} in
  let station : pydict :=
    {[ "device_id" := PStr "7"; "control_station_name" := PStr "Hall_Keypad" ]} in
  let groups : gmap pyval pydict := {[ PStr "42" := station ]} in
  let keypad : pydict :=
    {[ "type" := PStr "HomeownerKeypad"; "button_group" := PStr "42";
       "name" := PStr "Hall_Keypad 1"; "model" := PStr "HQWT-U-P2W" ]} in
  let remote : pydict :=
    {[ "type" := PStr "Pico2Button"; "serial" := PInt 5678;
       "name" := PStr "Den_Pico"; "model" := PStr "PJ2-2B" ]} in
  let r := Init._async_register_button_devices (λ _ _, "dr1"%string) "entry"
             bridge_device groups [] [(101, keypad); (102, remote)] in
  (∃ m, Init.returned r = Ok m)
  ∧ di_identifiers <$> Init.registry_calls r
    = [("lutron_hwqsx"%string, PStr "7"); ("lutron_hwqsx"%string, PInt 5678)]
  ∧ di_via_device <$> Init.registry_calls r
    = [Some ("lutron_hwqsx"%string, PInt 1234);
       Some ("lutron_hwqsx"%string, PInt 1234)].
Proof.
  intros bridge_device station groups keypad remote r.
  split; [|split; vm_compute; reflexivity].
  apply (proj2 (proj2 (button_devices_registered (λ _ _, "dr1"%string) "entry"
                         bridge_device groups []
                         [(101, keypad); (102, remote)])) (PInt 1234)).
  - vm_compute. reflexivity.
  - apply Forall_cons_2; [|apply Forall_cons_2; [|apply Forall_nil_2]].
    + split.
      * right. exists (PStr "42"), 42. split; vm_compute; reflexivity.
      * exists (PStr "HomeownerKeypad"), "Hall_Keypad 1"%string,
          (PStr "HQWT-U-P2W").
        repeat split; try (vm_compute; reflexivity).
        intros _. exists (PStr "42"), station.
        repeat split; try (vm_compute; reflexivity).
        exists (PStr "7"). vm_compute. reflexivity.
    + split.
      * left. exists (PInt 5678). vm_compute. reflexivity.
      * exists (PStr "Pico2Button"), "Den_Pico"%string, (PStr "PJ2-2B").
        repeat split; try (vm_compute; reflexivity).
        intros [H|[H|[H|H]]]; discriminate H.
Defined.

(** ** The receiver's volume response *)

Section volume_facts.
Import MediaPlayer.

Lemma set_fields_id self :
  set_volume (_volume self) (set_volume_max (_volume_max self) self) = self.
Proof. by destruct self. Qed.

Lemma last_reading_nil kind skip current :
  last_reading kind skip [] current = current.
Proof. reflexivity. Qed.

Lemma last_reading_skip kind skip line rest current :
  kind line = false →
  last_reading kind skip (line :: rest) current
  = last_reading kind skip rest current.
Proof. unfold last_reading. simpl. by intros ->. Qed.

Lemma last_reading_take kind skip line rest current z :
  kind line = true → reading skip line = Some z →
  Forall (λ l, kind l = true → is_Some (reading skip l)) rest →
  last_reading kind skip (line :: rest) current
  = last_reading kind skip rest z.
Proof.
  unfold last_reading. simpl. intros -> Hz Hrest.
  rewrite last_cons.
  destruct (last (List.filter kind rest)) as [y|] eqn:Hlast; simpl.
  - assert (y ∈ List.filter kind rest) as Hy.
    { apply last_Some in Hlast as [l' ->]. apply elem_of_app. right.
      by apply list_elem_of_singleton. }
    apply list_elem_of_In, filter_In in Hy as [Hy Hkind].
    apply list_elem_of_In in Hy.
    rewrite Forall_forall in Hrest.
    by destruct (Hrest y Hy Hkind) as [v ->].
  - by rewrite Hz.
Qed.

Lemma handle_line_max self line z :
  is_max_line line = true → reading 6 line = Some z →
  handle_line self line = Ok (set_volume_max z self).
Proof.
  unfold is_max_line, reading, handle_line. intros -> Hz.
  change (slice (String.length "MVMAX ") (String.length "MVMAX XX") line)
    with (slice 6 (6 + 2) line).
  by destruct (int_of_str (slice 6 (6 + 2) line)); simplify_eq.
Qed.

Lemma handle_line_volume self line z :
  is_volume_line line = true → reading 2 line = Some z →
  handle_line self line = Ok (set_volume z self).
Proof.
  unfold is_volume_line, reading, handle_line.
  intros [Hmax Hmv]%andb_true_iff Hz.
  apply negb_true_iff in Hmax. rewrite Hmax, Hmv.
  change (slice (String.length "MV") (String.length "MVXX") line)
    with (slice 2 (2 + 2) line).
  by destruct (int_of_str (slice 2 (2 + 2) line)); simplify_eq.
Qed.

Lemma handle_line_other self line :
  is_max_line line = false → is_volume_line line = false →
  handle_line self line = Ok self.
Proof.
  unfold is_max_line, is_volume_line, handle_line. intros ->. simpl.
  by intros ->.
Qed.

Lemma handle_volume_response_readable response :
  ∀ self,
    Forall readable response →
    let final :=
      set_volume (last_reading is_volume_line 2 response (_volume self))
        (set_volume_max (last_reading is_max_line 6 response (_volume_max self))
           self) in
    handle_volume_response self response = (final, Ok (_volume final)).
Proof.
  induction response as [|line rest IH]; intros self Hall; simpl.
  - rewrite !last_reading_nil, set_fields_id. done.
  - apply Forall_cons in Hall as [[Hmax Hvol] Hrest].
    assert (Forall (λ l, is_max_line l = true → is_Some (reading 6 l)) rest)
      as Hrest_max by (eapply Forall_impl; [exact Hrest | intros l0 Hl0; exact (proj1 Hl0)]).
    assert (Forall (λ l, is_volume_line l = true → is_Some (reading 2 l)) rest)
      as Hrest_vol by (eapply Forall_impl; [exact Hrest | intros l0 Hl0; exact (proj2 Hl0)]).
    destruct (is_max_line line) eqn:Emax.
    + destruct (Hmax eq_refl) as [z Hz].
      assert (is_volume_line line = false) as Evol.
      { unfold is_volume_line. unfold is_max_line in Emax. by rewrite Emax. }
      rewrite (handle_line_max self line z Emax Hz), (IH _ Hrest).
      rewrite (last_reading_take _ _ _ _ _ z Emax Hz Hrest_max).
      rewrite (last_reading_skip _ _ _ _ _ Evol).
      by destruct self.
    + destruct (is_volume_line line) eqn:Evol.
      * destruct (Hvol eq_refl) as [z Hz].
        rewrite (handle_line_volume self line z Evol Hz), (IH _ Hrest).
        rewrite (last_reading_take _ _ _ _ _ z Evol Hz Hrest_vol).
        rewrite (last_reading_skip _ _ _ _ _ Emax).
        by destruct self.
      * rewrite (handle_line_other self line Emax Evol), (IH _ Hrest).
        by rewrite !last_reading_skip.
Qed.

Lemma int_of_str_raise s e : int_of_str s = Raise e → e = ValueError.
Proof.
  unfold int_of_str.
  by destruct (match lstrip s with
               | String "+" s' => unsigned_int s'
               | String "-" s' => Z.opp <$> unsigned_int s'
               | s' => unsigned_int s'
               end); intros; simplify_eq.
Qed.

Lemma handle_line_unreadable self line :
  ¬ readable line → handle_line self line = Raise ValueError.
Proof.
  unfold readable, is_max_line, is_volume_line, reading, handle_line.
  change (slice (String.length "MVMAX ") (String.length "MVMAX XX") line)
    with (slice 6 8 line).
  change (slice (String.length "MV") (String.length "MVXX") line)
    with (slice 2 4 line).
  change (slice 6 (6 + 2) line) with (slice 6 8 line).
  change (slice 2 (2 + 2) line) with (slice 2 4 line).
  intros Hbad.
  destruct (startswith line "MVMAX "); simpl in *.
  - destruct (int_of_str (slice 6 8 line)) as [z|e] eqn:E; simpl.
    + destruct Hbad. split; [intros _; by exists z | intros; discriminate].
    + by rewrite (int_of_str_raise _ _ E).
  - destruct (startswith line "MV"); simpl in *.
    + destruct (int_of_str (slice 2 4 line)) as [z|e] eqn:E; simpl.
      * destruct Hbad. split; [intros; discriminate | intros _; by exists z].
      * by rewrite (int_of_str_raise _ _ E).
    + destruct Hbad. split; intros; discriminate.
Qed.

Lemma handle_volume_response_unreadable before :
  ∀ self line after,
    Forall readable before → ¬ readable line →
    (handle_volume_response self (before ++ line :: after)).2
    = Raise ValueError.
Proof.
  induction before as [|l before IH]; intros self line after Hall Hbad; simpl.
  - by rewrite handle_line_unreadable.
  - apply Forall_cons in Hall as [Hl Hrest].
    destruct (handle_line self l) as [self'|e] eqn:E.
    + by apply IH.
    + destruct (is_max_line l) eqn:Emax.
      * destruct (proj1 Hl Emax) as [z Hz].
        rewrite (handle_line_max self l z Emax Hz) in E. discriminate.
      * destruct (is_volume_line l) eqn:Evol.
        -- destruct (proj2 Hl Evol) as [z Hz].
           rewrite (handle_line_volume self l z Evol Hz) in E. discriminate.
        -- rewrite (handle_line_other self l Emax Evol) in E. discriminate.
Qed.
End volume_facts.

(** C4.  On a response whose MVMAX and MV lines carry a number in the two
    characters after the prefix, handle_volume_response leaves in
    _volume_max the reading of the last line starting with "MVMAX ", in
    _volume the reading of the last other line starting with "MV" (two
    characters only), keeps a field for which there is no such line, keeps
    every other field, and returns the final _volume.  A line whose two
    characters are no number ends the call with ValueError. *)
Theorem handle_volume_response_spec
    (self : MediaPlayer.McIntoshDevice) (response : list string) :
  (Forall MediaPlayer.readable response →
     ∃ final,
       MediaPlayer.handle_volume_response self response
       = (final, Ok (MediaPlayer._volume final))
       ∧ MediaPlayer._volume_max final
         = MediaPlayer.last_reading MediaPlayer.is_max_line 6 response
             (MediaPlayer._volume_max self)
       ∧ MediaPlayer._volume final
         = MediaPlayer.last_reading MediaPlayer.is_volume_line 2 response
             (MediaPlayer._volume self)
       ∧ MediaPlayer._name final = MediaPlayer._name self
       ∧ MediaPlayer._host final = MediaPlayer._host self
       ∧ MediaPlayer._pwstate final = MediaPlayer._pwstate self
       ∧ MediaPlayer._muted final = MediaPlayer._muted self
       ∧ MediaPlayer._mediasource final = MediaPlayer._mediasource self
       ∧ MediaPlayer._mediainfo final = MediaPlayer._mediainfo self)
  ∧ (∀ before line after,
       response = before ++ line :: after →
       Forall MediaPlayer.readable before →
       ¬ MediaPlayer.readable line →
       (MediaPlayer.handle_volume_response self response).2 = Raise ValueError).
Proof.
  split.
  - intros Hall. eexists. split; [by apply handle_volume_response_readable|].
    by destruct self.
  - intros before line after -> Hall Hbad.
    by apply handle_volume_response_unreadable.
Qed.

Lemma handle_volume_response_spec_witness :
  let self :=
    {| MediaPlayer._name := "DEFAULT AVR"; MediaPlayer._host := "10.0.0.9";
       MediaPlayer._pwstate := "PWSTANDBY"; MediaPlayer._volume := 0;
       MediaPlayer._volume_max := 98; MediaPlayer._muted := false;
       MediaPlayer._mediasource := ""; MediaPlayer._mediainfo := "" |} in
  let response := ["MV45"; "MVMAX 80"; "PWON"; "MV505"; "MVMAX 855"]%string in
  ∃ final,
    MediaPlayer.handle_volume_response self response = (final, Ok 50)
    ∧ MediaPlayer._volume_max final = 85
    ∧ MediaPlayer._volume final = 50
    ∧ MediaPlayer._pwstate final = "PWSTANDBY"%string.
Proof.
  intros self response.
  destruct (proj1 (handle_volume_response_spec self response))
    as (final & Hrun & Hmax & Hvol & _ & _ & Hpw & _).
  { repeat constructor; vm_compute; intros H; (discriminate H || eauto). }
  exists final. rewrite Hrun, Hmax, Hvol, Hpw. repeat split.
Defined.

(** ** LEAP to LIP button numbers *)

(** C5.  async_get_lip_button returns None exactly when the device type is
    missing from one of the two tables; with both entries present the
    result is the LIP number found by looking the LEAP button up in the
    LEAP table's entry and the resulting name in the LIP table's entry (a
    failed subscript is a KeyError, never None). *)
Theorem async_get_lip_button_spec
    (DEVICE_TYPE_SUBTYPE_MAP_TO_LIP : gmap string (gmap string Z))
    (LEAP_TO_DEVICE_TYPE_SUBTYPE_MAP : gmap string (gmap Z string))
    (device_type : string) (leap_button : Z) :
  let r := Init.async_get_lip_button DEVICE_TYPE_SUBTYPE_MAP_TO_LIP
             LEAP_TO_DEVICE_TYPE_SUBTYPE_MAP device_type leap_button in
  (r = Ok None ↔
     DEVICE_TYPE_SUBTYPE_MAP_TO_LIP !! device_type = None
     ∨ LEAP_TO_DEVICE_TYPE_SUBTYPE_MAP !! device_type = None)
  ∧ (∀ name_to_num num_to_name,
       DEVICE_TYPE_SUBTYPE_MAP_TO_LIP !! device_type = Some name_to_num →
       LEAP_TO_DEVICE_TYPE_SUBTYPE_MAP !! device_type = Some num_to_name →
       r = match num_to_name !! leap_button ≫= (name_to_num !!.) with
           | Some lip_button => Ok (Some lip_button)
           | None => Raise KeyError
           end).
Proof.
  intros r. subst r. unfold Init.async_get_lip_button, getitem. split.
  - destruct (DEVICE_TYPE_SUBTYPE_MAP_TO_LIP !! device_type) as [nums|];
      [|by split; [left|]].
    destruct (LEAP_TO_DEVICE_TYPE_SUBTYPE_MAP !! device_type) as [names|];
      [|by split; [right|]].
    destruct (names !! leap_button) as [name|]; simpl;
      [destruct (nums !! name); simpl|]; split; (discriminate || by intros [|]).
  - intros nums names -> ->.
    destruct (names !! leap_button) as [name|]; simpl; [|done].
    by destruct (nums !! name).
Qed.

Lemma async_get_lip_button_spec_witness :
  let to_lip : gmap string (gmap string Z) :=
    {[ "Pico2Button" := {[ "on" := 2; "off" := 4 ]} ]} in
  let from_leap : gmap string (gmap Z string) :=
    {[ "Pico2Button" := {[ 0 := "on"%string; 1 := "off"%string ]} ]} in
  Init.async_get_lip_button to_lip from_leap "Pico2Button" 1 = Ok (Some 4).
Proof.
  intros to_lip from_leap.
  rewrite (proj2 (async_get_lip_button_spec to_lip from_leap "Pico2Button" 1)
             {[ "on" := 2; "off" := 4 ]}
             {[ 0 := "on"%string; 1 := "off"%string ]});
    vm_compute; reflexivity.
Defined.

(** ** Occupancy groups *)

(** C6.  An occupancy group is on exactly when its status entry equals
    OCCUPANCY_GROUP_OCCUPIED; any other status gives false. *)
Theorem occupancy_is_on_spec
    (OCCUPANCY_GROUP_OCCUPIED : pyval) (device : pydict) (status : pyval) :
  device !! "status" = Some status →
  (BinarySensor.is_on OCCUPANCY_GROUP_OCCUPIED device = Ok true
   ↔ status = OCCUPANCY_GROUP_OCCUPIED)
  ∧ (status ≠ OCCUPANCY_GROUP_OCCUPIED →
     BinarySensor.is_on OCCUPANCY_GROUP_OCCUPIED device = Ok false).
Proof.
  intros Hstatus. unfold BinarySensor.is_on, getitem. rewrite Hstatus. simpl.
  case_bool_decide; split; done.
Qed.

Lemma occupancy_is_on_spec_witness :
  let device : pydict :=
    {[ "status" := PStr "Unoccupied"; "name" := PStr "Hall_Occupancy" ]} in
  (BinarySensor.is_on (PStr "Occupied") device = Ok true
   ↔ PStr "Unoccupied" = PStr "Occupied")
  ∧ (PStr "Unoccupied" ≠ PStr "Occupied" →
     BinarySensor.is_on (PStr "Occupied") device = Ok false).
Proof.
  intros device.
  apply (occupancy_is_on_spec (PStr "Occupied") device (PStr "Unoccupied")).
  vm_compute. reflexivity.
Defined.

(** ** Display names *)

Section display_facts.
Lemma as_str_ok v s : as_str v = Ok s → v = PStr s.
Proof. destruct v; simpl; congruence. Qed.

Lemma button_device_args_name config_entry_id bridge_device groups device
    device_args :
  Init.button_device_args config_entry_id bridge_device groups device
    = Ok device_args →
  ∃ device_name area name,
    device !! "name" = Some (PStr device_name)
    ∧ Init._area_and_name_from_name device_name = Ok (area, name)
    ∧ di_name device_args = area +:+ " " +:+ name.
Proof.
  unfold Init.button_device_args. intros H.
  bind_ok H. bind_ok H. bind_ok H. bind_ok H. bind_ok H.
  destruct x3 as [area name]. bind_ok H. bind_ok H.
  injection H as <-.
  apply getitem_ok in E1. apply as_str_ok in E2 as ->.
  by exists x2, area, name.
Qed.

Lemma device_init_name serial_to_unique_id device bridge_device entity :
  Init.LutronCasetaDevice__init__ serial_to_unique_id device bridge_device
    = Ok entity →
  is_Some (device !! "serial") →
  ∃ device_name area name,
    device !! "name" = Some (PStr device_name)
    ∧ Init._area_and_name_from_name device_name = Ok (area, name)
    ∧ Init.display_name entity = Some (area +:+ " " +:+ name)
    ∧ Init._attr_name entity = Some (area +:+ " " +:+ name)
    ∧ di_name <$> Init._attr_device_info entity
      = Some (area +:+ " " +:+ name).
Proof.
  unfold Init.LutronCasetaDevice__init__. intros H [serial Hserial].
  rewrite bool_decide_eq_false_2 in H by congruence.
  bind_ok H. bind_ok H. bind_ok H. bind_ok H. bind_ok H.
  destruct x3 as [area name]. bind_ok H. bind_ok H. bind_ok H. bind_ok H.
  injection H as <-.
  apply getitem_ok in E1. apply as_str_ok in E2 as ->.
  by exists x2, area, name.
Qed.

Lemma fallback_name device_name area name :
  ¬ has_char "_" device_name →
  Init._area_and_name_from_name device_name = Ok (area, name) →
  area +:+ " " +:+ name = "Unassigned " +:+ device_name.
Proof.
  intros Hplain. rewrite (init_parse_plain _ Hplain). by intros [= <- <-].
Qed.

Lemma handle_none_serial_plain bridge_unique_id device serial :
  serial ≠ PNone → device !! "button_number" = None →
  Init._handle_none_serial bridge_unique_id device serial = Ok serial.
Proof.
  unfold Init._handle_none_serial. intros Hserial ->.
  by destruct serial.
Qed.
End display_facts.

Lemma button_device_args_named config_entry_id bridge_device groups device
    device_args :
  Init.button_device_args config_entry_id bridge_device groups device
  = Ok device_args →
  Init.named_after device (di_name device_args).
Proof.
  intros (dn & area & name & Hdn & Hparse & Hname)%button_device_args_name.
  exists dn, area, name. repeat (split; [done|]).
  intros Hplain. rewrite Hname. by eapply fallback_name.
Qed.

(** C7.  The name a registered button device is given in the device
    registry, and the display name (entity name, device name) of a
    LutronCasetaDevice, is the parsed area, one space and the parsed name
    of the dict's name entry; when that entry has no underscore it is
    "Unassigned " followed by the entry.  This holds of the calls of the
    registration loop, one for each button dict with a new serial, and the
    loop does return on button dicts that have what it reads; a device
    with a serial other than None, a name, a model and a type, and no
    button number, does get such an entity. *)
Theorem display_name_spec
    (dr_device_id : list device_info → device_info → string)
    (serial_to_unique_id : pyval → result string)
    (config_entry_id : string) (bridge_device : pydict)
    (button_group_to_device_map : gmap pyval pydict) :
  (∀ calls button_devices_by_id,
     let r := Init._async_register_button_devices dr_device_id config_entry_id
                bridge_device button_group_to_device_map calls
                button_devices_by_id in
     (∃ new,
        Init.registry_calls r = calls ++ new
        ∧ (∀ device_args, device_args ∈ new →
             ∃ button_id device,
               (button_id, device) ∈ Init.buttons_after r
               ∧ Init.named_after device (di_name device_args))
        ∧ (∀ m, Init.returned r = Ok m →
             Forall2 (λ device device_args,
                        Init.named_after device (di_name device_args))
               (Init.first_of_each_serial ∅ (Init.buttons_after r).*2) new))
     ∧ Forall2 (λ before after,
                  after.1 = before.1 ∧ Init.gains_serial before.2 after.2)
         button_devices_by_id (Init.buttons_after r)
     ∧ (∀ bridge_serial,
          bridge_device !! "serial" = Some bridge_serial →
          Forall (Init.registrable button_group_to_device_map)
            (button_devices_by_id.*2) →
          ∃ m, Init.returned r = Ok m))
  ∧ (∀ device entity,
       Init.LutronCasetaDevice__init__ serial_to_unique_id device bridge_device
         = Ok entity →
       is_Some (device !! "serial") →
       ∃ device_name area name,
         device !! "name" = Some (PStr device_name)
         ∧ Init._area_and_name_from_name device_name = Ok (area, name)
         ∧ Init.display_name entity = Some (area +:+ " " +:+ name)
         ∧ Init._attr_name entity = Some (area +:+ " " +:+ name)
         ∧ di_name <$> Init._attr_device_info entity
           = Some (area +:+ " " +:+ name)
         ∧ (¬ has_char "_" device_name →
            Init.display_name entity = Some ("Unassigned " +:+ device_name)))
  ∧ (∀ device serial device_name model type bridge_serial bridge_unique_id,
       device !! "serial" = Some serial → serial ≠ PNone →
       device !! "button_number" = None →
       device !! "name" = Some (PStr device_name) →
       device !! "model" = Some model →
       device !! "type" = Some type →
       bridge_device !! "serial" = Some bridge_serial →
       serial_to_unique_id bridge_serial = Ok bridge_unique_id →
       ∃ entity,
         Init.LutronCasetaDevice__init__ serial_to_unique_id device bridge_device
         = Ok entity).
Proof.
  split; [|split].
  - intros calls buttons r. subst r.
    unfold Init._async_register_button_devices. split; [|split].
    + destruct (register_loop_calls dr_device_id config_entry_id bridge_device
                  button_group_to_device_map buttons ∅ calls ∅)
        as (new & Hcalls & Hnew).
      exists new. split; [done|]. split.
      * intros a Ha. destruct (Hnew a Ha) as (k & d & Hin & Hargs).
        exists k, d. split; [done|]. by eapply button_device_args_named.
      * intros m Hm.
        destruct (register_loop_success dr_device_id config_entry_id
                    bridge_device button_group_to_device_map buttons ∅ calls ∅
                    m Hm) as (new' & Hcalls' & Hall).
        assert (new' = new) as -> by (apply (app_inv_head calls); congruence).
        eapply Forall2_impl; [exact Hall|].
        intros d a Hda. simpl in Hda.
        exact (button_device_args_named _ _ _ _ _ Hda).
    + apply register_loop_buttons.
    + intros bridge_serial Hbridge Hall. by eapply register_loop_progress.
  - intros device entity Hinit Hserial.
    destruct (device_init_name _ _ _ _ Hinit Hserial)
      as (dn & area & name & Hdn & Hparse & Hdisplay & Hattr & Hinfo).
    exists dn, area, name. repeat (split; [done|]).
    intros Hplain. rewrite Hdisplay. f_equal. by eapply fallback_name.
  - intros device serial dn model type bs buid
      Hserial Hnone Hbutton Hname Hmodel Htype Hbridge Hunique.
    unfold Init.LutronCasetaDevice__init__, model_label, getitem.
    unfold ATTR_MODEL, ATTR_TYPE.
    rewrite bool_decide_eq_false_2 by congruence.
    rewrite Hbridge. simpl. rewrite Hunique. simpl. rewrite Hname. simpl.
    destruct (init_parse_total dn) as (area & name & ->). simpl.
    rewrite Hserial. simpl.
    rewrite (handle_none_serial_plain _ _ _ Hnone Hbutton). simpl.
    rewrite Hmodel. simpl. rewrite Htype. simpl. eauto.
Qed.

Lemma display_name_spec_witness :
  let bridge_device : pydict := {[ "serial" := PInt 1234 ]} in
  let station : pydict :=
    {[ "device_id" := PStr "7"; "control_station_name" := PStr "Hall_Keypad" ]} in
  let groups : gmap pyval pydict := {[ PStr "42" := station ]} in
  let keypad : pydict :=
    {[ "type" := PStr "HomeownerKeypad"; "button_group" := PStr "42";
       "name" := PStr "Hall_Keypad 1"; "model" := PStr "HQWT-U-P2W" ]} in
  let remote : pydict :=
    {[ "type" := PStr "Pico2Button"; "serial" := PInt 5678;
       "name" := PStr "Pico"; "model" := PStr "PJ2-2B" ]} in
  let device : pydict :=
    {[ "serial" := PInt 5678; "name" := PStr "Porch Light";
       "model" := PStr "PD-6WCL"; "type" := PStr "WallDimmer";
       "device_id" := PStr "3" ]} in
  let r := Init._async_register_button_devices (λ _ _, "dr1"%string) "entry"
             bridge_device groups [] [(101, keypad); (102, remote)] in
  ((∃ m, Init.returned r = Ok m)
   ∧ di_name <$> Init.registry_calls r
     = ["Hall Keypad 1"; "Unassigned Pico"]%string)
  ∧ ∃ entity,
      Init.LutronCasetaDevice__init__ (λ _, Ok "000004d2"%string) device
        bridge_device = Ok entity
      ∧ Init.display_name entity = Some "Unassigned Porch Light"%string.
Proof.
  intros bridge_device station groups keypad remote device r.
  pose proof (display_name_spec (λ _ _, "dr1"%string)
                (λ _, Ok "000004d2"%string) "entry" bridge_device groups)
    as (Hloop & Hsound & Hprogress).
  split.
  - split; [|vm_compute; reflexivity].
    apply (proj2 (proj2 (Hloop [] [(101, keypad); (102, remote)])) (PInt 1234)).
    + vm_compute. reflexivity.
    + apply Forall_cons_2; [|apply Forall_cons_2; [|apply Forall_nil_2]].
      * split.
        -- right. exists (PStr "42"), 42. split; vm_compute; reflexivity.
        -- exists (PStr "HomeownerKeypad"), "Hall_Keypad 1"%string,
             (PStr "HQWT-U-P2W").
           repeat split; try (vm_compute; reflexivity).
           intros _. exists (PStr "42"), station.
           repeat split; try (vm_compute; reflexivity).
           exists (PStr "7"). vm_compute. reflexivity.
      * split.
        -- left. exists (PInt 5678). vm_compute. reflexivity.
        -- exists (PStr "Pico2Button"), "Pico"%string, (PStr "PJ2-2B").
           repeat split; try (vm_compute; reflexivity).
           intros [H|[H|[H|H]]]; discriminate H.
  - destruct (Hprogress device (PInt 5678) "Porch Light"%string (PStr "PD-6WCL")
                (PStr "WallDimmer") (PInt 1234) "000004d2"%string)
      as [entity Hentity]; try (vm_compute; reflexivity); [discriminate|].
    exists entity. split; [exact Hentity|].
    destruct (Hsound device entity Hentity)
      as (dn & area & name & Hdn & _ & _ & _ & _ & Hplain).
    { exists (PInt 5678). vm_compute. reflexivity. }
    assert (dn = "Porch Light"%string) as ->.
    { assert (device !! "name" = Some (PStr "Porch Light")) as Hn
        by (vm_compute; reflexivity).
      congruence. }
    apply Hplain. simpl. intros H.
    repeat (destruct H as [H|H]; [discriminate H|]). exact H.
Defined.

(** ** Pump presets *)

Section preset_facts.
Import Number.

Lemma is_valid_pumpflow_spec flow isRPMs :
  _is_valid_pumpflow flow isRPMs = true ↔ flow_in_range flow isRPMs.
Proof.
  unfold _is_valid_pumpflow, flow_in_range.
  destruct isRPMs; rewrite andb_true_iff, !Z.leb_le; done.
Qed.

Lemma is_valid_preset_missing self data presets preset :
  pump_data self = Ok data → pump_presets data = Some presets →
  presets !! PInt preset = None →
  _is_valid_preset self preset = Ok false.
Proof.
  unfold _is_valid_preset. intros Hdata Hpresets Hpreset.
  rewrite Hdata. simpl. by rewrite Hpresets, Hpreset.
Qed.

Lemma is_valid_preset_cid self data presets preset preset_data cid :
  pump_data self = Ok data → pump_presets data = Some presets →
  presets !! PInt preset = Some preset_data →
  preset_data !! "cid" = Some cid →
  _is_valid_preset self preset = Ok (bool_decide (cid ≠ PInt 0)).
Proof.
  unfold _is_valid_preset. intros Hdata Hpresets Hpreset Hcid.
  rewrite Hdata. simpl. rewrite Hpresets, Hpreset.
  unfold getitem. by rewrite Hcid.
Qed.

Lemma pack_u32_ok n : 0 ≤ n < 2 ^ 32 → ∃ bytes, pack_u32 n = Ok bytes.
Proof.
  intros [Hlo Hhi]. unfold pack_u32.
  apply Z.leb_le in Hlo. apply Z.ltb_lt in Hhi. rewrite Hlo, Hhi. eauto.
Qed.

Lemma pack_u32_raise n e : pack_u32 n = Raise e → e = StructError.
Proof. unfold pack_u32. case_match; congruence. Qed.

Lemma pack_set_pump_flow_raise body pumpID flow isRPMs e :
  pack_set_pump_flow body pumpID flow isRPMs = Raise e → e = StructError.
Proof.
  unfold pack_set_pump_flow.
  destruct (pack_u32 0) eqn:E0; simpl; [|by intros [= <-]; eapply pack_u32_raise].
  destruct (pack_u32 pumpID) eqn:E1; simpl; [|by intros [= <-]; eapply pack_u32_raise].
  destruct (pack_u32 body) eqn:E2; simpl; [|by intros [= <-]; eapply pack_u32_raise].
  destruct (pack_u32 flow) eqn:E3; simpl; [|by intros [= <-]; eapply pack_u32_raise].
  destruct (pack_u32 (if isRPMs then 1 else 0)) eqn:E4; simpl;
    [discriminate | by intros [= <-]; eapply pack_u32_raise].
Qed.

Lemma pack_set_pump_flow_ok body pumpID flow isRPMs :
  0 ≤ body < 2 ^ 32 → 0 ≤ pumpID < 2 ^ 32 → flow_in_range flow isRPMs →
  ∃ payload, pack_set_pump_flow body pumpID flow isRPMs = Ok payload.
Proof.
  intros Hbody Hpump Hflow. unfold pack_set_pump_flow.
  destruct (pack_u32_ok 0) as [a ->]; [lia|].
  destruct (pack_u32_ok pumpID Hpump) as [b ->].
  destruct (pack_u32_ok body Hbody) as [c ->].
  destruct (pack_u32_ok flow) as [d ->].
  { unfold flow_in_range in Hflow. destruct isRPMs; lia. }
  destruct (pack_u32_ok (if isRPMs then 1 else 0)) as [e ->].
  { destruct isRPMs; lia. }
  simpl. eauto.
Qed.

Section with_gateway.
Variable async_connect : list gateway_event → option bool.
Variable async_make_request :
  list gateway_event → Z → list Z → option (list Z).

(** Once both checks pass, the gateway is asked to connect, and no
    [ValueError] can follow. *)
Lemma async_set_preset_valid self sent preset_id preset pumpID flow isRPMs :
  py_int preset_id = Ok preset →
  _is_valid_preset self preset = Ok true →
  flow_in_range flow isRPMs →
  let out := async_set_preset async_connect async_make_request self sent
               preset_id pumpID flow isRPMs in
  out.2 ≠ Raise ValueError
  ∧ (∃ more, out.1 = sent ++ Connect :: more)
  ∧ (0 ≤ preset < 2 ^ 32 → 0 ≤ pumpID < 2 ^ 32 →
     ∀ connected,
       async_connect sent = Some connected →
       (connected = true →
        ∀ payload, is_Some (async_make_request (sent ++ [Connect])
                              SETPUMPFLOW_QUERY payload)) →
       ∃ flag, out.2 = Ok flag).
Proof.
  intros Hint Hpreset Hflow out. subst out.
  unfold async_set_preset. rewrite Hint, Hpreset.
  apply is_valid_pumpflow_spec in Hflow as Hvalid. rewrite Hvalid. simpl.
  unfold vendor.
  destruct (async_connect sent) as [[|]|] eqn:Hconnect; simpl.
  - unfold async_request_set_pump_flow.
    destruct (pack_set_pump_flow preset pumpID flow isRPMs)
      as [payload|e] eqn:Hpack.
    + destruct (async_make_request (sent ++ [Connect]) SETPUMPFLOW_QUERY
                  payload) as [reply|] eqn:Hreply; simpl.
      * case_bool_decide; simpl;
          (split; [done|]; split;
             [eexists; by rewrite <- app_assoc | eauto]).
      * split; [done|]. split; [eexists; by rewrite <- app_assoc|].
        intros _ _ connected [= <-] Hanswer.
        destruct (Hanswer eq_refl payload) as [reply Hsome]. congruence.
    + simpl. pose proof (pack_set_pump_flow_raise _ _ _ _ _ Hpack) as ->.
      split; [done|]. split; [by exists []|].
      intros Hbody Hpump.
      destruct (pack_set_pump_flow_ok preset pumpID flow isRPMs)
        as [payload Hok]; try done.
      congruence.
  - split; [done|]. split; [by exists []|]. eauto.
  - split; [done|]. split; [by exists []|].
    intros _ _ connected [=].
Qed.
End with_gateway.
End preset_facts.

(** C8, as the claim states it, fails: the preset id is looked up as the
    integer int(preset_id), not as it is given.  With the presets keyed by
    integers and the id the string "0" (the declared type of preset_id),
    the id is no key of the presets, yet no ValueError is raised and the
    request is sent.  With the presets keyed by strings and the id "0", the
    id is a key whose cid is not 0 and the flow is in range, yet ValueError
    is raised and nothing is sent. *)
Lemma async_set_preset_counterexample :
  let pool : pydict :=
    {[ "cid" := PInt 6; "setPoint" := PInt 2400; "isRPM" := PInt 1 ]} in
  let self (presets : gmap pyval pydict) :=
    {| Number.coordinator_pumps :=
         {[ PInt 0 := Number.Pump {[ "pumpType" := PInt 2 ]} (Some presets) ]};
       Number._pump_id := PInt 0; Number._preset_id := PInt 0;
       Number.isRPMs := true |} in
  let by_int : gmap pyval pydict := {[ PInt 0 := pool ]} in
  let by_str : gmap pyval pydict := {[ PStr "0" := pool ]} in
  (by_int !! PStr "0" = None
   ∧ Number.async_set_preset (λ _, Some true) (λ _ _ _, Some []) (self by_int)
       [] (PStr "0") 0 2400 true
     = ([Number.Connect;
         Number.Request 12586
           [0; 0; 0; 0;  0; 0; 0; 0;  0; 0; 0; 0;  96; 9; 0; 0;  1; 0; 0; 0]],
        Ok true))
  ∧ (by_str !! PStr "0" = Some pool
     ∧ pool !! "cid" = Some (PInt 6)
     ∧ Number.flow_in_range 2400 true
     ∧ Number.async_set_preset (λ _, Some true) (λ _ _ _, Some []) (self by_str)
         [] (PStr "0") 0 2400 true
       = ([], Raise ValueError)).
Proof.
  intros pool self by_int by_str.
  split; [split; vm_compute; reflexivity|].
  split; [vm_compute; reflexivity|].
  split; [vm_compute; reflexivity|].
  split; [unfold Number.flow_in_range; lia|].
  vm_compute. reflexivity.
Qed.

(** C8, amended.  async_set_preset reads the preset id as an integer,
    preset = int(preset_id).  When int() fails, its exception (ValueError
    on a string) is raised and nothing is asked of the gateway.  Otherwise,
    with the pump's presets at hand, it raises ValueError without asking
    anything of the gateway when preset is no key of the presets, when the
    preset's cid is 0, or when the flow is outside 1000..3450 (isRPMs) or
    20..90 (otherwise).  With preset a key whose cid is not 0 and a flow in
    range it raises no ValueError: it asks the gateway to connect, and it
    returns a flag whenever the numbers fit the request's 32-bit fields and
    the gateway answers. *)
Theorem async_set_preset_spec
    (async_connect : list Number.gateway_event → option bool)
    (async_make_request :
       list Number.gateway_event → Z → list Z → option (list Z))
    (self : Number.ScreenLogicPumpPreset) (sent : list Number.gateway_event)
    (preset_id : pyval) (pumpID flow : Z) (isRPMs : bool)
    (data : Number.pump) (presets : gmap pyval pydict) :
  Number.pump_data self = Ok data →
  Number.pump_presets data = Some presets →
  let out := Number.async_set_preset async_connect async_make_request self sent
               preset_id pumpID flow isRPMs in
  (∀ e, py_int preset_id = Raise e →
        out = (sent, Raise e)
        ∧ (∀ s, preset_id = PStr s → e = ValueError))
  ∧ (∀ preset, py_int preset_id = Ok preset →
       (presets !! PInt preset = None → out = (sent, Raise ValueError))
       ∧ (∀ preset_data,
            presets !! PInt preset = Some preset_data →
            preset_data !! "cid" = Some (PInt 0) →
            out = (sent, Raise ValueError))
       ∧ (∀ preset_data cid,
            presets !! PInt preset = Some preset_data →
            preset_data !! "cid" = Some cid →
            ¬ Number.flow_in_range flow isRPMs →
            out = (sent, Raise ValueError))
       ∧ (∀ preset_data cid,
            presets !! PInt preset = Some preset_data →
            preset_data !! "cid" = Some cid →
            cid ≠ PInt 0 →
            Number.flow_in_range flow isRPMs →
            out.2 ≠ Raise ValueError
            ∧ (∃ more, out.1 = sent ++ Number.Connect :: more)
            ∧ (0 ≤ preset < 2 ^ 32 → 0 ≤ pumpID < 2 ^ 32 →
               ∀ connected,
                 async_connect sent = Some connected →
                 (connected = true →
                  ∀ payload,
                    is_Some (async_make_request (sent ++ [Number.Connect])
                               Number.SETPUMPFLOW_QUERY payload)) →
                 ∃ flag, out.2 = Ok flag))).
Proof.
  intros Hdata Hpresets out.
  split.
  { intros e Hint. split.
    - subst out. unfold Number.async_set_preset. by rewrite Hint.
    - intros s ->. simpl in Hint. by eapply int_of_str_raise. }
  intros preset Hint.
  split; [|split; [|split]].
  - intros Hmissing. subst out. unfold Number.async_set_preset.
    rewrite Hint.
    by rewrite (is_valid_preset_missing _ _ _ _ Hdata Hpresets Hmissing).
  - intros preset_data Hpreset Hcid. subst out. unfold Number.async_set_preset.
    rewrite Hint.
    rewrite (is_valid_preset_cid _ _ _ _ _ _ Hdata Hpresets Hpreset Hcid).
    by rewrite bool_decide_eq_false_2 by (intros H; by apply H).
  - intros preset_data cid Hpreset Hcid Hflow. subst out.
    unfold Number.async_set_preset. rewrite Hint.
    rewrite (is_valid_preset_cid _ _ _ _ _ _ Hdata Hpresets Hpreset Hcid).
    case_bool_decide; [|done].
    destruct (Number._is_valid_pumpflow flow isRPMs) eqn:Hvalid; [|done].
    by apply is_valid_pumpflow_spec in Hvalid.
  - intros preset_data cid Hpreset Hcid Hnonzero Hflow.
    apply async_set_preset_valid; [done | | done].
    rewrite (is_valid_preset_cid _ _ _ _ _ _ Hdata Hpresets Hpreset Hcid).
    by rewrite bool_decide_eq_true_2.
Qed.

Lemma async_set_preset_spec_witness :
  let pool : pydict := {[ "cid" := PInt 6; "setPoint" := PInt 2400; "isRPM" := PInt 1 ]} in
  let presets : gmap pyval pydict := {[ PInt 0 := pool ]} in
  let data := Number.Pump {[ "pumpType" := PInt 2 ]} (Some presets) in
  let self :=
    {| Number.coordinator_pumps := {[ PInt 0 := data ]};
       Number._pump_id := PInt 0; Number._preset_id := PInt 0;
       Number.isRPMs := true |} in
  Number.async_set_preset (λ _, Some true) (λ _ _ _, Some []) self []
    (PInt 0) 0 3500 true
  = ([], Raise ValueError)
  ∧ Number.async_set_preset (λ _, Some true) (λ _ _ _, Some []) self []
      (PStr "pool") 0 2400 true
    = ([], Raise ValueError)
  ∧ ∃ flag,
      (Number.async_set_preset (λ _, Some true) (λ _ _ _, Some []) self []
         (PStr "0") 0 2400 true).2 = Ok flag.
Proof.
  intros pool presets data self.
  assert (Number.pump_data self = Ok data) as Hdata by (vm_compute; reflexivity).
  assert (Number.pump_presets data = Some presets) as Hpresets by reflexivity.
  split; [|split].
  - destruct (async_set_preset_spec (λ _, Some true) (λ _ _ _, Some []) self []
                (PInt 0) 0 3500 true data presets Hdata Hpresets)
      as (_ & Hint).
    destruct (Hint 0 eq_refl) as (_ & _ & Hflow & _).
    apply (Hflow pool (PInt 6)).
    + vm_compute. reflexivity.
    + vm_compute. reflexivity.
    + unfold Number.flow_in_range. lia.
  - destruct (async_set_preset_spec (λ _, Some true) (λ _ _ _, Some []) self []
                (PStr "pool") 0 2400 true data presets Hdata Hpresets)
      as (Hfails & _).
    assert (py_int (PStr "pool") = Raise ValueError) as Hint
      by (vm_compute; reflexivity).
    exact (proj1 (Hfails ValueError Hint)).
  - destruct (async_set_preset_spec (λ _, Some true) (λ _ _ _, Some []) self []
                (PStr "0") 0 2400 true data presets Hdata Hpresets)
      as (_ & Hint).
    assert (py_int (PStr "0") = Ok 0) as Hzero by (vm_compute; reflexivity).
    destruct (Hint 0 Hzero) as (_ & _ & _ & Hvalid).
    destruct (Hvalid pool (PInt 6)) as (_ & _ & Hflag).
    + vm_compute. reflexivity.
    + vm_compute. reflexivity.
    + discriminate.
    + unfold Number.flow_in_range. lia.
    + apply (Hflag ltac:(lia) ltac:(lia) true eq_refl). intros _ payload. by eexists.
Defined.

(** ** Migrating the unique ids of occupancy groups *)

Section migrate_facts.
Implicit Types (s p r : string).

Lemma str_app_assoc s p r : (s +:+ p) +:+ r = s +:+ (p +:+ r).
Proof.
  induction s as [|a s IH]; [done|].
  change (String a ((s +:+ p) +:+ r) = String a (s +:+ (p +:+ r))).
  by rewrite IH.
Qed.

Lemma prefix_cons a p b s :
  String.prefix (String a p) (String b s)
  = if ascii_dec a b then String.prefix p s else false.
Proof. reflexivity. Qed.

Lemma app_cons a s r : String a s +:+ r = String a (s +:+ r).
Proof. reflexivity. Qed.

Lemma prefix_app p r : String.prefix p (p +:+ r) = true.
Proof.
  induction p as [|a p IH]; [by destruct r|].
  rewrite app_cons, prefix_cons.
  destruct (ascii_dec a a); [done | congruence].
Qed.

Lemma prefix_inv p s : String.prefix p s = true → ∃ r, s = p +:+ r.
Proof.
  revert s. induction p as [|a p IH]; intros s.
  - intros _. by exists s.
  - destruct s as [|b s]; [discriminate|].
    rewrite prefix_cons.
    destruct (ascii_dec a b) as [->|]; [|discriminate].
    intros [r ->]%IH. by exists r.
Qed.

(** An id starting with occupancygroup_ has a second segment. *)
Lemma occupancygroup_sensor_id r :
  ∃ sensor_id,
    list_getitem (str_split "_" None ("occupancygroup_" +:+ r)) 1
    = Ok sensor_id.
Proof.
  destruct (str_split_head "_" None r) as (hd & tl & Hsplit).
  exists hd. lazy [String.append]. simpl. by rewrite Hsplit.
Qed.

Variable async_get_device : list Init.dr_event → string * string → option string.
Variable bridge_unique_id : pyval.

Lemma migrator_skips dev_reg unique_id :
  unique_id = EmptyString
  ∨ startswith unique_id "occupancygroup_" = false
  ∨ startswith unique_id ("occupancygroup_" +:+ py_str bridge_unique_id) = true →
  Init._async_migrator async_get_device bridge_unique_id dev_reg unique_id
  = (dev_reg, Ok None).
Proof.
  unfold Init._async_migrator. intros [->|[H|H]].
  - done.
  - case_bool_decide; [done|]. by rewrite H.
  - case_bool_decide; [done|]. rewrite H. by rewrite orb_true_r.
Qed.

Lemma migrated_has_prefix sensor_id :
  startswith
    ("occupancygroup_" +:+ py_str bridge_unique_id +:+ "_" +:+ sensor_id)
    ("occupancygroup_" +:+ py_str bridge_unique_id) = true.
Proof.
  unfold startswith.
  rewrite <- (str_app_assoc "occupancygroup_" (py_str bridge_unique_id)).
  apply prefix_app.
Qed.

Lemma migrator_migrates dev_reg unique_id :
  unique_id ≠ EmptyString →
  startswith unique_id "occupancygroup_" = true →
  startswith unique_id ("occupancygroup_" +:+ py_str bridge_unique_id) = false →
  ∃ sensor_id dev_reg',
    str_split "_" None unique_id !! 1%nat = Some sensor_id
    ∧ Init._async_migrator async_get_device bridge_unique_id dev_reg unique_id
      = (dev_reg',
         Ok (Some ("occupancygroup_" +:+ py_str bridge_unique_id
                   +:+ "_" +:+ sensor_id))).
Proof.
  intros Hne Hgroup Hbridge. unfold Init._async_migrator.
  rewrite bool_decide_eq_false_2 by done. rewrite Hgroup, Hbridge. simpl.
  apply prefix_inv in Hgroup as [r ->].
  destruct (occupancygroup_sensor_id r) as [sensor_id Hsensor].
  rewrite Hsensor. exists sensor_id. eexists. split; [|done].
  unfold list_getitem in Hsensor.
  by destruct (str_split "_" None ("occupancygroup_" +:+ r) !! 1%nat);
    simplify_eq.
Qed.
End migrate_facts.

(** C9.  The migrator returns None for an entity whose unique id is empty,
    does not start with occupancygroup_, or already starts with
    occupancygroup_ followed by the bridge's unique id.  For any other id
    it returns occupancygroup_, the bridge's unique id, an underscore and
    the second underscore-separated segment of the old id; that new id
    starts with occupancygroup_ followed by the bridge's unique id, so the
    migrator returns None on it and leaves the device registry alone:
    migrating an entry twice is migrating it once. *)
Theorem migrator_idempotent
    (async_get_device : list Init.dr_event → string * string → option string)
    (bridge_unique_id : pyval) (dev_reg : list Init.dr_event)
    (unique_id : string) :
  let migrator := Init._async_migrator async_get_device bridge_unique_id in
  let migrate := Init.migrate_entry async_get_device bridge_unique_id in
  let bridge_prefix := "occupancygroup_" +:+ py_str bridge_unique_id in
  (unique_id = EmptyString
   ∨ startswith unique_id "occupancygroup_" = false
   ∨ startswith unique_id bridge_prefix = true →
   migrator dev_reg unique_id = (dev_reg, Ok None))
  ∧ (unique_id ≠ EmptyString →
     startswith unique_id "occupancygroup_" = true →
     startswith unique_id bridge_prefix = false →
     ∃ sensor_id dev_reg',
       let new_unique_id :=
         "occupancygroup_" +:+ py_str bridge_unique_id +:+ "_" +:+ sensor_id in
       str_split "_" None unique_id !! 1%nat = Some sensor_id
       ∧ migrator dev_reg unique_id = (dev_reg', Ok (Some new_unique_id))
       ∧ startswith new_unique_id bridge_prefix = true
       ∧ migrator dev_reg' new_unique_id = (dev_reg', Ok None))
  ∧ (∃ dev_reg1 unique_id1,
       migrate dev_reg unique_id = (dev_reg1, Ok unique_id1)
       ∧ migrate dev_reg1 unique_id1 = (dev_reg1, Ok unique_id1)).
Proof.
  intros migrator migrate bridge_prefix.
  assert (∀ reg u,
    u = EmptyString
    ∨ startswith u "occupancygroup_" = false
    ∨ startswith u bridge_prefix = true →
    migrate reg u = (reg, Ok u)) as Hstay.
  { intros reg u Hskip. subst migrate. unfold Init.migrate_entry.
    by rewrite migrator_skips. }
  split; [|split].
  - apply migrator_skips.
  - intros Hne Hgroup Hbridge.
    destruct (migrator_migrates async_get_device bridge_unique_id dev_reg
                unique_id Hne Hgroup Hbridge)
      as (sensor_id & dev_reg' & Hsensor & Hrun).
    exists sensor_id, dev_reg'. simpl. repeat split; try done.
    + apply migrated_has_prefix.
    + apply migrator_skips. right. right. apply migrated_has_prefix.
  - destruct (decide (unique_id = EmptyString)) as [Hempty|Hne].
    { exists dev_reg, unique_id. split; apply Hstay; by left. }
    destruct (startswith unique_id "occupancygroup_") eqn:Hgroup; cycle 1.
    { exists dev_reg, unique_id. split; apply Hstay; right; by left. }
    destruct (startswith unique_id bridge_prefix) eqn:Hbridge.
    { exists dev_reg, unique_id. split; apply Hstay; right; by right. }
    destruct (migrator_migrates async_get_device bridge_unique_id dev_reg
                unique_id Hne Hgroup Hbridge)
      as (sensor_id & dev_reg' & Hsensor & Hrun).
    exists dev_reg', ("occupancygroup_" +:+ py_str bridge_unique_id
                      +:+ "_" +:+ sensor_id).
    split.
    + subst migrate. unfold Init.migrate_entry. by rewrite Hrun.
    + apply Hstay. right. right. apply migrated_has_prefix.
Qed.

Lemma migrator_idempotent_witness :
  let found (calls : list Init.dr_event) (identifier : string * string) :=
    Some "device-entry-9"%string in
  ∃ dev_reg',
    Init._async_migrator found (PStr "0234abcd") [] "occupancygroup_7"
    = (dev_reg', Ok (Some "occupancygroup_0234abcd_7"%string))
    ∧ Init._async_migrator found (PStr "0234abcd") dev_reg'
        "occupancygroup_0234abcd_7"
      = (dev_reg', Ok None).
Proof.
  intros found.
  destruct (proj1 (proj2 (migrator_idempotent found (PStr "0234abcd") []
                             "occupancygroup_7")))
    as (sensor_id & dev_reg' & Hsensor & Hrun & _ & Hagain);
    [discriminate | reflexivity | reflexivity |].
  assert (sensor_id = "7"%string) as -> by (vm_compute in Hsensor; congruence).
  exists dev_reg'. split; [exact Hrun | exact Hagain].
Defined.

(** ** Keypad buttons *)

Section button_facts.
Lemma str_in_unfold sub s :
  str_in sub s
  = String.prefix sub s
    || match s with
       | EmptyString => false
       | String _ s' => str_in sub s'
       end.
Proof. by destruct s. Qed.

Lemma str_in_spec sub s : str_in sub s = true ↔ substring_of sub s.
Proof.
  split.
  - induction s as [|a s IH]; rewrite str_in_unfold;
      intros [Hpre|Hrest]%orb_true_iff; try discriminate.
    + apply prefix_inv in Hpre as [r ->]. by exists EmptyString, r.
    + apply prefix_inv in Hpre as [r ->]. by exists EmptyString, r.
    + destruct (IH Hrest) as (before & after & ->).
      by exists (String a before), after.
  - intros (before & after & ->).
    induction before as [|a before IH]; rewrite str_in_unfold.
    + change (EmptyString +:+ sub +:+ after) with (sub +:+ after).
      by rewrite prefix_app.
    + rewrite app_cons, IH. apply orb_true_r.
Qed.

Lemma rename_button_label button_name :
  ∃ label,
    Button.rename_button (PStr button_name) = PStr label
    ∧ (button_name = "Button 18"%string → label = "Lower"%string)
    ∧ (button_name = "Button 19"%string → label = "Raise"%string)
    ∧ (button_name ≠ "Button 18"%string → button_name ≠ "Button 19"%string →
       label = button_name).
Proof.
  unfold Button.rename_button, SEETOUCH_BUTTON_NAME_LOWER,
    SEETOUCH_BUTTON_NAME_RAISE.
  destruct (decide (button_name = "Button 18"%string)) as [->|Hlower].
  { exists "Lower"%string. rewrite bool_decide_eq_true_2 by done.
    repeat split; [discriminate | done]. }
  destruct (decide (button_name = "Button 19"%string)) as [->|Hraise].
  { exists "Raise"%string. rewrite bool_decide_eq_false_2 by discriminate.
    rewrite bool_decide_eq_true_2 by done.
    repeat split; [discriminate | done]. }
  exists button_name.
  rewrite !bool_decide_eq_false_2 by congruence. done.
Qed.
End button_facts.

(** C10.  A keypad button entity built from a device that has the entries
    [__init__] reads: a button named exactly "Button 18" shows as Lower, one
    named "Button 19" as Raise, and both are enabled by default; any other
    button is disabled by default when its name contains "Button " and
    enabled when it does not. *)
Theorem button_init_spec
    (device bridge_device parent_device : pydict)
    (id : pyval) (button_name device_name station : string)
    (parent_id model type : pyval) :
  device !! "device_id" = Some id →
  device !! "button_name" = Some (PStr button_name) →
  device !! "name" = Some (PStr device_name) →
  device !! "model" = Some model →
  device !! "type" = Some type →
  parent_device !! "control_station_name" = Some (PStr station) →
  parent_device !! "device_id" = Some parent_id →
  ∃ entity area rest,
    Button.LutronCasetaButton__init__ device bridge_device parent_device
    = Ok entity
    ∧ Button._area_and_name_from_name device_name = Ok (area, rest)
    ∧ (button_name = "Button 18"%string →
       Button.display_name entity = area +:+ " " +:+ "Lower"
       ∧ Button._attr_entity_registry_enabled_default entity = true)
    ∧ (button_name = "Button 19"%string →
       Button.display_name entity = area +:+ " " +:+ "Raise"
       ∧ Button._attr_entity_registry_enabled_default entity = true)
    ∧ (button_name ≠ "Button 18"%string → button_name ≠ "Button 19"%string →
       Button.display_name entity = area +:+ " " +:+ button_name
       ∧ (substring_of "Button " button_name →
          Button._attr_entity_registry_enabled_default entity = false)
       ∧ (¬ substring_of "Button " button_name →
          Button._attr_entity_registry_enabled_default entity = true)).
Proof.
  intros Hid Hbutton Hname Hmodel Htype Hstation Hparent.
  destruct (rename_button_label button_name)
    as (label & Hlabel & Hlower & Hraise & Hother).
  destruct (init_parse_total device_name) as (area & rest & Harea).
  destruct (init_parse_total station) as (parent_area & parent_name & Hparea).
  unfold Button.LutronCasetaButton__init__, model_label, getitem.
  unfold ATTR_DEVICE_ID, ATTR_BUTTON_NAME, ATTR_NAME, ATTR_MODEL, ATTR_TYPE,
    ATTR_CONTROL_STATION_NAME.
  rewrite Hid, Hbutton. simpl. rewrite Hlabel. simpl. rewrite Hname. simpl.
  change (Button._area_and_name_from_name device_name)
    with (Init._area_and_name_from_name device_name).
  rewrite Harea. simpl. rewrite Hstation. simpl.
  change (Button._area_and_name_from_name station)
    with (Init._area_and_name_from_name station).
  rewrite Hparea. simpl. rewrite Hparent. simpl. rewrite Hmodel. simpl.
  rewrite Htype. simpl.
  eexists _, area, rest. split; [reflexivity|]. split; [done|]. simpl.
  unfold SEETOUCH_BUTTON_NAME_DEFAULT_PATTERN.
  split; [|split].
  - intros E. by rewrite (Hlower E).
  - intros E. by rewrite (Hraise E).
  - intros H18 H19. rewrite (Hother H18 H19). split; [done|].
    destruct (str_in "Button " button_name) eqn:Hin.
    + split; [done|]. intros Hno. destruct Hno. by apply str_in_spec.
    + split; [|done]. intros Hsub%str_in_spec. congruence.
Qed.

Lemma button_init_spec_witness :
  let device : pydict :=
    {[ "device_id" := PStr "151"; "button_name" := PStr "Button 18";
       "name" := PStr "Hall_Keypad"; "model" := PStr "HQWT-U-PRW";
       "type" := PStr "SeeTouchHybridKeypad"; "button_group" := PStr "42" ]} in
  let parent_device : pydict :=
    {[ "device_id" := PStr "7"; "control_station_name" := PStr "Hall_Entry" ]} in
  ∃ entity,
    Button.LutronCasetaButton__init__ device ∅ parent_device = Ok entity
    ∧ Button.display_name entity = "Hall Lower"%string
    ∧ Button._attr_entity_registry_enabled_default entity = true.
Proof.
  intros device parent_device.
  destruct (button_init_spec device ∅ parent_device (PStr "151") "Button 18"
              "Hall_Keypad" "Hall_Entry" (PStr "7") (PStr "HQWT-U-PRW")
              (PStr "SeeTouchHybridKeypad"))
    as (entity & area & rest & Hinit & Hparse & Hlower & _);
    try (vm_compute; reflexivity).
  exists entity. split; [exact Hinit|].
  assert (area = "Hall"%string) as -> by (vm_compute in Hparse; congruence).
  exact (Hlower eq_refl).
Defined.

(** * Further properties of the code *)

(** ** The map from button group to control station *)

Section group_map_facts.
Implicit Types (m : gmap pyval station) (g : pyval) (d : station).

Lemma add_button_groups_lookup d groups m g :
  add_button_groups d groups m !! g
  = match m !! g with
    | Some x => Some x
    | None => if bool_decide (g ∈ groups) then Some d else None
    end.
Proof.
  unfold add_button_groups. revert m.
  induction groups as [|a groups IH]; intros m; simpl.
  { by destruct (m !! g). }
  rewrite IH. destruct (decide (g = a)) as [->|Hne].
  - destruct (m !! a) eqn:Ha.
    + by rewrite Ha.
    + rewrite lookup_insert_eq.
      by rewrite bool_decide_eq_true_2 by (apply elem_of_cons; by left).
  - assert (match m !! a with
            | Some _ => m
            | None => <[a:=d]> m
            end !! g = m !! g) as ->.
    { destruct (m !! a); [done | by rewrite lookup_insert_ne]. }
    destruct (m !! g); [done|].
    destruct (decide (g ∈ groups)) as [Hin|Hout].
    + rewrite !bool_decide_eq_true_2; [done | apply elem_of_cons; by right | done].
    + rewrite !bool_decide_eq_false_2; [done | | done].
      intros [?|?]%elem_of_cons; done.
Qed.

Lemma group_step_lookup m d g :
  group_step m d !! g
  = match m !! g with
    | Some x => Some x
    | None =>
        match iterable_groups d with
        | Some groups => if bool_decide (g ∈ groups) then Some d else None
        | None => None
        end
    end.
Proof.
  unfold group_step. destruct (iterable_groups d).
  - apply add_button_groups_lookup.
  - by destruct (m !! g).
Qed.

Lemma first_listing_nil g d : ¬ first_listing [] g d.
Proof. intros (before & after & groups & H & _). by destruct before. Qed.

Lemma first_listing_here d rest g groups :
  iterable_groups d = Some groups → g ∈ groups →
  first_listing (d :: rest) g d.
Proof.
  intros Hit Hin. exists [], rest, groups. repeat split; try done.
  intros ? ? []%elem_of_nil.
Qed.

Lemma first_listing_later dev rest g d :
  (∀ groups, iterable_groups dev = Some groups → g ∉ groups) →
  first_listing rest g d → first_listing (dev :: rest) g d.
Proof.
  intros Hdev (before & after & groups & -> & Hit & Hin & Hfirst).
  exists (dev :: before), after, groups. repeat split; try done.
  intros e gs [->|He]%elem_of_cons Hgs; [by apply Hdev | by eapply Hfirst].
Qed.

Lemma first_listing_cons_inv dev rest g d :
  first_listing (dev :: rest) g d →
  (d = dev ∧ ∃ groups, iterable_groups dev = Some groups ∧ g ∈ groups)
  ∨ ((∀ groups, iterable_groups dev = Some groups → g ∉ groups)
     ∧ first_listing rest g d).
Proof.
  intros (before & after & groups & Heq & Hit & Hin & Hfirst).
  destruct before as [|b before]; simplify_eq/=.
  - left. eauto.
  - right. split.
    + intros gs Hgs. eapply Hfirst; [apply elem_of_cons; by left | done].
    + exists before, after, groups. repeat split; try done.
      intros e gs He. apply Hfirst. apply elem_of_cons. by right.
Qed.

Lemma build_from devices :
  ∀ m g d,
    foldl group_step m devices !! g = Some d
    ↔ m !! g = Some d ∨ (m !! g = None ∧ first_listing devices g d).
Proof.
  induction devices as [|dev rest IH]; intros m g d; simpl.
  { split; [by left|]. intros [?|[_ []%first_listing_nil]]. done. }
  rewrite IH, group_step_lookup. split.
  - intros [Hm|[Hm Hrest]].
    + destruct (m !! g) as [x|]; [by left|]. right. split; [done|].
      destruct (iterable_groups dev) as [groups|] eqn:Hit; [|done].
      case_bool_decide; [|done]. simplify_eq.
      by eapply first_listing_here.
    + destruct (m !! g) as [x|]; [done|]. right. split; [done|].
      apply first_listing_later; [|done].
      intros groups Hit. rewrite Hit in Hm. by case_bool_decide.
  - intros [Hm|[Hm Hfirst]].
    + left. by rewrite Hm.
    + rewrite Hm.
      apply first_listing_cons_inv in Hfirst as [[-> (groups & Hit & Hin)]|[Hdev Hrest]].
      * left. rewrite Hit. by rewrite bool_decide_eq_true_2.
      * right. split; [|done].
        destruct (iterable_groups dev) as [groups|]; [|done].
        rewrite bool_decide_eq_false_2; [done|]. by apply Hdev.
Qed.

Lemma build_from_none devices :
  ∀ m g,
    foldl group_step m devices !! g = None
    ↔ m !! g = None
      ∧ ∀ d groups, d ∈ devices → iterable_groups d = Some groups → g ∉ groups.
Proof.
  induction devices as [|dev rest IH]; intros m g; simpl.
  { split; [|by intros []]. split; [done|]. intros ? ? []%elem_of_nil. }
  rewrite IH, group_step_lookup. split.
  - intros [Hm Hrest]. destruct (m !! g); [done|]. split; [done|].
    intros d groups [->|Hd]%elem_of_cons Hit; [|by eapply Hrest].
    rewrite Hit in Hm. by case_bool_decide.
  - intros [Hm Hall]. rewrite Hm. split.
    + destruct (iterable_groups dev) as [groups|] eqn:Hit; [|done].
      rewrite bool_decide_eq_false_2; [done|].
      eapply Hall; [apply elem_of_cons; by left | done].
    + intros d groups Hd. apply Hall. apply elem_of_cons. by right.
Qed.
End group_map_facts.

(** X1.  In the map from button group to device, a group is mapped to the
    first device, in iteration order, whose button_groups lists it (a later
    device never replaces it), and a group is absent exactly when no device
    lists it. *)
Theorem button_group_map_first_wins (devices : list station) (g : pyval) :
  (∀ d, build_button_group_to_device_map devices !! g = Some d
        ↔ first_listing devices g d)
  ∧ (build_button_group_to_device_map devices !! g = None
     ↔ ∀ d groups, d ∈ devices → iterable_groups d = Some groups → g ∉ groups).
Proof.
  unfold build_button_group_to_device_map.
  change (λ m device, match iterable_groups device with
                      | Some groups => add_button_groups device groups m
                      | None => m
                      end) with group_step.
  split.
  - intros d. rewrite build_from, lookup_empty.
    split; [intros [?|[_ ?]]; done | intros ?; by right].
  - rewrite build_from_none, lookup_empty.
    split; [intros [_ ?]; done | intros ?; by split].
Qed.


(** X2.  Whatever the outcome, the registration loop keeps the buttons'
    keys and order, and changes a button dict at most by giving it the
    serial it lacked (its button group read as an integer); when the loop
    returns, every button dict has a serial. *)
Theorem register_keeps_buttons
    (dr_device_id : list device_info → device_info → string)
    (config_entry_id : string) (bridge_device : pydict)
    (button_group_to_device_map : gmap pyval pydict)
    (calls : list device_info) (button_devices_by_id : list (Z * pydict)) :
  let r := Init._async_register_button_devices dr_device_id config_entry_id
             bridge_device button_group_to_device_map calls
             button_devices_by_id in
  Forall2 (λ before after,
             after.1 = before.1 ∧ Init.gains_serial before.2 after.2)
    button_devices_by_id (Init.buttons_after r)
  ∧ (∀ m, Init.returned r = Ok m →
       Forall (λ after, is_Some (after.2 !! ATTR_SERIAL))
         (Init.buttons_after r)).
Proof. apply register_loop_buttons. Qed.

(** X3.  Button devices sharing a serial are registered once: when the
    loop returns, the number of calls it made to the device registry is
    the number of distinct serials among the button dicts. *)
Theorem register_once_per_serial
    (dr_device_id : list device_info → device_info → string)
    (config_entry_id : string) (bridge_device : pydict)
    (button_group_to_device_map : gmap pyval pydict)
    (calls : list device_info) (button_devices_by_id : list (Z * pydict))
    (m : gmap string pydict) :
  let r := Init._async_register_button_devices dr_device_id config_entry_id
             bridge_device button_group_to_device_map calls
             button_devices_by_id in
  Init.returned r = Ok m →
  ∃ new,
    Init.registry_calls r = calls ++ new
    ∧ length new
      = size (list_to_set
                (omap (λ after : Z * pydict, after.2 !! ATTR_SERIAL)
                   (Init.buttons_after r)) : gset pyval).
Proof.
  intros r Hm.
  destruct (register_loop_count dr_device_id config_entry_id bridge_device
              button_group_to_device_map button_devices_by_id ∅ calls ∅ m Hm)
    as (new & Hcalls & Hlen).
  exists new. split; [done|]. rewrite Hlen. f_equal. set_solver.
Qed.

Lemma register_once_per_serial_witness :
  let remote (serial : Z) (name : string) : pydict :=
    {[ "serial" := PInt serial; "type" := PStr "Pico3ButtonRaiseLower_";
       "name" := PStr name; "model" := PStr "PJ2-3BRL" ]} in
  let buttons :=
    [(101, remote 5 "Den_Pico"); (102, remote 5 "Den_Pico"); (103, remote 6 "Hall_Pico")] in
  let r := Init._async_register_button_devices (λ _ _, "dr1"%string) "entry"
             {[ "serial" := PInt 1234 ]} ∅ [] buttons in
  ∃ new,
    Init.registry_calls r = [] ++ new
    ∧ length new
      = size (list_to_set
                (omap (λ after : Z * pydict, after.2 !! ATTR_SERIAL)
                   (Init.buttons_after r)) : gset pyval).
Proof.
  intros remote buttons r.
  assert (∃ m, Init.returned r = Ok m) as [m Hm]
    by (vm_compute; eexists; reflexivity).
  exact (register_once_per_serial (λ _ _, "dr1"%string) "entry"
           {[ "serial" := PInt 1234 ]} ∅ [] buttons m Hm).
Defined.

(** ** Button events *)

Ltac bind_as H a E := apply rbind_ok in H as (a & E & H).

Section event_facts.
Variable to_lip : gmap string (gmap string Z).
Variable from_leap : gmap string (gmap Z string).
Variable model_to_type : pyval → pyval → result string.
Variable PRESSED : pyval.
Variable get_device : string * pyval → option string.
Variable get_entity_id : Z → option string.

Local Abbreviation fire :=
  (Init._async_button_event to_lip from_leap model_to_type PRESSED
     get_device get_entity_id).

(** The label an event carries for a keypad button. *)
Lemma button_event_inv buttons groups button_id event_type ev :
  fire buttons groups button_id event_type = Ok (Some ev) →
  ∃ device type type_ leap_button_number lip hass_device_id area name
    button_name registry_id,
    assoc_get buttons button_id = Some device ∧ device ≠ ∅
    ∧ device !! "type" = Some type
    ∧ device !! "button_number" = Some leap_button_number
    ∧ Init.lip_button_for to_lip from_leap type_ leap_button_number = Ok lip
    ∧ (if in_QSX_KEYPADS type then
         ∃ button_group parent_device station_name raw_name,
           device !! ATTR_BUTTON_GROUP = Some button_group
           ∧ groups !! button_group = Some parent_device
           ∧ parent_device !! ATTR_DEVICE_ID = Some hass_device_id
           ∧ parent_device !! ATTR_CONTROL_STATION_NAME = Some (PStr station_name)
           ∧ Init._area_and_name_from_name station_name = Ok (area, name)
           ∧ device !! ATTR_BUTTON_NAME = Some raw_name
           ∧ button_name = Button.rename_button raw_name
       else
         ∃ device_name,
           device !! "serial" = Some hass_device_id
           ∧ device !! "name" = Some (PStr device_name)
           ∧ Init._area_and_name_from_name device_name = Ok (area, name)
           ∧ button_name = PStr ("button_" +:+ py_str leap_button_number))
    ∧ get_device (DOMAIN, hass_device_id) = Some registry_id
    ∧ ev = <[ATTR_SERIAL := hass_device_id]>
           (<[ATTR_TYPE := PStr type_]>
           (<[ATTR_BUTTON_NUMBER :=
                match lip with Some n => PInt n | None => PNone end]>
           (<[ATTR_BUTTON_NAME := button_name]>
           (<[ATTR_LEAP_BUTTON_NUMBER := leap_button_number]>
           (<[ATTR_DEVICE_NAME := PStr name]>
           (<[ATTR_DEVICE_ID := PStr registry_id]>
           (<[ATTR_AREA_NAME := PStr area]>
           (<[ATTR_ACTION :=
                PStr (if bool_decide (event_type = PRESSED)
                      then ACTION_PRESSED else ACTION_RELEASED)]>
           (<[ATTR_ENTITY_ID :=
                match get_entity_id button_id with
                | Some e => PStr e
                | None => PNone
                end]> ∅))))))))).
Proof.
  unfold Init._async_button_event. intros H.
  destruct (assoc_get buttons button_id) as [device|] eqn:Hget; [|discriminate].
  case_bool_decide as Hempty; [discriminate|].
  bind_as H model Hmodel. bind_as H type Htype. bind_as H type_ Htype_.
  bind_as H dn0 Hdn0. bind_as H dn Hdn. bind_as H parsed Hparsed.
  bind_as H leap Hleap. bind_as H lip Hlip. bind_as H type' Htype'.
  bind_as H described Hdescribed.
  destruct described as [[hass_device_id [area name]] button_name].
  destruct (get_device (DOMAIN, hass_device_id)) as [registry_id|] eqn:Hreg;
    [|discriminate].
  injection H as <-.
  apply getitem_ok in Htype, Htype', Hdn0, Hleap. apply as_str_ok in Hdn as ->.
  assert (type' = type) as -> by congruence.
  exists device, type, type_, leap, lip, hass_device_id, area, name,
    button_name, registry_id.
  repeat (split; [done|]). split; [|done].
  destruct (in_QSX_KEYPADS type).
  - bind_as Hdescribed bg Hbg. bind_as Hdescribed parent Hparent.
    bind_as Hdescribed hid Hhid. bind_as Hdescribed cs0 Hcs0.
    bind_as Hdescribed cs Hcs. bind_as Hdescribed an Han.
    bind_as Hdescribed raw Hraw. injection Hdescribed as <- <- <-.
    apply getitem_ok in Hbg, Hparent, Hhid, Hcs0, Hraw.
    apply as_str_ok in Hcs as ->.
    exists bg, parent, cs, raw. repeat (split; [done|]). done.
  - bind_as Hdescribed hid Hhid. injection Hdescribed as <- <- <-.
    apply getitem_ok in Hhid. exists dn. destruct parsed. simplify_eq. done.
Qed.

Lemma button_init_inv device bridge parent_device entity :
  Button.LutronCasetaButton__init__ device bridge parent_device = Ok entity →
  ∃ raw_name device_name area rest station_name parent_area parent_name
    parent_id,
    device !! ATTR_BUTTON_NAME = Some raw_name
    ∧ device !! ATTR_NAME = Some (PStr device_name)
    ∧ Init._area_and_name_from_name device_name = Ok (area, rest)
    ∧ parent_device !! ATTR_CONTROL_STATION_NAME = Some (PStr station_name)
    ∧ Init._area_and_name_from_name station_name = Ok (parent_area, parent_name)
    ∧ parent_device !! ATTR_DEVICE_ID = Some parent_id
    ∧ Button.display_name entity
      = area +:+ " " +:+ py_str (Button.rename_button raw_name)
    ∧ Button._device entity = device
    ∧ di_name (Button._attr_device_info entity)
      = parent_area +:+ " " +:+ parent_name
    ∧ di_identifiers (Button._attr_device_info entity) = (DOMAIN, parent_id).
Proof.
  unfold Button.LutronCasetaButton__init__. intros H.
  bind_as H did Hdid. bind_as H raw Hraw. bind_as H searched Hsearched.
  bind_as H dn0 Hdn0. bind_as H dn Hdn. bind_as H parsed Hparsed.
  destruct parsed as [area rest].
  bind_as H cs0 Hcs0. bind_as H cs Hcs. bind_as H pparsed Hpparsed.
  destruct pparsed as [parea pname].
  bind_as H pid Hpid. bind_as H model Hmodel. injection H as <-.
  apply getitem_ok in Hraw, Hdn0, Hcs0, Hpid.
  apply as_str_ok in Hdn as ->. apply as_str_ok in Hcs as ->.
  exists raw, dn, area, rest, cs, parea, pname, pid.
  repeat (split; [done|]). done.
Qed.
End event_facts.

Ltac event_lookup :=
  unfold ATTR_SERIAL, ATTR_TYPE, ATTR_BUTTON_NUMBER, ATTR_BUTTON_NAME,
    ATTR_LEAP_BUTTON_NUMBER, ATTR_DEVICE_NAME, ATTR_DEVICE_ID, ATTR_AREA_NAME,
    ATTR_ACTION, ATTR_ENTITY_ID;
  repeat first [ rewrite lookup_insert_eq
               | rewrite lookup_insert_ne by discriminate ].

(** X4.  A button event is fired only for a button id whose dict is known
    and not empty.  The fired event says pressed exactly when the event
    type equals BUTTON_STATUS_PRESSED and released otherwise, and it
    carries the dict's button_number as LEAP button number. *)
Theorem button_event_action
    (to_lip : gmap string (gmap string Z))
    (from_leap : gmap string (gmap Z string))
    (model_to_type : pyval → pyval → result string) (PRESSED : pyval)
    (get_device : string * pyval → option string)
    (get_entity_id : Z → option string)
    (buttons : list (Z * pydict)) (groups : gmap pyval pydict)
    (button_id : Z) (event_type : pyval) :
  let fired := Init._async_button_event to_lip from_leap model_to_type PRESSED
                 get_device get_entity_id buttons groups button_id event_type in
  (assoc_get buttons button_id = None ∨ assoc_get buttons button_id = Some ∅ →
   fired = Ok None)
  ∧ (∀ ev, fired = Ok (Some ev) →
       ∃ device,
         assoc_get buttons button_id = Some device ∧ device ≠ ∅
         ∧ ev !! "leap_button_number" = device !! "button_number"
         ∧ (event_type = PRESSED → ev !! "action" = Some (PStr "pressed"))
         ∧ (event_type ≠ PRESSED → ev !! "action" = Some (PStr "released"))).
Proof.
  intros fired. subst fired. split.
  - unfold Init._async_button_event. intros [->| ->]; [done|].
    by rewrite bool_decide_eq_true_2.
  - intros ev Hev.
    apply button_event_inv in Hev
      as (device & type & type_ & leap & lip & hid & area & name & bname & rid
          & Hget & Hne & Htype & Hleap & _ & _ & _ & ->).
    exists device. split; [done|]. split; [done|].
    split; [rewrite Hleap; by event_lookup|].
    split; intros Het; event_lookup.
    + by rewrite bool_decide_eq_true_2.
    + by rewrite bool_decide_eq_false_2.
Qed.

(** X5.  The serial carried by a fired event is the identifier under which
    the registration loop registers the same button dict, and the event's
    device_id is the id of the registry entry found under that identifier. *)
Theorem button_event_serial_is_registered_identifier
    (to_lip : gmap string (gmap string Z))
    (from_leap : gmap string (gmap Z string))
    (model_to_type : pyval → pyval → result string) (PRESSED : pyval)
    (get_device : string * pyval → option string)
    (get_entity_id : Z → option string)
    (buttons : list (Z * pydict)) (groups : gmap pyval pydict)
    (button_id : Z) (event_type : pyval) (ev device : pydict)
    (config_entry_id : string) (bridge_device : pydict)
    (device_args : device_info) :
  Init._async_button_event to_lip from_leap model_to_type PRESSED
    get_device get_entity_id buttons groups button_id event_type
  = Ok (Some ev) →
  assoc_get buttons button_id = Some device →
  Init.button_device_args config_entry_id bridge_device groups device
  = Ok device_args →
  ∃ identifier,
    di_identifiers device_args = (DOMAIN, identifier)
    ∧ ev !! "serial" = Some identifier
    ∧ ev !! "device_id" = PStr <$> get_device (DOMAIN, identifier).
Proof.
  intros Hev Hdevice Hargs.
  apply button_event_inv in Hev
    as (device' & type & type_ & leap & lip & hid & area & name & bname & rid
        & Hget & Hne & Htype & Hleap & _ & Hbranch & Hreg & ->).
  assert (device' = device) as -> by congruence.
  apply button_device_args_sound in Hargs as [_ (type' & Htype' & Hid)].
  assert (type' = type) as -> by congruence.
  exists hid. rewrite Hreg. split; [|split; by event_lookup].
  destruct (in_QSX_KEYPADS type).
  - destruct Hbranch as (bg & parent & cs & raw & Hbg & Hparent & Hhid & _).
    destruct Hid as (bg' & parent' & pid & Hbg' & Hparent' & Hpid & ->).
    congruence.
  - destruct Hbranch as (dn & Hserial & _).
    destruct Hid as (serial & Hserial' & ->).
    unfold ATTR_SERIAL in Hserial'. congruence.
Qed.

Lemma button_event_serial_is_registered_identifier_witness :
  let device : pydict :=
    {[ "serial" := PInt 5678; "type" := PStr "Pico3ButtonRaiseLower_";
       "name" := PStr "Den_Pico"; "model" := PStr "PJ2-3BRL";
       "button_number" := PInt 2 ]} in
  let fired :=
    Init._async_button_event ∅ ∅ (λ _ type, Ok (py_str type)) (PStr "Press")
      (λ _, Some "dr1"%string) (λ _, None) [(101, device)] ∅ 101 (PStr "Press") in
  ∃ ev device_args identifier,
    fired = Ok (Some ev)
    ∧ Init.button_device_args "entry" {[ "serial" := PInt 1234 ]} ∅ device
      = Ok device_args
    ∧ di_identifiers device_args = (DOMAIN, identifier)
    ∧ ev !! "serial" = Some identifier
    ∧ ev !! "device_id" = PStr <$> Some "dr1"%string.
Proof.
  intros device fired.
  assert (∃ ev, fired = Ok (Some ev)) as [ev Hev]
    by (vm_compute; eexists; reflexivity).
  assert (∃ device_args,
            Init.button_device_args "entry" {[ "serial" := PInt 1234 ]} ∅ device
            = Ok device_args) as [device_args Hargs]
    by (vm_compute; eexists; reflexivity).
  destruct (button_event_serial_is_registered_identifier ∅ ∅
              (λ _ type, Ok (py_str type)) (PStr "Press")
              (λ _, Some "dr1"%string) (λ _, None) [(101, device)] ∅ 101
              (PStr "Press") ev device "entry" {[ "serial" := PInt 1234 ]}
              device_args Hev eq_refl Hargs)
    as (identifier & Hid & Hserial & Hdevice_id).
  exists ev, device_args, identifier. repeat split; assumption.
Defined.

(** X6.  For a keypad button, the fired event and the button entity built
    from the same dicts agree: the event's button_name is the label in the
    entity's display name (Lower and Raise included), its area_name and
    device_name make up the name of the entity's device, and its serial is
    that device's identifier. *)
Theorem keypad_event_matches_button_entity
    (to_lip : gmap string (gmap string Z))
    (from_leap : gmap string (gmap Z string))
    (model_to_type : pyval → pyval → result string) (PRESSED : pyval)
    (get_device : string * pyval → option string)
    (get_entity_id : Z → option string)
    (buttons : list (Z * pydict)) (groups : gmap pyval pydict)
    (button_id : Z) (event_type : pyval) (ev device : pydict)
    (type button_group : pyval) (bridge_device parent_device : pydict)
    (entity : Button.LutronCasetaButton) :
  Init._async_button_event to_lip from_leap model_to_type PRESSED
    get_device get_entity_id buttons groups button_id event_type
  = Ok (Some ev) →
  assoc_get buttons button_id = Some device →
  device !! "type" = Some type → in_QSX_KEYPADS type = true →
  device !! "button_group" = Some button_group →
  groups !! button_group = Some parent_device →
  Button.LutronCasetaButton__init__ device bridge_device parent_device
  = Ok entity →
  ∃ label area area_name device_name,
    ev !! "button_name" = Some label
    ∧ Button.display_name entity = area +:+ " " +:+ py_str label
    ∧ ev !! "area_name" = Some (PStr area_name)
    ∧ ev !! "device_name" = Some (PStr device_name)
    ∧ di_name (Button._attr_device_info entity)
      = area_name +:+ " " +:+ device_name
    ∧ ev !! "serial" = Some (di_identifiers (Button._attr_device_info entity)).2.
Proof.
  intros Hev Hdevice Htype Hkeypad Hgroup Hparent Hentity.
  apply button_event_inv in Hev
    as (device' & type' & type_ & leap & lip & hid & area_ev & name_ev & bname
        & rid & Hget & Hne & Htype' & Hleap & _ & Hbranch & Hreg & ->).
  assert (device' = device) as -> by congruence.
  assert (type' = type) as -> by congruence.
  rewrite Hkeypad in Hbranch.
  destruct Hbranch as (bg & parent & cs & raw & Hbg & Hpar & Hhid & Hcs & Hparse
                       & Hraw & ->).
  unfold ATTR_BUTTON_GROUP in Hbg.
  assert (bg = button_group) as -> by congruence.
  assert (parent = parent_device) as -> by congruence.
  apply button_init_inv in Hentity
    as (raw' & dn & area & rest & cs' & parea & pname & pid & Hraw' & Hdn
        & Hdparse & Hcs' & Hpparse & Hpid & Hdisplay & _ & Hname & Hident).
  assert (raw' = raw) as -> by congruence.
  assert (cs' = cs) as -> by congruence.
  assert (parea = area_ev ∧ pname = name_ev) as [-> ->] by (split; congruence).
  assert (pid = hid) as -> by congruence.
  exists (Button.rename_button raw), area, area_ev, name_ev.
  rewrite Hident.
  repeat split; try done; by event_lookup.
Qed.

Lemma keypad_event_matches_button_entity_witness :
  let device : pydict :=
    {[ "device_id" := PStr "151"; "button_name" := PStr "Button 19";
       "name" := PStr "Hall_Keypad"; "model" := PStr "HQWT-U-PRW";
       "type" := PStr "SeeTouchHybridKeypad"; "button_group" := PStr "42";
       "button_number" := PInt 19 ]} in
  let parent_device : pydict :=
    {[ "device_id" := PStr "7"; "control_station_name" := PStr "Hall_Entry" ]} in
  let groups : gmap pyval pydict := {[ PStr "42" := parent_device ]} in
  ∃ ev entity,
    Init._async_button_event ∅ ∅ (λ _ type, Ok (py_str type)) (PStr "Press")
      (λ _, Some "dr1"%string) (λ _, None) [(151, device)] groups 151
      (PStr "Release")
    = Ok (Some ev)
    ∧ Button.LutronCasetaButton__init__ device ∅ parent_device = Ok entity
    ∧ ∃ label area area_name device_name,
        ev !! "button_name" = Some label
        ∧ Button.display_name entity = area +:+ " " +:+ py_str label
        ∧ ev !! "area_name" = Some (PStr area_name)
        ∧ ev !! "device_name" = Some (PStr device_name)
        ∧ di_name (Button._attr_device_info entity)
          = area_name +:+ " " +:+ device_name
        ∧ ev !! "serial"
          = Some (di_identifiers (Button._attr_device_info entity)).2.
Proof.
  intros device parent_device groups.
  assert (∃ ev,
            Init._async_button_event ∅ ∅ (λ _ type, Ok (py_str type))
              (PStr "Press") (λ _, Some "dr1"%string) (λ _, None)
              [(151, device)] groups 151 (PStr "Release")
            = Ok (Some ev)) as [ev Hev]
    by (vm_compute; eexists; reflexivity).
  assert (∃ entity,
            Button.LutronCasetaButton__init__ device ∅ parent_device = Ok entity)
    as [entity Hentity] by (vm_compute; eexists; reflexivity).
  exists ev, entity. split; [exact Hev|]. split; [exact Hentity|].
  apply (keypad_event_matches_button_entity ∅ ∅ (λ _ type, Ok (py_str type))
           (PStr "Press") (λ _, Some "dr1"%string) (λ _, None)
           [(151, device)] groups 151 (PStr "Release") ev device
           (PStr "SeeTouchHybridKeypad") (PStr "42") ∅ parent_device entity
           Hev eq_refl).
  - vm_compute. reflexivity.
  - vm_compute. reflexivity.
  - vm_compute. reflexivity.
  - vm_compute. reflexivity.
  - exact Hentity.
Defined.

(** ** Logbook entries *)

Section logbook_facts.
Variable from_leap : gmap string (gmap Z string).

Lemma describe_keypad data type leap_button_number area_name device_name action :
  data !! "type" = Some type → in_QSX_KEYPADS type = true →
  data !! "leap_button_number" = Some leap_button_number →
  data !! "area_name" = Some area_name →
  data !! "device_name" = Some device_name →
  data !! "action" = Some action →
  Logbook.async_describe_button_event from_leap data
  = Ok (py_str area_name +:+ " " +:+ py_str device_name,
        py_str action +:+ " "
        +:+ py_str (default (PStr ("button " +:+ py_str leap_button_number))
                      (data !! "button_name"))).
Proof.
  intros Htype Hkeypad Hleap Harea Hname Haction.
  unfold Logbook.async_describe_button_event, getitem.
  unfold ATTR_TYPE, ATTR_LEAP_BUTTON_NUMBER, ATTR_BUTTON_NAME, ATTR_AREA_NAME,
    ATTR_DEVICE_NAME, ATTR_ACTION.
  rewrite Htype. simpl. rewrite Hkeypad, Hleap. simpl.
  by rewrite Harea, Hname, Haction.
Qed.
End logbook_facts.

(** X7.  Describing a keypad event reads leap_button_number before it
    looks for button_name: an event of a keypad type without
    leap_button_number raises KeyError even when it has a button_name; with
    leap_button_number the description is the button_name when the event
    has one and "button N" otherwise. *)
Theorem logbook_keypad_description
    (from_leap : gmap string (gmap Z string)) (data : pydict)
    (type area_name device_name action : pyval) :
  data !! "type" = Some type → in_QSX_KEYPADS type = true →
  data !! "area_name" = Some area_name →
  data !! "device_name" = Some device_name →
  data !! "action" = Some action →
  (data !! "leap_button_number" = None →
   Logbook.async_describe_button_event from_leap data = Raise KeyError)
  ∧ (∀ n button_name,
       data !! "leap_button_number" = Some n →
       data !! "button_name" = Some button_name →
       Logbook.async_describe_button_event from_leap data
       = Ok (py_str area_name +:+ " " +:+ py_str device_name,
             py_str action +:+ " " +:+ py_str button_name))
  ∧ (∀ n,
       data !! "leap_button_number" = Some n →
       data !! "button_name" = None →
       Logbook.async_describe_button_event from_leap data
       = Ok (py_str area_name +:+ " " +:+ py_str device_name,
             py_str action +:+ " button " +:+ py_str n)).
Proof.
  intros Htype Hkeypad Harea Hname Haction. split; [|split].
  - intros Hleap.
    unfold Logbook.async_describe_button_event, getitem.
    unfold ATTR_TYPE, ATTR_LEAP_BUTTON_NUMBER.
    rewrite Htype. simpl. by rewrite Hkeypad, Hleap.
  - intros n button_name Hleap Hbutton.
    rewrite (describe_keypad from_leap data type n area_name device_name action)
      by done.
    by rewrite Hbutton.
  - intros n Hleap Hbutton.
    rewrite (describe_keypad from_leap data type n area_name device_name action)
      by done.
    rewrite Hbutton. reflexivity.
Qed.

Lemma logbook_keypad_description_witness :
  let data : pydict :=
    {[ "type" := PStr "HomeownerKeypad"; "button_name" := PStr "Lower";
       "area_name" := PStr "Hall"; "device_name" := PStr "Entry";
       "action" := PStr "pressed" ]} in
  Logbook.async_describe_button_event ∅ data = Raise KeyError.
Proof.
  intros data.
  apply (proj1 (logbook_keypad_description ∅ data (PStr "HomeownerKeypad")
                  (PStr "Hall") (PStr "Entry") (PStr "pressed")
                  eq_refl eq_refl eq_refl eq_refl eq_refl)).
  reflexivity.
Defined.

Section event_logbook_facts.
Variable to_lip : gmap string (gmap string Z).
Variable from_leap : gmap string (gmap Z string).

Lemma lip_button_found type_ leap_button_number lip_button :
  Init.lip_button_for to_lip from_leap type_ leap_button_number
  = Ok (Some lip_button) →
  ∃ n num_to_name name,
    leap_button_number = PInt n
    ∧ from_leap !! type_ = Some num_to_name
    ∧ num_to_name !! n = Some name.
Proof.
  unfold Init.lip_button_for, Init.async_get_lip_button.
  destruct leap_button_number as [|n|t].
  - intros H. by destruct (to_lip !! type_), (from_leap !! type_).
  - destruct (to_lip !! type_) as [nums|]; [|discriminate].
    destruct (from_leap !! type_) as [names|]; [|discriminate].
    intros H. bind_as H name Hname. apply getitem_ok in Hname.
    by exists n, names, name.
  - intros H. by destruct (to_lip !! type_), (from_leap !! type_).
Qed.
End event_logbook_facts.

(** X8.  The logbook can always describe a fired event whose type is a
    keypad type: the entry's name is the event's area and device name, and
    its message is the action followed by the event's button name. *)
Theorem logbook_describes_keypad_event
    (to_lip : gmap string (gmap string Z))
    (from_leap table : gmap string (gmap Z string))
    (model_to_type : pyval → pyval → result string) (PRESSED : pyval)
    (get_device : string * pyval → option string)
    (get_entity_id : Z → option string)
    (buttons : list (Z * pydict)) (groups : gmap pyval pydict)
    (button_id : Z) (event_type : pyval) (ev : pydict) (type_ : pyval) :
  Init._async_button_event to_lip from_leap model_to_type PRESSED
    get_device get_entity_id buttons groups button_id event_type
  = Ok (Some ev) →
  ev !! "type" = Some type_ → in_QSX_KEYPADS type_ = true →
  ∃ area name action button_name,
    ev !! "area_name" = Some (PStr area)
    ∧ ev !! "device_name" = Some (PStr name)
    ∧ ev !! "action" = Some (PStr action)
    ∧ ev !! "button_name" = Some button_name
    ∧ (action = "pressed"%string ∨ action = "released"%string)
    ∧ Logbook.async_describe_button_event table ev
      = Ok (area +:+ " " +:+ name, action +:+ " " +:+ py_str button_name).
Proof.
  intros Hev Htype Hkeypad.
  apply button_event_inv in Hev
    as (device & type & type' & leap & lip & hid & area & name & bname & rid
        & _ & _ & _ & _ & _ & _ & _ & ->).
  set (action := if bool_decide (event_type = PRESSED)
                 then ACTION_PRESSED else ACTION_RELEASED).
  exists area, name, action, bname.
  split; [by event_lookup|]. split; [by event_lookup|].
  split; [by event_lookup|]. split; [by event_lookup|].
  split; [subst action; case_bool_decide; [by left | by right]|].
  rewrite (describe_keypad table _ type_ leap (PStr area) (PStr name)
             (PStr action)); try done; by event_lookup.
Qed.

Lemma logbook_describes_keypad_event_witness :
  let device : pydict :=
    {[ "device_id" := PStr "151"; "button_name" := PStr "Button 19";
       "name" := PStr "Hall_Keypad"; "model" := PStr "HQWT-U-PRW";
       "type" := PStr "SeeTouchHybridKeypad"; "button_group" := PStr "42";
       "button_number" := PInt 19 ]} in
  let parent_device : pydict :=
    {[ "device_id" := PStr "7"; "control_station_name" := PStr "Hall_Entry" ]} in
  let groups : gmap pyval pydict := {[ PStr "42" := parent_device ]} in
  ∃ ev,
    Init._async_button_event ∅ ∅ (λ _ type, Ok (py_str type)) (PStr "Press")
      (λ _, Some "dr1"%string) (λ _, None) [(151, device)] groups 151
      (PStr "Release")
    = Ok (Some ev)
    ∧ ∃ area name action button_name,
        ev !! "area_name" = Some (PStr area)
        ∧ ev !! "device_name" = Some (PStr name)
        ∧ ev !! "action" = Some (PStr action)
        ∧ ev !! "button_name" = Some button_name
        ∧ (action = "pressed"%string ∨ action = "released"%string)
        ∧ Logbook.async_describe_button_event ∅ ev
          = Ok (area +:+ " " +:+ name, action +:+ " " +:+ py_str button_name).
Proof.
  intros device parent_device groups.
  eexists. split; [vm_compute; reflexivity|].
  eapply (logbook_describes_keypad_event ∅ ∅ ∅ (λ _ type, Ok (py_str type))
            (PStr "Press") (λ _, Some "dr1"%string) (λ _, None)
            [(151, device)] groups 151 (PStr "Release")).
  - vm_compute. reflexivity.
  - vm_compute. reflexivity.
  - vm_compute. reflexivity.
Defined.

(** X9.  For a fired event of any other type that carries a LIP button
    number, the LEAP table has the entry the logbook needs: describing the
    event with that table succeeds, and the message is the action followed
    by the LEAP table's name of the button. *)
Theorem logbook_describes_remote_event
    (to_lip : gmap string (gmap string Z))
    (from_leap : gmap string (gmap Z string))
    (model_to_type : pyval → pyval → result string) (PRESSED : pyval)
    (get_device : string * pyval → option string)
    (get_entity_id : Z → option string)
    (buttons : list (Z * pydict)) (groups : gmap pyval pydict)
    (button_id : Z) (event_type : pyval) (ev : pydict)
    (type_ : pyval) (lip_button : Z) :
  Init._async_button_event to_lip from_leap model_to_type PRESSED
    get_device get_entity_id buttons groups button_id event_type
  = Ok (Some ev) →
  ev !! "type" = Some type_ → in_QSX_KEYPADS type_ = false →
  ev !! "button_number" = Some (PInt lip_button) →
  ∃ area name action t n num_to_name subtype,
    ev !! "area_name" = Some (PStr area)
    ∧ ev !! "device_name" = Some (PStr name)
    ∧ ev !! "action" = Some (PStr action)
    ∧ type_ = PStr t
    ∧ ev !! "leap_button_number" = Some (PInt n)
    ∧ from_leap !! t = Some num_to_name
    ∧ num_to_name !! n = Some subtype
    ∧ Logbook.async_describe_button_event from_leap ev
      = Ok (area +:+ " " +:+ name, action +:+ " " +:+ subtype).
Proof.
  intros Hev Htype Hkeypad Hlip.
  apply button_event_inv in Hev
    as (device & type & type' & leap & lip & hid & area & name & bname & rid
        & _ & _ & _ & _ & Hfound & _ & _ & ->).
  revert Htype Hlip. event_lookup. intros [= <-] Hlip.
  destruct lip as [lip|]; [|discriminate].
  apply lip_button_found in Hfound as (n & names & subtype & -> & Hnames & Hsub).
  set (action := if bool_decide (event_type = PRESSED)
                 then ACTION_PRESSED else ACTION_RELEASED).
  exists area, name, action, type', n, names, subtype.
  repeat (split; [done|]).
  unfold Logbook.async_describe_button_event, getitem.
  event_lookup. cbn [rbind]. rewrite Hkeypad. event_lookup. cbn [rbind].
  rewrite Hnames. cbn [rbind]. rewrite Hsub. cbn [rbind]. by event_lookup.
Qed.

Lemma logbook_describes_remote_event_witness :
  let device : pydict :=
    {[ "serial" := PInt 5678; "type" := PStr "Pico2Button";
       "name" := PStr "Den_Pico"; "model" := PStr "PJ2-2B";
       "button_number" := PInt 1 ]} in
  let to_lip : gmap string (gmap string Z) :=
    {[ "Pico2Button" := {[ "on" := 2; "off" := 4 ]} ]} in
  let from_leap : gmap string (gmap Z string) :=
    {[ "Pico2Button" := {[ 0 := "on"%string; 1 := "off"%string ]} ]} in
  ∃ ev,
    Init._async_button_event to_lip from_leap (λ _ type, Ok (py_str type))
      (PStr "Press") (λ _, Some "dr1"%string) (λ _, None) [(101, device)] ∅
      101 (PStr "Press")
    = Ok (Some ev)
    ∧ ∃ area name action t n num_to_name subtype,
        ev !! "area_name" = Some (PStr area)
        ∧ ev !! "device_name" = Some (PStr name)
        ∧ ev !! "action" = Some (PStr action)
        ∧ PStr "Pico2Button" = PStr t
        ∧ ev !! "leap_button_number" = Some (PInt n)
        ∧ from_leap !! t = Some num_to_name
        ∧ num_to_name !! n = Some subtype
        ∧ Logbook.async_describe_button_event from_leap ev
          = Ok (area +:+ " " +:+ name, action +:+ " " +:+ subtype).
Proof.
  intros device to_lip from_leap.
  eexists. split; [vm_compute; reflexivity|].
  eapply (logbook_describes_remote_event to_lip from_leap
            (λ _ type, Ok (py_str type)) (PStr "Press")
            (λ _, Some "dr1"%string) (λ _, None) [(101, device)] ∅ 101
            (PStr "Press") _ (PStr "Pico2Button") 4).
  - vm_compute. reflexivity.
  - vm_compute. reflexivity.
  - vm_compute. reflexivity.
  - vm_compute. reflexivity.
Defined.

(** ** Removing a device entry *)

Section rmap_facts.
Context {A B : Type} (f : A → result B).

Lemma rmap_ok l bs :
  rmap f l = Ok bs ↔ Forall2 (λ a b, f a = Ok b) l bs.
Proof.
  revert bs. induction l as [|a l IH]; intros bs; simpl.
  - split; [intros [= <-]; constructor | by intros ->%Forall2_nil_inv_l].
  - split.
    + intros H. bind_as H b Hb. bind_as H rest Hrest. injection H as <-.
      apply Forall2_cons. split; [done | by apply IH].
    + intros (b & rest & Hb & Hrest & ->)%Forall2_cons_inv_l.
      rewrite Hb. simpl. apply IH in Hrest. by rewrite Hrest.
Qed.

Lemma rmap_total l :
  Forall (λ a, ∃ b, f a = Ok b) l → ∃ bs, rmap f l = Ok bs.
Proof.
  induction 1 as [|a l [b Hb] _ [bs Hbs]]; simpl; [eauto|].
  rewrite Hb. simpl. rewrite Hbs. simpl. eauto.
Qed.

Lemma rmap_raise before a after e :
  Forall (λ a, ∃ b, f a = Ok b) before → f a = Raise e →
  rmap f (before ++ a :: after) = Raise e.
Proof.
  induction 1 as [|x l [b Hb] _ IH]; intros Ha; simpl.
  - by rewrite Ha.
  - rewrite Hb. simpl. by rewrite IH.
Qed.

Lemma rmap_elem l bs b :
  rmap f l = Ok bs → b ∈ bs ↔ ∃ a, a ∈ l ∧ f a = Ok b.
Proof.
  intros H%rmap_ok. induction H as [|a b' l bs' Hab _ IH].
  - split; [intros []%elem_of_nil | intros (a & []%elem_of_nil & _)].
  - rewrite elem_of_cons, IH. split.
    + intros [->|(x & Hx & Hfx)].
      * exists a. split; [apply elem_of_cons; by left | done].
      * exists x. split; [apply elem_of_cons; by right | done].
    + intros (x & [->|Hx]%elem_of_cons & Hfx).
      * left. congruence.
      * right. eauto.
Qed.
End rmap_facts.

Section remove_facts.
Variable serial_to_unique_id : pyval → result string.
Variable devices : list (string * pydict).
Variable buttons : list (Z * pydict).
Variable occupancy_groups : list (pyval * pydict).

(** The identifiers the integration still answers for. *)
Lemma all_identifiers_elem bridge_device bridge_serial bridge_unique_id known
    identifier :
  assoc_get devices BRIDGE_DEVICE_ID = Some bridge_device →
  bridge_device !! "serial" = Some bridge_serial →
  serial_to_unique_id bridge_serial = Ok bridge_unique_id →
  Init.all_identifiers serial_to_unique_id devices buttons occupancy_groups
  = Ok known →
  identifier ∈ known ↔
    identifier = (DOMAIN, PStr bridge_unique_id)
    ∨ (∃ group group_id,
         group ∈ occupancy_groups.*2
         ∧ group !! "occupancy_group_id" = Some group_id
         ∧ identifier
           = (DOMAIN, PStr ("occupancygroup_" +:+ bridge_unique_id +:+ "_"
                            +:+ py_str group_id)))
    ∨ (∃ device serial,
         device ∈ devices.*2 ++ buttons.*2
         ∧ device !! "serial" = Some serial
         ∧ identifier = (DOMAIN, serial)).
Proof.
  intros Hbridge Hserial Hunique. unfold Init.all_identifiers.
  rewrite Hbridge. unfold getitem at 1. rewrite Hserial. simpl.
  rewrite Hunique. simpl. intros H.
  bind_as H groups Hgroups. bind_as H serials Hserials. injection H as <-.
  rewrite elem_of_cons, elem_of_app.
  rewrite (rmap_elem _ _ _ identifier Hgroups).
  rewrite (rmap_elem _ _ _ identifier Hserials).
  split.
  - intros [->|[(g & Hg & Hfg)|(d & Hd & Hfd)]]; [by left | |].
    + right. left. bind_as Hfg gid Hgid. apply getitem_ok in Hgid.
      injection Hfg as <-. eauto.
    + right. right. bind_as Hfd v Hv. apply getitem_ok in Hv.
      injection Hfd as <-. eauto.
  - intros [->|[(g & gid & Hg & Hgid & ->)|(d & v & Hd & Hv & ->)]]; [by left | |].
    + right. left. exists g. split; [done|].
      unfold getitem. by rewrite Hgid.
    + right. right. exists d. split; [done|].
      unfold getitem. by rewrite Hv.
Qed.
End remove_facts.

(** X10.  async_remove_config_entry_device refuses (returns False)
    exactly when one of the entry's identifiers is the bridge's unique id,
    the unique id of a current occupancy group, or the serial of a current
    device or button; it allows the removal of any other entry. *)
Theorem remove_device_only_when_unknown
    (serial_to_unique_id : pyval → result string)
    (devices : list (string * pydict)) (buttons : list (Z * pydict))
    (occupancy_groups : list (pyval * pydict))
    (identifiers : list (string * pyval))
    (bridge_device : pydict) (bridge_serial : pyval)
    (bridge_unique_id : string) (allowed : bool) :
  assoc_get devices BRIDGE_DEVICE_ID = Some bridge_device →
  bridge_device !! "serial" = Some bridge_serial →
  serial_to_unique_id bridge_serial = Ok bridge_unique_id →
  Init.async_remove_config_entry_device serial_to_unique_id devices buttons
    occupancy_groups identifiers = Ok allowed →
  allowed = false ↔
    ∃ identifier,
      identifier ∈ identifiers
      ∧ (identifier = (DOMAIN, PStr bridge_unique_id)
         ∨ (∃ group group_id,
              group ∈ occupancy_groups.*2
              ∧ group !! "occupancy_group_id" = Some group_id
              ∧ identifier
                = (DOMAIN, PStr ("occupancygroup_" +:+ bridge_unique_id +:+ "_"
                                 +:+ py_str group_id)))
         ∨ (∃ device serial,
              device ∈ devices.*2 ++ buttons.*2
              ∧ device !! "serial" = Some serial
              ∧ identifier = (DOMAIN, serial))).
Proof.
  intros Hbridge Hserial Hunique.
  unfold Init.async_remove_config_entry_device. intros H.
  bind_as H known Hknown. injection H as <-.
  rewrite negb_false_iff, existsb_exists.
  split.
  - intros (i & Hi%list_elem_of_In & Hin%bool_decide_eq_true).
    exists i. split; [done|].
    by eapply all_identifiers_elem.
  - intros (i & Hi & Hcase). exists i. split; [by apply list_elem_of_In|].
    apply bool_decide_eq_true.
    by eapply all_identifiers_elem.
Qed.

Lemma remove_device_only_when_unknown_witness :
  let bridge : pydict := {[ "serial" := PInt 1234 ]} in
  let devices := [("1"%string, bridge)] in
  let buttons := [(101, ({[ "serial" := PInt 5678 ]} : pydict))] in
  false = false ↔
    ∃ identifier,
      identifier ∈ [(DOMAIN, PInt 5678)]
      ∧ (identifier = (DOMAIN, PStr "000004d2")
         ∨ (∃ group group_id,
              group ∈ ([] : list (pyval * pydict)).*2
              ∧ group !! "occupancy_group_id" = Some group_id
              ∧ identifier
                = (DOMAIN, PStr ("occupancygroup_" +:+ "000004d2" +:+ "_"
                                 +:+ py_str group_id)))
         ∨ (∃ device serial,
              device ∈ devices.*2 ++ buttons.*2
              ∧ device !! "serial" = Some serial
              ∧ identifier = (DOMAIN, serial))).
Proof.
  intros bridge devices buttons.
  apply (remove_device_only_when_unknown (λ _, Ok "000004d2"%string)
           devices buttons [] [(DOMAIN, PInt 5678)] bridge (PInt 1234)
           "000004d2" false).
  - reflexivity.
  - vm_compute. reflexivity.
  - reflexivity.
  - vm_compute. reflexivity.
Defined.

(** X11.  async_remove_config_entry_device needs a serial in every device
    and button dict: when the bridge and the occupancy groups are in order
    but some device or button dict has no serial entry, it raises
    KeyError. *)
Theorem remove_device_needs_serials
    (serial_to_unique_id : pyval → result string)
    (devices : list (string * pydict)) (buttons : list (Z * pydict))
    (occupancy_groups : list (pyval * pydict))
    (identifiers : list (string * pyval))
    (bridge_device : pydict) (bridge_serial : pyval)
    (bridge_unique_id : string) (culprit : pydict) :
  assoc_get devices BRIDGE_DEVICE_ID = Some bridge_device →
  bridge_device !! "serial" = Some bridge_serial →
  serial_to_unique_id bridge_serial = Ok bridge_unique_id →
  Forall (λ group : pydict, is_Some (group !! "occupancy_group_id"))
    (occupancy_groups.*2) →
  culprit ∈ devices.*2 ++ buttons.*2 → culprit !! "serial" = None →
  Init.async_remove_config_entry_device serial_to_unique_id devices buttons
    occupancy_groups identifiers = Raise KeyError.
Proof.
  intros Hbridge Hserial Hunique Hgroups Hin Hnone.
  unfold Init.async_remove_config_entry_device, Init.all_identifiers.
  rewrite Hbridge. unfold getitem at 1. rewrite Hserial. simpl.
  rewrite Hunique. simpl.
  destruct (rmap_total
              (λ device : pydict,
                 group_id <- getitem device "occupancy_group_id" ;;
                 Ok (DOMAIN,
                     PStr ("occupancygroup_" +:+ bridge_unique_id +:+ "_"
                           +:+ py_str group_id)))
              (occupancy_groups.*2)) as [groups ->].
  { eapply Forall_impl; [exact Hgroups|].
    intros g [gid Hgid]. unfold getitem. rewrite Hgid. simpl. eauto. }
  simpl.
  set (f := λ device : pydict,
              serial <- getitem device "serial" ;; Ok (DOMAIN, serial)).
  assert (∃ e, rmap f (devices.*2 ++ buttons.*2) = Raise e ∧ e = KeyError)
    as (e & -> & ->); [|done].
  revert Hin. generalize (devices.*2 ++ buttons.*2). intros l.
  induction l as [|d l IH]; [intros []%elem_of_nil|].
  intros [<-|Hin]%elem_of_cons; simpl.
  - exists KeyError. subst f. unfold getitem. by rewrite Hnone.
  - destruct (f d) as [b|e] eqn:Hfd; simpl.
    + destruct (IH Hin) as (e & -> & ->). by exists KeyError.
    + exists e. split; [done|]. subst f. simpl in Hfd.
      unfold getitem in Hfd.
      destruct (d !! "serial"); simpl in Hfd; congruence.
Qed.

Lemma remove_device_needs_serials_witness :
  let bridge : pydict := {[ "serial" := PInt 1234 ]} in
  let keypad_button : pydict := {[ "button_group" := PStr "42" ]} in
  Init.async_remove_config_entry_device (λ _, Ok "000004d2"%string)
    [("1"%string, bridge)] [(151, keypad_button)] [] []
  = Raise KeyError.
Proof.
  intros bridge keypad_button.
  apply (remove_device_needs_serials (λ _, Ok "000004d2"%string)
           [("1"%string, bridge)] [(151, keypad_button)] [] [] bridge
           (PInt 1234) "000004d2" keypad_button).
  - reflexivity.
  - vm_compute. reflexivity.
  - reflexivity.
  - constructor.
  - apply elem_of_cons. right. apply elem_of_cons. by left.
  - vm_compute. reflexivity.
Defined.

(** ** Occupancy sensors *)

Section occupancy_facts.
Variable serial_to_unique_id : pyval → result string.

Lemma occupancy_init_inv device bridge_device sensor :
  BinarySensor.LutronOccupancySensor__init__ serial_to_unique_id device
    bridge_device = Ok sensor →
  ∃ bridge_serial bridge_unique_id group_id device_name area name info,
    is_Some (device !! "serial")
    ∧ bridge_device !! "serial" = Some bridge_serial
    ∧ serial_to_unique_id bridge_serial = Ok bridge_unique_id
    ∧ device !! "occupancy_group_id" = Some group_id
    ∧ device !! "name" = Some (PStr device_name)
    ∧ Init._area_and_name_from_name device_name = Ok (area, name)
    ∧ Init._bridge_unique_id (BinarySensor.os_entity sensor)
      = Some bridge_unique_id
    ∧ Init._attr_name (BinarySensor.os_entity sensor) = Some name
    ∧ Init._attr_device_info (BinarySensor.os_entity sensor) = Some info
    ∧ di_name info = area +:+ " " +:+ name
    ∧ di_identifiers info
      = (DOMAIN, PStr ("occupancygroup_" +:+ bridge_unique_id +:+ "_"
                       +:+ py_str group_id)).
Proof.
  unfold BinarySensor.LutronOccupancySensor__init__. intros H.
  bind_as H self Hself. bind_as H dn0 Hdn0. bind_as H dn Hdn.
  bind_as H parsed Hparsed. destruct parsed as [area name].
  bind_as H uid Huid. bind_as H display Hdisplay. bind_as H via Hvia.
  injection H as <-. simpl.
  apply getitem_ok in Hdn0. apply as_str_ok in Hdn as ->.
  unfold BinarySensor.super__init__ in Hself.
  case_bool_decide as Hserial.
  { injection Hself as <-. discriminate Huid. }
  bind_as Hself bs Hbs. bind_as Hself buid Hbuid. bind_as Hself n0 Hn0.
  bind_as Hself n1 Hn1. bind_as Hself parsed' Hparsed'.
  destruct parsed' as [area' name'].
  bind_as Hself serial Hs. bind_as Hself ident Hident.
  bind_as Hself model Hmodel. bind_as Hself via' Hvia'.
  injection Hself as <-.
  apply getitem_ok in Hbs, Hn0. apply as_str_ok in Hn1 as ->.
  assert (n1 = dn) as -> by congruence.
  assert (area' = area ∧ name' = name) as [-> ->] by (split; congruence).
  unfold BinarySensor.occupancy_unique_id in Huid. simpl in Huid.
  bind_as Huid gid Hgid. apply getitem_ok in Hgid. injection Huid as <-.
  simpl in Hdisplay. injection Hdisplay as <-.
  eexists bs, buid, gid, dn, area, name, _.
  split.
  { destruct (device !! "serial") eqn:E; [by eexists | done]. }
  repeat (split; [done|]). done.
Qed.
Lemma occupancy_init_display device bridge_device sensor :
  BinarySensor.LutronOccupancySensor__init__ serial_to_unique_id device
    bridge_device = Ok sensor →
  ∃ info,
    Init._attr_device_info (BinarySensor.os_entity sensor) = Some info
    ∧ Init.display_name (BinarySensor.os_entity sensor) = Some (di_name info).
Proof.
  unfold BinarySensor.LutronOccupancySensor__init__. intros H.
  bind_as H self Hself. bind_as H dn0 Hdn0. bind_as H dn Hdn.
  bind_as H parsed Hparsed. destruct parsed as [area name].
  bind_as H uid Huid. bind_as H display Hdisplay. bind_as H via Hvia.
  injection H as <-. simpl.
  destruct (Init.display_name self) as [d|]; [|discriminate Hdisplay].
  injection Hdisplay as ->. eauto.
Qed.
End occupancy_facts.

(** X12.  An occupancy sensor cannot be built from a group dict that has no
    serial entry: the base class returns before it assigns
    _bridge_unique_id, and the sensor's unique_id then fails with
    AttributeError. *)
Theorem occupancy_sensor_needs_serial
    (serial_to_unique_id : pyval → result string)
    (device bridge_device : pydict) (device_name : string) :
  device !! "serial" = None →
  device !! "name" = Some (PStr device_name) →
  BinarySensor.LutronOccupancySensor__init__ serial_to_unique_id device
    bridge_device = Raise AttributeError.
Proof.
  intros Hserial Hname.
  unfold BinarySensor.LutronOccupancySensor__init__, BinarySensor.super__init__.
  rewrite bool_decide_eq_true_2 by done. simpl.
  unfold getitem. rewrite Hname. simpl.
  by destruct (init_parse_total device_name) as (area & name & ->).
Qed.

Lemma occupancy_sensor_needs_serial_witness :
  let group : pydict :=
    {[ "occupancy_group_id" := PStr "2"; "status" := PStr "Occupied";
       "name" := PStr "Hall_Occupancy" ]} in
  BinarySensor.LutronOccupancySensor__init__ (λ _, Ok "000004d2"%string) group
    {[ "serial" := PInt 1234 ]} = Raise AttributeError.
Proof.
  intros group.
  apply (occupancy_sensor_needs_serial (λ _, Ok "000004d2"%string) group
           {[ "serial" := PInt 1234 ]} "Hall_Occupancy");
    vm_compute; reflexivity.
Defined.

(** X13.  An occupancy sensor that was built keeps the parsed name alone
    in _attr_name, while its display name, which is what its name property
    returns, and the name of its device are the parsed area, a space and
    the parsed name.  The identifier of its device is occupancygroup_, the
    bridge's unique id, an underscore and the group id: an id that the
    unique-id migrator, run for a config entry whose unique id is that
    bridge unique id, leaves alone, with no call to the device registry. *)
Theorem occupancy_sensor_unique_id_is_stable
    (serial_to_unique_id : pyval → result string)
    (async_get_device : list Init.dr_event → string * string → option string)
    (device bridge_device : pydict) (sensor : BinarySensor.LutronOccupancySensor)
    (dev_reg : list Init.dr_event) :
  BinarySensor.LutronOccupancySensor__init__ serial_to_unique_id device
    bridge_device = Ok sensor →
  ∃ bridge_unique_id group_id device_name area name info,
    Init._bridge_unique_id (BinarySensor.os_entity sensor)
    = Some bridge_unique_id
    ∧ device !! "occupancy_group_id" = Some group_id
    ∧ device !! "name" = Some (PStr device_name)
    ∧ Init._area_and_name_from_name device_name = Ok (area, name)
    ∧ Init._attr_name (BinarySensor.os_entity sensor) = Some name
    ∧ Init.display_name (BinarySensor.os_entity sensor)
      = Some (area +:+ " " +:+ name)
    ∧ Init._attr_device_info (BinarySensor.os_entity sensor) = Some info
    ∧ di_name info = area +:+ " " +:+ name
    ∧ di_identifiers info
      = (DOMAIN, PStr ("occupancygroup_" +:+ bridge_unique_id +:+ "_"
                       +:+ py_str group_id))
    ∧ ∀ entry_unique_id,
        entry_unique_id = PStr bridge_unique_id →
        Init._async_migrator async_get_device entry_unique_id dev_reg
          ("occupancygroup_" +:+ bridge_unique_id +:+ "_" +:+ py_str group_id)
        = (dev_reg, Ok None).
Proof.
  intros Hinit.
  destruct (occupancy_init_display _ _ _ _ Hinit) as (info0 & Hinfo0 & Hshown).
  apply occupancy_init_inv in Hinit
    as (bs & buid & gid & dn & area & name & info & _ & _ & _ & Hgid & Hdn
        & Hparse & Hbuid & Hname & Hinfo & Hdi & Hident).
  assert (info0 = info) as -> by congruence.
  exists buid, gid, dn, area, name, info. repeat (split; [done|]).
  split; [by rewrite Hshown, Hdi|]. repeat (split; [done|]).
  intros entry_unique_id ->.
  apply migrator_skips. right. right.
  apply (migrated_has_prefix (PStr buid)).
Qed.

Lemma occupancy_sensor_unique_id_is_stable_witness :
  let group : pydict :=
    {[ "occupancy_group_id" := PStr "2"; "status" := PStr "Occupied";
       "name" := PStr "Hall_Occupancy"; "serial" := PNone;
       "model" := PStr "LRF2"; "type" := PStr "RPSOccupancySensor" ]} in
  ∃ sensor info,
    BinarySensor.LutronOccupancySensor__init__ (λ _, Ok "000004d2"%string)
      group {[ "serial" := PInt 1234 ]} = Ok sensor
    ∧ Init._attr_name (BinarySensor.os_entity sensor) = Some "Occupancy"%string
    ∧ Init.display_name (BinarySensor.os_entity sensor)
      = Some "Hall Occupancy"%string
    ∧ Init._attr_device_info (BinarySensor.os_entity sensor) = Some info
    ∧ di_name info = "Hall Occupancy"%string
    ∧ di_identifiers info = (DOMAIN, PStr "occupancygroup_000004d2_2")
    ∧ Init._async_migrator (λ _ _, None) (PStr "000004d2") []
        "occupancygroup_000004d2_2" = ([], Ok None).
Proof.
  intros group.
  assert (∃ sensor,
            BinarySensor.LutronOccupancySensor__init__
              (λ _, Ok "000004d2"%string) group {[ "serial" := PInt 1234 ]}
            = Ok sensor) as [sensor Hsensor]
    by (vm_compute; eexists; reflexivity).
  destruct (occupancy_sensor_unique_id_is_stable (λ _, Ok "000004d2"%string)
              (λ _ _, None) group {[ "serial" := PInt 1234 ]} sensor []
              Hsensor)
    as (buid & gid & dn & area & name & info & Hbuid & Hgid & Hdn & Hparse
        & Hname & Hshown & Hinfo & Hdi & Hident & Hstable).
  assert (gid = PStr "2") as -> by (vm_compute in Hgid; congruence).
  assert (dn = "Hall_Occupancy"%string) as ->
    by (vm_compute in Hdn; congruence).
  assert (area = "Hall"%string ∧ name = "Occupancy"%string) as [-> ->]
    by (vm_compute in Hparse; split; congruence).
  assert (buid = "000004d2"%string) as ->.
  { revert Hbuid. vm_compute in Hsensor. injection Hsensor as <-.
    simpl. congruence. }
  exists sensor, info.
  repeat (split; [assumption|]).
  exact (Hstable (PStr "000004d2") eq_refl).
Defined.

(** X14.  The device entry of an occupancy sensor cannot be removed while
    its group is among the bridge's occupancy groups: if the entry carries
    the identifier of the sensor's device,
    async_remove_config_entry_device returns False. *)
Theorem occupancy_sensor_device_is_kept
    (serial_to_unique_id : pyval → result string)
    (devices : list (string * pydict)) (buttons : list (Z * pydict))
    (occupancy_groups : list (pyval * pydict))
    (identifiers : list (string * pyval))
    (group bridge_device : pydict) (key : pyval)
    (sensor : BinarySensor.LutronOccupancySensor) (info : device_info)
    (allowed : bool) :
  BinarySensor.LutronOccupancySensor__init__ serial_to_unique_id group
    bridge_device = Ok sensor →
  Init._attr_device_info (BinarySensor.os_entity sensor) = Some info →
  assoc_get devices BRIDGE_DEVICE_ID = Some bridge_device →
  (key, group) ∈ occupancy_groups →
  di_identifiers info ∈ identifiers →
  Init.async_remove_config_entry_device serial_to_unique_id devices buttons
    occupancy_groups identifiers = Ok allowed →
  allowed = false.
Proof.
  intros Hinit Hinfo Hbridge Hgroup Hident Hremove.
  apply occupancy_init_inv in Hinit
    as (bs & buid & gid & dn & area & name & info' & _ & Hbs & Hbuid & Hgid & _
        & _ & _ & _ & Hinfo' & _ & Hid).
  assert (info' = info) as -> by congruence.
  unfold Init.async_remove_config_entry_device in Hremove.
  bind_as Hremove known Hknown. injection Hremove as <-.
  apply negb_false_iff, existsb_exists.
  exists (di_identifiers info). split; [by apply list_elem_of_In|].
  apply bool_decide_eq_true.
  apply (all_identifiers_elem serial_to_unique_id devices buttons
           occupancy_groups bridge_device bs buid known _ Hbridge Hbs Hbuid
           Hknown).
  right. left. exists group, gid. split; [|done].
  apply list_elem_of_fmap. by exists (key, group).
Qed.

Lemma occupancy_sensor_device_is_kept_witness :
  let group : pydict :=
    {[ "occupancy_group_id" := PStr "2"; "status" := PStr "Occupied";
       "name" := PStr "Hall_Occupancy"; "serial" := PNone;
       "model" := PStr "LRF2"; "type" := PStr "RPSOccupancySensor" ]} in
  let bridge : pydict := {[ "serial" := PInt 1234 ]} in
  ∃ sensor info,
    BinarySensor.LutronOccupancySensor__init__ (λ _, Ok "000004d2"%string)
      group bridge = Ok sensor
    ∧ Init._attr_device_info (BinarySensor.os_entity sensor) = Some info
    ∧ Init.async_remove_config_entry_device (λ _, Ok "000004d2"%string)
        [("1"%string, bridge)] [] [(PStr "2", group)] [di_identifiers info]
      = Ok false.
Proof.
  intros group bridge.
  assert (∃ sensor info,
            BinarySensor.LutronOccupancySensor__init__
              (λ _, Ok "000004d2"%string) group bridge = Ok sensor
            ∧ Init._attr_device_info (BinarySensor.os_entity sensor) = Some info)
    as (sensor & info & Hsensor & Hinfo)
    by (vm_compute; eexists _, _; split; reflexivity).
  exists sensor, info. split; [exact Hsensor|]. split; [exact Hinfo|].
  destruct (Init.async_remove_config_entry_device (λ _, Ok "000004d2"%string)
              [("1"%string, bridge)] [] [(PStr "2", group)]
              [di_identifiers info]) as [allowed|e] eqn:Hremove.
  - f_equal.
    apply (occupancy_sensor_device_is_kept (λ _, Ok "000004d2"%string)
             [("1"%string, bridge)] [] [(PStr "2", group)]
             [di_identifiers info] group bridge (PStr "2") sensor info allowed
             Hsensor Hinfo eq_refl).
    + apply elem_of_cons. by left.
    + apply elem_of_cons. by left.
    + exact Hremove.
  - exfalso. revert Hremove. vm_compute. discriminate.
Defined.
